(** * pysk8: sensor state, loss tracking and streaming control

    A shallow embedding of [pysk8/imu.py], [pysk8/extana.py] and the streaming
    part of [pysk8/core.py].

    - Python objects are records; a method is a computation in a state and
      exception monad over the record of [self] (an exception keeps the
      assignments made before it was raised).
    - A Python number is an [int] or a [float]; floats are modelled by exact
      rationals, so rounding inside the float operations is abstracted away.
    - [time.time()] is an input: every function that reads the clock takes
      the reading as an argument. *)

From Stdlib Require Import ZArith QArith Qround Lqa Lia List String.
From Stdlib.Strings Require Import Byte.
From stdpp Require Import base option list gmap strings pretty sorting.

Local Open Scope Z_scope.

(** ** Exceptions and the method monad *)

Inductive exn : Type :=
| AttributeError | IndexError | KeyError | ValueError | StructError | BleakError.

Inductive outcome (A : Type) : Type :=
| Ret (a : A)
| Raise (e : exn).
Arguments Ret {A} a.
Arguments Raise {A} e.

#[global] Instance outcome_ret : MRet outcome := fun _ a => Ret a.
#[global] Instance outcome_bind : MBind outcome := fun _ _ k o =>
  match o with Ret a => k a | Raise e => Raise e end.

Definition M (St A : Type) : Type := St -> St * outcome A.

#[global] Instance M_ret {St} : MRet (M St) := fun _ a s => (s, Ret a).
#[global] Instance M_bind {St} : MBind (M St) := fun _ _ k m s =>
  match m s with
  | (s', Ret a) => k a s'
  | (s', Raise e) => (s', Raise e)
  end.

Definition raise {St A} (e : exn) : M St A := fun s => (s, Raise e).
Definition get {St} : M St St := fun s => (s, Ret s).
Definition modify {St} (f : St -> St) : M St unit := fun s => (f s, Ret tt).
Definition lift {St A} (o : outcome A) : M St A := fun s => (s, o).

(** [getattr] of an attribute that may not have been assigned yet. *)
Definition attr {A} (o : option A) : outcome A :=
  match o with Some a => Ret a | None => Raise AttributeError end.

(** [l[i]] on a tuple or list, for a non-negative index. *)
Definition item {A} (l : list A) (i : nat) : outcome A :=
  match l !! i with Some a => Ret a | None => Raise IndexError end.

(** [[f(x) for x in l]], left to right, stopping at the first exception. *)
Fixpoint for_each {A B} (f : A -> outcome B) (l : list A) : outcome (list B) :=
  match l with
  | [] => Ret []
  | x :: l' => y ← f x; ys ← for_each f l'; Ret (y :: ys)
  end.

(** ** Python numbers *)

Inductive num : Type :=
| I (z : Z)
| F (q : Q).

Definition to_Q (n : num) : Q :=
  match n with I z => inject_Z z | F q => q end.

(** [a * b] and [a - b]: exact on two [int]s.  With a float operand the
    result is the exact rational: this is the double Python computes when
    the operands and the exact result are doubles, and rounding is not
    modelled otherwise. *)
Definition py_mul (a b : num) : num :=
  match a, b with
  | I x, I y => I (x * y)
  | _, _ => F (to_Q a * to_Q b)
  end.

Definition py_sub (a b : num) : num :=
  match a, b with
  | I x, I y => I (x - y)
  | _, _ => F (to_Q a - to_Q b)
  end.

(** [int(x)] on a float drops the fractional part (towards zero). *)
Definition Qtrunc (q : Q) : Z := Z.quot (Qnum q) (Zpos (Qden q)).

Definition py_int (a : num) : num :=
  match a with I z => I z | F q => I (Qtrunc q) end.

(** [a == b] on numbers compares values, whatever the two types. *)
Definition py_eq (a b : num) : bool :=
  match a, b with
  | I x, I y => x =? y
  | _, _ => Qeq_bool (to_Q a) (to_Q b)
  end.

Definition Qlt_bool (a b : Q) : bool := negb (Qle_bool b a).

(** ** [imu.py]: class [IMUData] *)

Module IMUData.

Definition PACKET_PERIOD : Z := 3.

(** A section of the calibration file: option name to the float its text
    denotes ([float(calibration_data[k])]). *)
Abbreviation dict := (gmap string Q).

(** The attributes of an instance.  [gyro_offsets], [mag_scale], [mag_offsets],
    [has_acc_calib] and [timestamp] are assigned by no statement of [reset]:
    they are [None] until [load_calibration] or [update] creates them. *)
Record t : Type := mk {
  _calibration_data : option dict;
  index : Z;
  acc : list num;
  mag : list num;
  gyro : list num;
  acc_scale : list num;
  acc_offsets : list num;
  gyro_offsets : option (list num);
  mag_scale : option (list num);
  mag_offsets : option (list num);
  seq : Z;
  timestamp : option Q;
  _use_calibration : bool;
  _has_acc_calib : bool;
  has_acc_calib : option bool;
  has_mag_calib : bool;
  has_gyro_calib : bool;
  _packet_metadata : list (Q * Z);
  _packet_start : Q;
  _packets_lost : Z
}.

(** Attribute assignment, [self.x = v]. *)
Definition set_acc v (d : t) : t :=
  let 'mk _calibration_data' index' _ mag' gyro' acc_scale' acc_offsets' gyro_offsets'
      mag_scale' mag_offsets' seq' timestamp' _use_calibration' _has_acc_calib'
      has_acc_calib' has_mag_calib' has_gyro_calib' _packet_metadata' _packet_start'
      _packets_lost' := d in
  mk _calibration_data' index' v mag' gyro' acc_scale' acc_offsets' gyro_offsets'
     mag_scale' mag_offsets' seq' timestamp' _use_calibration' _has_acc_calib'
     has_acc_calib' has_mag_calib' has_gyro_calib' _packet_metadata' _packet_start'
     _packets_lost'.
Definition set_mag v (d : t) : t :=
  let 'mk _calibration_data' index' acc' _ gyro' acc_scale' acc_offsets' gyro_offsets'
      mag_scale' mag_offsets' seq' timestamp' _use_calibration' _has_acc_calib'
      has_acc_calib' has_mag_calib' has_gyro_calib' _packet_metadata' _packet_start'
      _packets_lost' := d in
  mk _calibration_data' index' acc' v gyro' acc_scale' acc_offsets' gyro_offsets'
     mag_scale' mag_offsets' seq' timestamp' _use_calibration' _has_acc_calib'
     has_acc_calib' has_mag_calib' has_gyro_calib' _packet_metadata' _packet_start'
     _packets_lost'.
Definition set_gyro v (d : t) : t :=
  let 'mk _calibration_data' index' acc' mag' _ acc_scale' acc_offsets' gyro_offsets'
      mag_scale' mag_offsets' seq' timestamp' _use_calibration' _has_acc_calib'
      has_acc_calib' has_mag_calib' has_gyro_calib' _packet_metadata' _packet_start'
      _packets_lost' := d in
  mk _calibration_data' index' acc' mag' v acc_scale' acc_offsets' gyro_offsets'
     mag_scale' mag_offsets' seq' timestamp' _use_calibration' _has_acc_calib'
     has_acc_calib' has_mag_calib' has_gyro_calib' _packet_metadata' _packet_start'
     _packets_lost'.
Definition set_acc_scale v (d : t) : t :=
  let 'mk _calibration_data' index' acc' mag' gyro' _ acc_offsets' gyro_offsets'
      mag_scale' mag_offsets' seq' timestamp' _use_calibration' _has_acc_calib'
      has_acc_calib' has_mag_calib' has_gyro_calib' _packet_metadata' _packet_start'
      _packets_lost' := d in
  mk _calibration_data' index' acc' mag' gyro' v acc_offsets' gyro_offsets' mag_scale'
     mag_offsets' seq' timestamp' _use_calibration' _has_acc_calib' has_acc_calib'
     has_mag_calib' has_gyro_calib' _packet_metadata' _packet_start' _packets_lost'.
Definition set_acc_offsets v (d : t) : t :=
  let 'mk _calibration_data' index' acc' mag' gyro' acc_scale' _ gyro_offsets' mag_scale'
      mag_offsets' seq' timestamp' _use_calibration' _has_acc_calib' has_acc_calib'
      has_mag_calib' has_gyro_calib' _packet_metadata' _packet_start' _packets_lost' := d
      in
  mk _calibration_data' index' acc' mag' gyro' acc_scale' v gyro_offsets' mag_scale'
     mag_offsets' seq' timestamp' _use_calibration' _has_acc_calib' has_acc_calib'
     has_mag_calib' has_gyro_calib' _packet_metadata' _packet_start' _packets_lost'.
Definition set_gyro_offsets v (d : t) : t :=
  let 'mk _calibration_data' index' acc' mag' gyro' acc_scale' acc_offsets' _ mag_scale'
      mag_offsets' seq' timestamp' _use_calibration' _has_acc_calib' has_acc_calib'
      has_mag_calib' has_gyro_calib' _packet_metadata' _packet_start' _packets_lost' := d
      in
  mk _calibration_data' index' acc' mag' gyro' acc_scale' acc_offsets' v mag_scale'
     mag_offsets' seq' timestamp' _use_calibration' _has_acc_calib' has_acc_calib'
     has_mag_calib' has_gyro_calib' _packet_metadata' _packet_start' _packets_lost'.
Definition set_mag_scale v (d : t) : t :=
  let 'mk _calibration_data' index' acc' mag' gyro' acc_scale' acc_offsets' gyro_offsets'
      _ mag_offsets' seq' timestamp' _use_calibration' _has_acc_calib' has_acc_calib'
      has_mag_calib' has_gyro_calib' _packet_metadata' _packet_start' _packets_lost' := d
      in
  mk _calibration_data' index' acc' mag' gyro' acc_scale' acc_offsets' gyro_offsets' v
     mag_offsets' seq' timestamp' _use_calibration' _has_acc_calib' has_acc_calib'
     has_mag_calib' has_gyro_calib' _packet_metadata' _packet_start' _packets_lost'.
Definition set_mag_offsets v (d : t) : t :=
  let 'mk _calibration_data' index' acc' mag' gyro' acc_scale' acc_offsets' gyro_offsets'
      mag_scale' _ seq' timestamp' _use_calibration' _has_acc_calib' has_acc_calib'
      has_mag_calib' has_gyro_calib' _packet_metadata' _packet_start' _packets_lost' := d
      in
  mk _calibration_data' index' acc' mag' gyro' acc_scale' acc_offsets' gyro_offsets'
     mag_scale' v seq' timestamp' _use_calibration' _has_acc_calib' has_acc_calib'
     has_mag_calib' has_gyro_calib' _packet_metadata' _packet_start' _packets_lost'.
Definition set_seq v (d : t) : t :=
  let 'mk _calibration_data' index' acc' mag' gyro' acc_scale' acc_offsets' gyro_offsets'
      mag_scale' mag_offsets' _ timestamp' _use_calibration' _has_acc_calib'
      has_acc_calib' has_mag_calib' has_gyro_calib' _packet_metadata' _packet_start'
      _packets_lost' := d in
  mk _calibration_data' index' acc' mag' gyro' acc_scale' acc_offsets' gyro_offsets'
     mag_scale' mag_offsets' v timestamp' _use_calibration' _has_acc_calib' has_acc_calib'
     has_mag_calib' has_gyro_calib' _packet_metadata' _packet_start' _packets_lost'.
Definition set_timestamp v (d : t) : t :=
  let 'mk _calibration_data' index' acc' mag' gyro' acc_scale' acc_offsets' gyro_offsets'
      mag_scale' mag_offsets' seq' _ _use_calibration' _has_acc_calib' has_acc_calib'
      has_mag_calib' has_gyro_calib' _packet_metadata' _packet_start' _packets_lost' := d
      in
  mk _calibration_data' index' acc' mag' gyro' acc_scale' acc_offsets' gyro_offsets'
     mag_scale' mag_offsets' seq' v _use_calibration' _has_acc_calib' has_acc_calib'
     has_mag_calib' has_gyro_calib' _packet_metadata' _packet_start' _packets_lost'.
Definition set__use_calibration v (d : t) : t :=
  let 'mk _calibration_data' index' acc' mag' gyro' acc_scale' acc_offsets' gyro_offsets'
      mag_scale' mag_offsets' seq' timestamp' _ _has_acc_calib' has_acc_calib'
      has_mag_calib' has_gyro_calib' _packet_metadata' _packet_start' _packets_lost' := d
      in
  mk _calibration_data' index' acc' mag' gyro' acc_scale' acc_offsets' gyro_offsets'
     mag_scale' mag_offsets' seq' timestamp' v _has_acc_calib' has_acc_calib'
     has_mag_calib' has_gyro_calib' _packet_metadata' _packet_start' _packets_lost'.
Definition set__has_acc_calib v (d : t) : t :=
  let 'mk _calibration_data' index' acc' mag' gyro' acc_scale' acc_offsets' gyro_offsets'
      mag_scale' mag_offsets' seq' timestamp' _use_calibration' _ has_acc_calib'
      has_mag_calib' has_gyro_calib' _packet_metadata' _packet_start' _packets_lost' := d
      in
  mk _calibration_data' index' acc' mag' gyro' acc_scale' acc_offsets' gyro_offsets'
     mag_scale' mag_offsets' seq' timestamp' _use_calibration' v has_acc_calib'
     has_mag_calib' has_gyro_calib' _packet_metadata' _packet_start' _packets_lost'.
Definition set_has_acc_calib v (d : t) : t :=
  let 'mk _calibration_data' index' acc' mag' gyro' acc_scale' acc_offsets' gyro_offsets'
      mag_scale' mag_offsets' seq' timestamp' _use_calibration' _has_acc_calib' _
      has_mag_calib' has_gyro_calib' _packet_metadata' _packet_start' _packets_lost' := d
      in
  mk _calibration_data' index' acc' mag' gyro' acc_scale' acc_offsets' gyro_offsets'
     mag_scale' mag_offsets' seq' timestamp' _use_calibration' _has_acc_calib' v
     has_mag_calib' has_gyro_calib' _packet_metadata' _packet_start' _packets_lost'.
Definition set_has_mag_calib v (d : t) : t :=
  let 'mk _calibration_data' index' acc' mag' gyro' acc_scale' acc_offsets' gyro_offsets'
      mag_scale' mag_offsets' seq' timestamp' _use_calibration' _has_acc_calib'
      has_acc_calib' _ has_gyro_calib' _packet_metadata' _packet_start' _packets_lost' :=
      d in
  mk _calibration_data' index' acc' mag' gyro' acc_scale' acc_offsets' gyro_offsets'
     mag_scale' mag_offsets' seq' timestamp' _use_calibration' _has_acc_calib'
     has_acc_calib' v has_gyro_calib' _packet_metadata' _packet_start' _packets_lost'.
Definition set_has_gyro_calib v (d : t) : t :=
  let 'mk _calibration_data' index' acc' mag' gyro' acc_scale' acc_offsets' gyro_offsets'
      mag_scale' mag_offsets' seq' timestamp' _use_calibration' _has_acc_calib'
      has_acc_calib' has_mag_calib' _ _packet_metadata' _packet_start' _packets_lost' := d
      in
  mk _calibration_data' index' acc' mag' gyro' acc_scale' acc_offsets' gyro_offsets'
     mag_scale' mag_offsets' seq' timestamp' _use_calibration' _has_acc_calib'
     has_acc_calib' has_mag_calib' v _packet_metadata' _packet_start' _packets_lost'.
Definition set__packet_metadata v (d : t) : t :=
  let 'mk _calibration_data' index' acc' mag' gyro' acc_scale' acc_offsets' gyro_offsets'
      mag_scale' mag_offsets' seq' timestamp' _use_calibration' _has_acc_calib'
      has_acc_calib' has_mag_calib' has_gyro_calib' _ _packet_start' _packets_lost' := d
      in
  mk _calibration_data' index' acc' mag' gyro' acc_scale' acc_offsets' gyro_offsets'
     mag_scale' mag_offsets' seq' timestamp' _use_calibration' _has_acc_calib'
     has_acc_calib' has_mag_calib' has_gyro_calib' v _packet_start' _packets_lost'.
Definition set__packet_start v (d : t) : t :=
  let 'mk _calibration_data' index' acc' mag' gyro' acc_scale' acc_offsets' gyro_offsets'
      mag_scale' mag_offsets' seq' timestamp' _use_calibration' _has_acc_calib'
      has_acc_calib' has_mag_calib' has_gyro_calib' _packet_metadata' _ _packets_lost' :=
      d in
  mk _calibration_data' index' acc' mag' gyro' acc_scale' acc_offsets' gyro_offsets'
     mag_scale' mag_offsets' seq' timestamp' _use_calibration' _has_acc_calib'
     has_acc_calib' has_mag_calib' has_gyro_calib' _packet_metadata' v _packets_lost'.
Definition set__packets_lost v (d : t) : t :=
  let 'mk _calibration_data' index' acc' mag' gyro' acc_scale' acc_offsets' gyro_offsets'
      mag_scale' mag_offsets' seq' timestamp' _use_calibration' _has_acc_calib'
      has_acc_calib' has_mag_calib' has_gyro_calib' _packet_metadata' _packet_start' _ :=
      d in
  mk _calibration_data' index' acc' mag' gyro' acc_scale' acc_offsets' gyro_offsets'
     mag_scale' mag_offsets' seq' timestamp' _use_calibration' _has_acc_calib'
     has_acc_calib' has_mag_calib' has_gyro_calib' _packet_metadata' _packet_start' v.

Definition axes : list string := ["x"; "y"; "z"]%string.

Definition getitem (calibration_data : dict) (k : string) : outcome Q :=
  match calibration_data !! k with Some v => Ret v | None => Raise KeyError end.

(** [tuple(map(float, [calibration_data[f'{sensor}{x}{suffix}'] for x in axes]))] *)
Definition read_axes (calibration_data : dict) (sensor suffix : string)
  : outcome (list num) :=
  for_each (fun x => v ← getitem calibration_data (sensor +:+ x +:+ suffix); Ret (F v)) axes.

Definition load_calibration (calibration_data : option dict) : M t bool :=
  match calibration_data with
  | None => mret false
  | Some cd =>
      (if decide (is_Some (cd !! "accx_offset"%string)) then
         sc ← lift (read_axes cd "acc" "_scale");
         modify (set_acc_scale sc);;
         off ← lift (read_axes cd "acc" "_offset");
         modify (set_acc_offsets off);;
         modify (set_has_acc_calib (Some true))
       else
         modify (set_acc_scale [F 1; F 1; F 1]);;
         modify (set_acc_offsets [I 0; I 0; I 0]));;
      (if decide (is_Some (cd !! "gyrox_offset"%string)) then
         off ← lift (read_axes cd "gyro" "_offset");
         modify (set_gyro_offsets (Some off));;
         modify (set_has_gyro_calib true)
       else
         modify (set_gyro_offsets (Some [I 0; I 0; I 0])));;
      (if decide (is_Some (cd !! "magx_offset"%string)) then
         sc ← lift (read_axes cd "mag" "_scale");
         modify (set_mag_scale (Some sc));;
         off ← lift (read_axes cd "mag" "_offset");
         modify (set_mag_offsets (Some off));;
         modify (set_has_mag_calib true)
       else
         modify (set_mag_offsets (Some [F 1; F 1; F 1]));;
         modify (set_mag_scale (Some [I 0; I 0; I 0])));;
      modify (set__use_calibration true);;
      mret true
  end.

(** [reset], with [now] the value [time.time()] returns in it. *)
Definition reset (now : Q) : M t unit :=
  modify (set_acc [F 0; F 0; F 0]);;
  modify (set_mag [I 0; I 0; I 0]);;
  modify (set_gyro [I 0; I 0; I 0]);;
  modify (set_acc_scale [F 1; F 1; F 1]);;
  modify (set_acc_offsets [I 0; I 0; I 0]);;
  modify (set_seq 0);;
  modify (set__use_calibration false);;
  modify (set__has_acc_calib false);;
  modify (set_has_mag_calib false);;
  modify (set_has_gyro_calib false);;
  d ← get;
  load_calibration (_calibration_data d);;
  modify (set__packet_metadata []);;
  modify (set__packet_start now);;
  modify (set__packets_lost 0).

(** The object [__init__] starts from: only the attributes that [reset]
    never assigns are meaningful here (they do not exist yet); every other
    attribute is assigned by [reset] before it is read. *)
Definition blank (index : Z) (calibration_data : option dict) : t :=
  mk calibration_data index [] [] [] [] [] None None None 0 None false false None
     false false [] 0%Q 0.

(** [IMUData(index, calibration_data)]: an exception in [reset] leaves no
    object. *)
Definition __init__ (index : Z) (calibration_data : option dict) (now : Q)
  : outcome t :=
  match reset now (blank index calibration_data) with
  | (d, Ret _) => Ret d
  | (_, Raise e) => Raise e
  end.

Definition get_sample_rate (now : Q) (d : t) : num :=
  if Qlt_bool (now - _packet_start d) (inject_Z PACKET_PERIOD) then I (-1)
  else F (inject_Z (Z.of_nat (length (_packet_metadata d))) / inject_Z PACKET_PERIOD).

Definition get_packets_lost (now : Q) (d : t) : num :=
  let sample_rate := get_sample_rate now d in
  if py_eq sample_rate (I (-1)) then I (-1)
  else I (foldr Z.add 0 (map snd (_packet_metadata d))).

Definition get_total_packets_lost (d : t) : Z := _packets_lost d.

Definition set_calibration (state : bool) : M t unit :=
  modify (set__use_calibration state).

Definition get_calibration (d : t) : bool := _use_calibration d.

Definition _get_cal (raw offset scale : list num) (ignore_cal : bool)
  : outcome (list num) :=
  if ignore_cal then Ret raw
  else for_each (fun x => r ← item raw x; s ← item scale x; o ← item offset x;
                          Ret (py_sub (py_mul r s) o))
                (List.seq 0 (length raw)).

(** The loop [while now - meta[-1][0] > PACKET_PERIOD: meta.pop()], run on
    the reversed list: its head is [meta[-1]].  The list is popped in place,
    so when [meta[-1]] raises [IndexError] the list is already empty. *)
Fixpoint pop_stale (now : Q) (rev_meta : list (Q * Z)) : list (Q * Z) * outcome unit :=
  match rev_meta with
  | [] => ([], Raise IndexError)
  | e :: rest =>
      if Qlt_bool (inject_Z PACKET_PERIOD) (now - fst e) then pop_stale now rest
      else (rev_meta, Ret tt)
  end.

Definition prune (now : Q) : M (list (Q * Z)) unit := fun meta =>
  let (r, o) := pop_stale now (rev meta) in (rev r, o).

(** A computation on the list held in [_packet_metadata]. *)
Definition on_packet_metadata {A} (m : M (list (Q * Z)) A) : M t A := fun d =>
  let (meta, o) := m (_packet_metadata d) in (set__packet_metadata meta d, o).

(** [update], lines 95-102: store the sample, calibrated or not. *)
Definition store_sample (acc gyro mag : list num) : M t unit :=
  d ← get;
  if negb (_use_calibration d) then
    modify (set_acc acc);;
    modify (set_gyro gyro);;
    modify (set_mag mag)
  else
    a ← lift (_get_cal acc (acc_offsets d) (acc_scale d) false);
    modify (set_acc (map py_int a));;
    go ← lift (attr (gyro_offsets d));
    g ← lift (_get_cal gyro go [F 1; F 1; F 1] false);
    modify (set_gyro g);;
    mo ← lift (attr (mag_offsets d));
    ms ← lift (attr (mag_scale d));
    m ← lift (_get_cal mag mo ms false);
    modify (set_mag (map py_int m)).

(** [update], lines 104-115: sequence check and rolling window; [now] is
    the clock reading taken after the insertion. *)
Definition track_packet (seq : Z) (timestamp now : Q) : M t unit :=
  d ← get;
  dropped ←
    (if negb (IMUData.seq d =? -1) then
       let expected := (IMUData.seq d + 1) `mod` 256 in
       if negb (expected =? seq) then
         let dropped := (expected - seq) `mod` 256 in
         modify (set__packets_lost (_packets_lost d + dropped));;
         mret dropped
       else mret 0
     else mret 0);
  modify (set_seq seq);;
  modify (set_timestamp (Some timestamp));;
  d ← get;
  modify (set__packet_metadata ((timestamp, dropped) :: _packet_metadata d));;
  on_packet_metadata (prune now).

Definition update (acc gyro mag : list num) (seq : Z) (timestamp now : Q) : M t unit :=
  store_sample acc gyro mag;;
  track_packet seq timestamp now.

End IMUData.

(** ** [extana.py]: class [ExtAnaData] *)

Module ExtAnaData.

Record t : Type := mk {
  ch1 : Z;
  ch2 : Z;
  temp : num;
  seq : Z;
  timestamp : num
}.

Definition __init__ : t := mk 0 0 (I 0) 0 (I 0).

(** [temp / 100.0] is a float division. *)
Definition update (ch1 ch2 temp seq : Z) (timestamp : Q) : M t unit :=
  modify (fun _ => mk ch1 ch2 (F (inject_Z temp / 100)) seq (F timestamp)).

End ExtAnaData.

(** ** [constants.py] *)

(** Modelled from the spec: [constants.py] is not among the sources.  The
    spec fixes the IMU slots to the indices 0..4 and the sensor bits to
    ACC=1, GYRO=2, MAG=4; the UUID strings are kept abstract, one distinct
    key per constant name imported by [core.py]. *)
Definition MAX_IMUS : Z := 5.
Definition SENSOR_ACC : Z := 1.
Definition SENSOR_GYRO : Z := 2.
Definition SENSOR_MAG : Z := 4.
Definition SENSOR_ALL : Z := Z.lor SENSOR_ACC (Z.lor SENSOR_GYRO SENSOR_MAG).

Inductive uuid : Type :=
| UUID_BATTERY_LEVEL | UUID_DEVICE_NAME | UUID_EXTANA_LED | UUID_FIRMWARE_REVISION
| UUID_HARDWARE_STATE | UUID_HARDWARE_STATE_TMP | UUID_POLLING_OVERRIDE
| UUID_IMU_SELECTION | UUID_SENSOR_SELECTION | UUID_IMU_CCC | UUID_EXTANA_CCC
| UUID_EXTANA_IMU_STREAMING | UUID_EXTANA_IMU_STREAMING_TMP.

#[global] Instance uuid_eq_dec : EqDecision uuid.
Proof. solve_decision. Defined.

Definition uuid_code (u : uuid) : nat :=
  match u with
  | UUID_BATTERY_LEVEL => 0 | UUID_DEVICE_NAME => 1 | UUID_EXTANA_LED => 2
  | UUID_FIRMWARE_REVISION => 3 | UUID_HARDWARE_STATE => 4
  | UUID_HARDWARE_STATE_TMP => 5 | UUID_POLLING_OVERRIDE => 6
  | UUID_IMU_SELECTION => 7 | UUID_SENSOR_SELECTION => 8 | UUID_IMU_CCC => 9
  | UUID_EXTANA_CCC => 10 | UUID_EXTANA_IMU_STREAMING => 11
  | UUID_EXTANA_IMU_STREAMING_TMP => 12
  end%nat.

Definition uuid_of_code (n : nat) : uuid :=
  match n with
  | 0 => UUID_BATTERY_LEVEL | 1 => UUID_DEVICE_NAME | 2 => UUID_EXTANA_LED
  | 3 => UUID_FIRMWARE_REVISION | 4 => UUID_HARDWARE_STATE
  | 5 => UUID_HARDWARE_STATE_TMP | 6 => UUID_POLLING_OVERRIDE
  | 7 => UUID_IMU_SELECTION | 8 => UUID_SENSOR_SELECTION | 9 => UUID_IMU_CCC
  | 10 => UUID_EXTANA_CCC | 11 => UUID_EXTANA_IMU_STREAMING
  | _ => UUID_EXTANA_IMU_STREAMING_TMP
  end%nat.

#[global] Instance uuid_countable : Countable uuid.
Proof. apply (inj_countable' uuid_code uuid_of_code). by intros []. Defined.

(** ** The transport: a [bleak.BleakClient]

    A GATT characteristic is identified with its handle.  The device keeps
    the list of values written to it (oldest first) and the characteristics
    with notifications on, each with the routine they are bound to.  Reads,
    writes and subscriptions succeed when the characteristic exists.  Given
    no characteristic, the library raises an exception of its own choice
    ([BleakError] or [ValueError], depending on the release): [BleakError]
    stands for it here. *)

Inductive handler : Type := imu_handler | extana_handler.

Module BleakClient.

Record t : Type := mk {
  is_connected : bool;
  services : gmap uuid Z;
  gatt_writes : list (Z * list byte);
  notifying : gmap Z handler
}.

Definition write_gatt_char (handle : Z) (data : list byte) : M t unit :=
  modify (fun '(mk connected srv writes subs) =>
            mk connected srv (writes ++ [(handle, data)]) subs).

Definition start_notify (char : option Z) (callback : handler) : M t unit :=
  match char with
  | None => raise BleakError
  | Some h => modify (fun '(mk connected srv writes subs) =>
                        mk connected srv writes (<[h:=callback]> subs))
  end.

Definition stop_notify (char : option Z) : M t unit :=
  match char with
  | None => raise BleakError
  | Some h => modify (fun '(mk connected srv writes subs) =>
                        mk connected srv writes (delete h subs))
  end.

(** [disconnect] closes the link; [answer] is what the library's method
    returns, which [SK8.disconnect] hands on: [True] in the releases before
    bleak 1.0, [None] since. *)
Definition disconnect (answer : option bool) : M t (option bool) :=
  modify (fun '(mk _ srv writes _) => mk false srv writes ∅);; mret answer.

End BleakClient.

(** [struct.pack('B', v)]: one unsigned byte, [struct.error] out of range. *)
Definition struct_pack_B (v : Z) : outcome (list byte) :=
  if v <? 0 then Raise StructError
  else match Byte.of_N (Z.to_N v) with
       | Some b => Ret [b]
       | None => Raise StructError
       end.

(** ** [constants.py], continued *)

(** Modelled from the spec: [constants.py] is not among the sources.  The
    spec gives the device name at most 20 bytes (the docstring of
    [set_device_name] says 20 characters) and the LED channels 0-255 for
    callers, 0-3000 on the device. *)
Definition MAX_DEVICE_NAME_LEN : Z := 20.
Definition LED_MIN : Z := 0.
Definition LED_MAX : Z := 255.
Definition INT_LED_MAX : Z := 3000.

(** ** Strings and bytes *)

Definition Z_of_byte (b : byte) : Z := Z.of_N (Byte.to_N b).

(** [s.encode('ascii')] and [b.decode('ascii')]: a character or byte above
    127 is a [UnicodeError], which is a [ValueError].  A string is the list
    of its code points, taken below 256. *)
Fixpoint encode_ascii (s : string) : outcome (list byte) :=
  match s with
  | EmptyString => Ret []
  | String c rest =>
      if (128 <=? Z.of_N (Ascii.N_of_ascii c)) then Raise ValueError
      else bs ← encode_ascii rest; Ret (Ascii.byte_of_ascii c :: bs)
  end.

Fixpoint decode_ascii (bs : list byte) : outcome string :=
  match bs with
  | [] => Ret EmptyString
  | b :: rest =>
      if (128 <=? Z_of_byte b) then Raise ValueError
      else s ← decode_ascii rest; Ret (String (Ascii.ascii_of_byte b) s)
  end.

(** [struct.pack('<H', v)]: two bytes, low byte first. *)
Definition struct_pack_H (v : Z) : outcome (list byte) :=
  if (v <? 0) || (65535 <? v) then Raise StructError
  else match Byte.of_N (Z.to_N (v `mod` 256)), Byte.of_N (Z.to_N (v / 256)) with
       | Some lo, Some hi => Ret [lo; hi]
       | _, _ => Raise StructError
       end.

(** [struct.pack('<HHH', a, b, c)] *)
Definition struct_pack_HHH (a b c : Z) : outcome (list byte) :=
  x ← struct_pack_H a; y ← struct_pack_H b; z ← struct_pack_H c; Ret (x ++ y ++ z).

(** [struct.unpack('<HHH', data)]: [struct.error] unless there are six
    bytes. *)
Definition struct_unpack_HHH (data : list byte) : outcome (Z * Z * Z) :=
  match data with
  | [a0; a1; b0; b1; c0; c1] =>
      Ret (Z_of_byte a0 + 256 * Z_of_byte a1,
           Z_of_byte b0 + 256 * Z_of_byte b1,
           Z_of_byte c0 + 256 * Z_of_byte c1)
  | _ => Raise StructError
  end.

(** [bool(None)], the value of an awaited call that returns nothing, and the
    truth value of a coroutine object that is never awaited (its body does
    not run). *)
Definition bool_of_None (_ : unit) : bool := false.
Definition bool_of_coroutine {St A} (_ : M St A) : bool := true.

(** ** [core.py]: class [SK8]

    The attributes kept are the ones the streaming, calibration and
    notification methods use; the user callbacks, the LED, hardware and
    firmware caches are left out. *)

Module SK8.

Record t : Type := mk {
  _imus : list IMUData.t;
  _extana_data : ExtAnaData.t;
  _enabled_imus : list Z;
  _enabled_sensors : Z;
  _packets : Z;
  _uuid_chars : gmap uuid Z;
  _client : option BleakClient.t;
  _load_calibration : bool;
  _name : option string
}.

Definition set__imus v (s : t) : t :=
  let 'mk _ _extana_data' _enabled_imus' _enabled_sensors' _packets' _uuid_chars' _client'
      _load_calibration' _name' := s in
  mk v _extana_data' _enabled_imus' _enabled_sensors' _packets' _uuid_chars' _client'
     _load_calibration' _name'.
Definition set__extana_data v (s : t) : t :=
  let 'mk _imus' _ _enabled_imus' _enabled_sensors' _packets' _uuid_chars' _client'
      _load_calibration' _name' := s in
  mk _imus' v _enabled_imus' _enabled_sensors' _packets' _uuid_chars' _client'
     _load_calibration' _name'.
Definition set__enabled_imus v (s : t) : t :=
  let 'mk _imus' _extana_data' _ _enabled_sensors' _packets' _uuid_chars' _client'
      _load_calibration' _name' := s in
  mk _imus' _extana_data' v _enabled_sensors' _packets' _uuid_chars' _client'
     _load_calibration' _name'.
Definition set__enabled_sensors v (s : t) : t :=
  let 'mk _imus' _extana_data' _enabled_imus' _ _packets' _uuid_chars' _client'
      _load_calibration' _name' := s in
  mk _imus' _extana_data' _enabled_imus' v _packets' _uuid_chars' _client'
     _load_calibration' _name'.
Definition set__packets v (s : t) : t :=
  let 'mk _imus' _extana_data' _enabled_imus' _enabled_sensors' _ _uuid_chars' _client'
      _load_calibration' _name' := s in
  mk _imus' _extana_data' _enabled_imus' _enabled_sensors' v _uuid_chars' _client'
     _load_calibration' _name'.
Definition set__uuid_chars v (s : t) : t :=
  let 'mk _imus' _extana_data' _enabled_imus' _enabled_sensors' _packets' _ _client'
      _load_calibration' _name' := s in
  mk _imus' _extana_data' _enabled_imus' _enabled_sensors' _packets' v _client'
     _load_calibration' _name'.
Definition set__client v (s : t) : t :=
  let 'mk _imus' _extana_data' _enabled_imus' _enabled_sensors' _packets' _uuid_chars' _
      _load_calibration' _name' := s in
  mk _imus' _extana_data' _enabled_imus' _enabled_sensors' _packets' _uuid_chars' v
     _load_calibration' _name'.

(** A method call on [self._client]; on [None] it is an [AttributeError]. *)
Definition on_client {A} (m : M BleakClient.t A) : M t A := fun s =>
  match _client s with
  | None => (s, Raise AttributeError)
  | Some c => let (c', o) := m c in (set__client (Some c') s, o)
  end.

(** A method call on [self._imus[i]]. *)
Definition on_imu {A} (i : nat) (m : M IMUData.t A) : M t A := fun s =>
  match _imus s !! i with
  | None => (s, Raise IndexError)
  | Some d => let (d', o) := m d in (set__imus (<[i:=d']> (_imus s)) s, o)
  end.

Definition on_extana {A} (m : M ExtAnaData.t A) : M t A := fun s =>
  let (d', o) := m (_extana_data s) in (set__extana_data d' s, o).

(** [for x in l: body(x)] *)
Fixpoint for_ {St A} (l : list A) (body : A -> M St unit) : M St unit :=
  match l with
  | [] => mret tt
  | x :: l' => body x;; for_ l' body
  end.

(** [SK8(load_calibration)]; [now i] is the clock reading in the
    constructor of IMU [i]. *)
Definition __init__ (load_calibration : bool) (now : nat -> Q) : outcome t :=
  imus ← for_each (fun x => IMUData.__init__ (Z.of_nat x) None (now x))
                  (List.seq 0 (Z.to_nat MAX_IMUS));
  Ret (mk imus ExtAnaData.__init__ [] SENSOR_ALL 0 ∅ None load_calibration None).

(** [self._client is not None and self._client.is_connected] *)
Definition _check_connected (s : t) : bool :=
  match _client s with
  | Some c => BleakClient.is_connected c
  | None => false
  end.

Definition set_calibration (enabled : bool) (imus : list Z) : M t unit :=
  let imus := if (length imus =? 0)%nat
              then map Z.of_nat (List.seq 0 (Z.to_nat MAX_IMUS)) else imus in
  for_ imus (fun i =>
    if (i <? 0) || (i >=? MAX_IMUS) then mret tt
    else on_imu (Z.to_nat i) (IMUData.set_calibration enabled)).

Definition get_calibration (s : t) : list bool :=
  map IMUData.get_calibration (_imus s).

(** [f'{self._name}_IMU{i}'] *)
Definition section_name (name : option string) (i : nat) : string :=
  (match name with Some n => n | None => "None" end +:+ "_IMU" +:+ pretty i)%string.

Fixpoint load_sections (sections : gmap string IMUData.dict) (ixs : list nat)
  (success : bool) : M t bool :=
  match ixs with
  | [] => mret success
  | i :: rest =>
      s ← get;
      match sections !! section_name (_name s) i with
      | Some section =>
          (* [success or ...]: the call is skipped once [success] is true *)
          success' ← (if success then mret true
                      else on_imu i (IMUData.load_calibration (Some section)));
          load_sections sections rest success'
      | None => load_sections sections rest success
      end
  end.

(** [load_calibration]; [sections] is what [ConfigParser] reads from the
    calibration file (empty when there is no file). *)
Definition load_calibration (sections : gmap string IMUData.dict) : M t bool :=
  s ← get;
  if negb (_check_connected s) then mret false
  else load_sections sections (List.seq 0 (Z.to_nat MAX_IMUS)) false.

(** [connect]; [found] is the device the scan finds, as a client. *)
Definition connect (name address : option string) (found : option BleakClient.t)
  (sections : gmap string IMUData.dict) : M t bool :=
  match name, address with
  | None, None => mret false
  | _, _ =>
      match found with
      | None => mret false
      | Some c =>
          let 'BleakClient.mk _ srv writes subs := c in
          modify (set__client (Some (BleakClient.mk true srv writes subs)));;
          s ← get;
          (if _load_calibration s then load_calibration sections;; mret tt
           else mret tt);;
          mret true
      end
  end.

(** [disconnect]; [answer] is what the client's [disconnect] returns. *)
Definition disconnect (answer : option bool) : M t (option bool) :=
  s ← get;
  match _client s with
  | Some _ =>
      result ← on_client (BleakClient.disconnect answer);
      modify (set__packets 0);;
      mret result
  | None => mret (Some false)
  end.

Definition _get_characteristic_from_uuid (u : uuid) : M t (option Z) :=
  s ← get;
  if negb (_check_connected s) then mret None
  else match _uuid_chars s !! u with
       | Some char => mret (Some char)
       | None =>
           match _client s with
           | None => raise AttributeError
           | Some c =>
               match BleakClient.services c !! u with
               | None => mret None
               | Some char =>
                   modify (set__uuid_chars (<[u:=char]> (_uuid_chars s)));;
                   mret (Some char)
               end
           end
       end.

(** [normalize_uuid_str] is the identity on the abstract keys, and the
    handle of a characteristic is the characteristic. *)
Definition _get_characteristic_handle_from_uuid (u : uuid) : M t (option Z) :=
  _get_characteristic_from_uuid u.

Definition _write_attribute (handle : Z) (data : list byte) : M t unit :=
  s ← get;
  if negb (_check_connected s) then mret tt
  else on_client (BleakClient.write_gatt_char handle data).

(** [for imu in enabled_imus: imus_enabled |= (1 << imu)]; a negative shift
    count is a [ValueError]. *)
Fixpoint imu_bits (enabled_imus : list Z) (imus_enabled : Z) : outcome Z :=
  match enabled_imus with
  | [] => Ret imus_enabled
  | imu :: rest =>
      if imu <? 0 then Raise ValueError
      else imu_bits rest (Z.lor imus_enabled (Z.shiftl 1 imu))
  end.

Definition enable_imu_streaming (enabled_imus : list Z) (enabled_sensors : Z) : M t bool :=
  s ← get;
  if negb (_check_connected s) then mret false
  else
    imus_enabled ← lift (imu_bits enabled_imus 0);
    if enabled_sensors =? 0 then mret false
    else
      imu_select ← _get_characteristic_handle_from_uuid UUID_IMU_SELECTION;
      sensor_select ← _get_characteristic_handle_from_uuid UUID_SENSOR_SELECTION;
      match imu_select, sensor_select with
      | Some imu_select, Some sensor_select =>
          data ← lift (struct_pack_B imus_enabled);
          _write_attribute imu_select data;;
          data ← lift (struct_pack_B enabled_sensors);
          _write_attribute sensor_select data;;
          char ← _get_characteristic_from_uuid UUID_IMU_CCC;
          on_client (BleakClient.start_notify char imu_handler);;
          modify (set__enabled_imus enabled_imus);;
          modify (set__enabled_sensors enabled_sensors);;
          mret true
      | _, _ => mret false
      end.

Definition enable_extana_streaming (include_imu : bool) (enabled_sensors : Z) : M t bool :=
  s ← get;
  if negb (_check_connected s) then mret false
  else
    enable_imu_streaming [0] enabled_sensors;;
    extana_imu_streaming_handle ←
      _get_characteristic_handle_from_uuid UUID_EXTANA_IMU_STREAMING;
    extana_imu_streaming_tmp_handle ←
      _get_characteristic_handle_from_uuid UUID_EXTANA_IMU_STREAMING_TMP;
    match extana_imu_streaming_handle, extana_imu_streaming_tmp_handle with
    | None, None => mret false
    | _, _ =>
        match extana_imu_streaming_handle, extana_imu_streaming_tmp_handle with
        | Some h, _ | None, Some h =>
            data ← lift (struct_pack_B (if include_imu then 1 else 0));
            _write_attribute h data
        | None, None => mret tt
        end;;
        char ← _get_characteristic_from_uuid UUID_EXTANA_CCC;
        on_client (BleakClient.start_notify char extana_handler);;
        modify (set__enabled_sensors enabled_sensors);;
        (if include_imu then modify (set__enabled_imus [0]) else mret tt);;
        mret true
    end.

(** [for imu in self._imus: imu.reset()]; [now i] is the clock reading in
    the [i]-th call. *)
Fixpoint reset_from (now : nat -> Q) (i : nat) (imus : list IMUData.t)
  : list IMUData.t * outcome unit :=
  match imus with
  | [] => ([], Ret tt)
  | d :: rest =>
      match IMUData.reset (now i) d with
      | (d', Ret _) => let (rest', o) := reset_from now (S i) rest in (d' :: rest', o)
      | (d', Raise e) => (d' :: rest, Raise e)
      end
  end.

Definition reset_imus (now : nat -> Q) : M t unit := fun s =>
  let (imus, o) := reset_from now 0 (_imus s) in (set__imus imus s, o).

Definition disable_extana_streaming (now : nat -> Q) : M t bool :=
  s ← get;
  if negb (_check_connected s) then mret false
  else
    char ← _get_characteristic_from_uuid UUID_EXTANA_CCC;
    on_client (BleakClient.stop_notify char);;
    reset_imus now;;
    modify (set__enabled_imus []);;
    mret true.

Definition get_enabled_imus (s : t) : list Z := _enabled_imus s.

Definition get_enabled_sensors (s : t) : Z := _enabled_sensors s.

Definition disable_imu_streaming (now : nat -> Q) : M t bool :=
  s ← get;
  if negb (_check_connected s) then mret false
  else
    char ← _get_characteristic_from_uuid UUID_IMU_CCC;
    on_client (BleakClient.stop_notify char);;
    reset_imus now;;
    mret true.

(** [_imu_callback], after [IMU_DATA_STRUCT.unpack(data)] has split the
    packet; [timestamp] is the clock reading taken here. *)
Definition _imu_callback (acc gyro mag : list num) (imu seq : Z) (timestamp now : Q)
  : M t unit :=
  on_imu (Z.to_nat imu) (IMUData.update acc gyro mag seq timestamp now).

Definition _extana_callback (ch1 ch2 temp seq : Z) (timestamp : Q) : M t unit :=
  on_extana (ExtAnaData.update ch1 ch2 temp seq timestamp).

Definition set__name v (s : t) : t :=
  let 'mk _imus' _extana_data' _enabled_imus' _enabled_sensors' _packets' _uuid_chars'
      _client' _load_calibration' _ := s in
  mk _imus' _extana_data' _enabled_imus' _enabled_sensors' _packets' _uuid_chars' _client'
     _load_calibration' v.

(** [_read_attribute]; [read h] is what [read_gatt_char] returns for the
    handle [h] on the connected device. *)
Definition _read_attribute (read : Z -> outcome (list byte)) (handle : Z)
  : M t (option (list byte)) :=
  s ← get;
  if negb (_check_connected s) then mret None
  else result ← lift (read handle); mret (Some result).

Definition get_device_name (cached : bool) (read : Z -> outcome (list byte))
  : M t (option string) :=
  s ← get;
  if negb (_check_connected s) then mret None
  else
    match cached, _name s with
    | true, Some name => mret (Some name)
    | _, _ =>
        device_name ← _get_characteristic_handle_from_uuid UUID_DEVICE_NAME;
        match device_name with
        | None => mret None
        | Some device_name =>
            name ← _read_attribute read device_name;
            match name with
            | None => mret None
            | Some name =>
                decoded ← lift (decode_ascii name);
                modify (set__name (Some decoded));;
                mret (Some decoded)
            end
        end
    end.

Definition set_device_name (new_name : string) : M t bool :=
  s ← get;
  if negb (_check_connected s) then mret false
  else if MAX_DEVICE_NAME_LEN <? Z.of_nat (String.length new_name) then mret false
  else if (String.length new_name =? 0)%nat then mret false
  else
    device_name ← _get_characteristic_handle_from_uuid UUID_DEVICE_NAME;
    match device_name with
    | None => mret false
    | Some device_name =>
        data ← lift (encode_ascii new_name);
        written ← _write_attribute device_name data;
        if bool_of_None written then
          modify (set__name (Some new_name));;
          mret true
        else mret false
    end.

Definition get_received_packets (s : t) : Z := _packets s.

Definition reset_received_packets : M t unit := modify (set__packets 0).

Definition get_imu (imu_number : Z) : M t (option IMUData.t) :=
  if (imu_number <? 0) || (imu_number >=? MAX_IMUS) then mret None
  else s ← get; d ← lift (item (_imus s) (Z.to_nat imu_number)); mret (Some d).

Definition get_extana (s : t) : ExtAnaData.t := _extana_data s.

Definition set_polling_override (override : Z) : M t bool :=
  polling_override ← _get_characteristic_handle_from_uuid UUID_POLLING_OVERRIDE;
  match polling_override with
  | None => mret false
  | Some polling_override =>
      data ← lift (struct_pack_B override);
      written ← _write_attribute polling_override data;
      if bool_of_None written then mret true else mret false
  end.

End SK8.

(** ** [core.py]: hardware state and LED of [SK8]

    The attributes these methods use are kept beside the session: the
    methods run on the pair.  [led_state] and [hardware] are assigned by no
    statement of [__init__] (which assigns [_led_state] and [_hardware]):
    they are [None] until a method creates them. *)

Module SK8_more.

Record t : Type := mk {
  core : SK8.t;
  _led_state : option (Z * Z * Z);
  led_state : option (Z * Z * Z);
  _hardware : Z;
  hardware : option Z
}.

Definition set_core v (s : t) : t :=
  let 'mk _ _led led _hw hw := s in mk v _led led _hw hw.
Definition set_led_state v (s : t) : t :=
  let 'mk c _led _ _hw hw := s in mk c _led v _hw hw.
Definition set_hardware v (s : t) : t :=
  let 'mk c _led led _hw _ := s in mk c _led led _hw v.

(** A method of the part of the session modelled in [SK8]. *)
Definition on_core {A} (m : M SK8.t A) : M t A := fun s =>
  let (c, o) := m (core s) in (set_core c s, o).

Definition __init__ (load_calibration : bool) (now : nat -> Q) : outcome t :=
  c ← SK8.__init__ load_calibration now;
  Ret (mk c None None (-1) None).

(** [int(x * (a / b))], the float product truncated. *)
Definition scale_channel (a b x : Z) : Z :=
  Qtrunc (inject_Z x * (inject_Z a / inject_Z b)).

Definition get_extana_led (cached : bool) (read : Z -> outcome (list byte))
  : M t (Z * Z * Z) :=
  if cached then s ← get; lift (attr (led_state s))
  else
    extana_led ← on_core (SK8._get_characteristic_handle_from_uuid UUID_EXTANA_LED);
    match extana_led with
    | None => mret (-1, -1, -1)
    | Some extana_led =>
        rgb ← on_core (SK8._read_attribute read extana_led);
        match rgb with
        | None => mret (-1, -1, -1)
        | Some rgb =>
            '(r, g, b) ← lift (struct_unpack_HHH rgb);
            mret (scale_channel LED_MAX INT_LED_MAX r,
                  scale_channel LED_MAX INT_LED_MAX g,
                  scale_channel LED_MAX INT_LED_MAX b)
        end
    end.

(** [set_extana_led] is not a coroutine and calls [_write_attribute] without
    awaiting it. *)
Definition set_extana_led (r g b : Z) (check_state : bool) : M t bool :=
  if (Z.min r (Z.min g b) <? LED_MIN) || (LED_MAX <? Z.max r (Z.max g b)) then mret false
  else
    s ← get;
    same ← (if check_state
            then cached ← lift (attr (led_state s));
                 mret (bool_decide (cached = (r, g, b)))
            else mret false);
    if same : bool then mret true
    else
      val ← lift (struct_pack_HHH (scale_channel INT_LED_MAX LED_MAX r)
                                  (scale_channel INT_LED_MAX LED_MAX g)
                                  (scale_channel INT_LED_MAX LED_MAX b));
      extana_led ← on_core (SK8._get_characteristic_handle_from_uuid UUID_EXTANA_LED);
      match extana_led with
      | None => mret false
      | Some extana_led =>
          if negb (bool_of_coroutine (SK8._write_attribute extana_led val)) then mret false
          else
            modify (set_led_state (Some (r, g, b)));;
            mret true
      end.

Section hardware.

(** The two masks of [constants.py], whose values are not known. *)
Variables EXT_HW_IMUS EXT_HW_EXTANA : Z.

Definition _check_hardware (read : Z -> outcome (list byte)) : M t Z :=
  hardware_state ← on_core (SK8._get_characteristic_handle_from_uuid UUID_HARDWARE_STATE);
  hardware_state_tmp ←
    on_core (SK8._get_characteristic_handle_from_uuid UUID_HARDWARE_STATE_TMP);
  match hardware_state, hardware_state_tmp with
  | None, None => mret (-1)
  | _, _ =>
      hardware ←
        match hardware_state, hardware_state_tmp with
        | Some h, _ | None, Some h => on_core (SK8._read_attribute read h)
        | None, None => mret None
        end;
      match hardware with
      | None => mret (-1)
      | Some hardware =>
          b ← lift (item hardware 0);
          modify (set_hardware (Some (Z_of_byte b)));;
          mret (Z_of_byte b)
      end
  end.

Definition has_hardware (mask : Z) (cached : bool) (read : Z -> outcome (list byte))
  : M t bool :=
  s ← get;
  known ← (if cached
           then hw ← lift (attr (hardware s)); mret (negb (hw =? -1))
           else mret false);
  if known : bool then
    s ← get;
    hw ← lift (attr (hardware s));
    mret (negb (Z.land hw mask =? 0))
  else
    result ← _check_hardware read;
    mret (negb (Z.land result mask =? 0)).

Definition has_extana := has_hardware EXT_HW_EXTANA.

Definition has_imus := has_hardware EXT_HW_IMUS.

End hardware.

End SK8_more.

(** * Specification vocabulary

    The predicates, sample states and claim statements used by the
    theorems below. *)

(** ** Frame reasoning *)

(** [m] leaves the observation [f] of the state as it was, whether it
    returns or raises. *)
Definition preserves {St A X} (f : St -> X) (m : M St A) : Prop :=
  forall s, f (fst (m s)) = f s.

(** ** The rolling window *)

Definition period : Q := inject_Z IMUData.PACKET_PERIOD.

(** An entry is stale at [now] when the loop of [update] pops it. *)
Definition stale (now : Q) (e : Q * Z) : Prop := (period < now - fst e)%Q.
Definition fresh (now : Q) (e : Q * Z) : Prop := (now - fst e <= period)%Q.

(** Newest entry first: no entry is more recent than one before it. *)
Definition newest_first (meta : list (Q * Z)) : Prop :=
  StronglySorted (fun a b => (fst b <= fst a)%Q) meta.

(** ** Loss accounting (C2, C3) *)

(** The amount lines 104-108 of [update] add for a packet. *)
Definition dropped_count (last_seq seq : Z) : Z :=
  if negb (last_seq =? -1) then
    let expected := (last_seq + 1) `mod` 256 in
    if negb (expected =? seq) then (expected - seq) `mod` 256 else 0
  else 0.

(** A freshly constructed IMU: [IMUData(0)] at clock reading 0. *)
Definition imu0 : IMUData.t := fst (IMUData.reset 0 (IMUData.blank 0 None)).

(** [update] with no sample data, as a state transformer. *)
Definition feed (seq : Z) (ts now : Q) (d : IMUData.t) : IMUData.t :=
  fst (IMUData.update [] [] [] seq ts now d).

(** "An update from [last_seq] to [seq] counts [n] dropped packets": it adds
    [n] to the lifetime counter and records [n] in the new window entry. *)
Definition counts_dropped (last_seq seq n : Z) : Prop :=
  forall d acc gyro mag ts now d1,
    IMUData.seq d = last_seq ->
    IMUData.store_sample acc gyro mag d = (d1, Ret tt) ->
    (now - ts <= period)%Q ->
    exists d',
      IMUData.update acc gyro mag seq ts now d = (d', Ret tt) /\
      IMUData._packets_lost d' = IMUData._packets_lost d + n /\
      head (IMUData._packet_metadata d') = Some (ts, n).

(** C2 as the specification words it. *)
Definition C2_as_stated : Prop :=
  (forall last_seq seq,
      0 <= last_seq <= 255 -> 0 <= seq <= 255 -> (last_seq + 1) `mod` 256 <> seq ->
      counts_dropped last_seq seq ((last_seq + 1 - seq) `mod` 256)) /\
  counts_dropped 254 0 1 /\
  counts_dropped 10 10 255.

(** ** The window after an update (C10) *)

(** C10 as the specification words it: freshness of the new timestamp alone
    makes every remaining entry fresh, and a stale timestamp can make the
    loop fail. *)
Definition C10_as_stated : Prop :=
  (forall d acc gyro mag seq ts now d1,
      IMUData.store_sample acc gyro mag d = (d1, Ret tt) ->
      (now - ts <= period)%Q ->
      exists d',
        IMUData.update acc gyro mag seq ts now d = (d', Ret tt) /\
        IMUData._packet_metadata d' <> [] /\
        Forall (fresh now) (IMUData._packet_metadata d')) /\
  (exists d acc gyro mag seq ts now d',
      (period < now - ts)%Q /\
      IMUData.update acc gyro mag seq ts now d = (d', Raise IndexError)).

(** Two packets whose timestamps are not in arrival order, both fresh when
    they arrive at clock reading 10. *)
Definition imu_unordered : IMUData.t := feed 2 8 10 (feed 1 10 10 imu0).

(** ** Sample rate and recent loss (C9) *)

(** [d] is a tracker that was started or last reset at clock reading [t0]. *)
Inductive started_at (t0 : Q) : IMUData.t -> Prop :=
| started_init index cd d :
    IMUData.__init__ index cd t0 = Ret d -> started_at t0 d
| started_reset d0 d :
    IMUData.reset t0 d0 = (d, Ret tt) -> started_at t0 d
| started_update d acc gyro mag seq ts now :
    started_at t0 d -> started_at t0 (fst (IMUData.update acc gyro mag seq ts now d))
| started_set_calibration d state :
    started_at t0 d -> started_at t0 (fst (IMUData.set_calibration state d))
| started_load_calibration d cd :
    started_at t0 d -> started_at t0 (fst (IMUData.load_calibration cd d)).

(** ** Calibration (C4, C8) *)







(** A calibration section with accelerometer options only. *)
Definition cal_acc_only : IMUData.dict :=
  list_to_map [("accx_scale", 3 # 4); ("accy_scale", 1); ("accz_scale", 1);
               ("accx_offset", 0); ("accy_offset", 0); ("accz_offset", 0)]%string%Q.

(** IMU 0 after [load_calibration(cal_acc_only)]. *)
Definition imu_acc_only : IMUData.t :=
  fst (IMUData.load_calibration (Some cal_acc_only) imu0).

(** [q] is a finite IEEE 754 double: [m * 2^e] with [|m| < 2^53] and
    [-1074 <= e <= 971].  On the reduced fraction: the denominator is a
    power of two [2^k]; for [k > 0] the numerator is [m] and [e = -k]; for
    an integer the smallest exponent that brings it under 53 bits divides
    it. *)
Definition binary64 (q : Q) : bool :=
  let r := Qred q in
  let n := Z.abs (Qnum r) in
  let k := Z.log2 (Zpos (Qden r)) in
  (Zpos (Qden r) =? 2 ^ k) &&
  (if k =? 0
   then let e := Z.max 0 (Z.log2 n - 52) in (e <=? 971) && (n `mod` 2 ^ e =? 0)
   else (k <=? 1074) && (n <? 2 ^ 53)).



(** ** [ExtAnaData] (C7) *)

(** C7 as the specification words it: some observation of the [ExtAnaData]
    state is a running total that every update increases by the number of
    packets dropped between the previous sequence number and the new one. *)
Definition C7_as_stated : Prop :=
  exists total : ExtAnaData.t -> Z,
    forall d ch1 ch2 temp seq ts,
      total (fst (ExtAnaData.update ch1 ch2 temp seq ts d))
      = total d + dropped_count (ExtAnaData.seq d) seq.

(** ** The session *)

(** The handle [_get_characteristic_from_uuid] resolves [u] to: the cached
    one, else the one the connected device offers. *)
Definition characteristic (s : SK8.t) (u : uuid) : option Z :=
  match SK8._uuid_chars s !! u with
  | Some h => Some h
  | None =>
      match SK8._client s with
      | Some c => BleakClient.services c !! u
      | None => None
      end
  end.

(** The values written to the device so far. *)
Definition writes (s : SK8.t) : list (Z * list byte) :=
  match SK8._client s with
  | Some c => BleakClient.gatt_writes c
  | None => []
  end.

(** The session after [u] has been resolved (and cached when found). *)
Definition cache_add (u : uuid) (s : SK8.t) : SK8.t :=
  match characteristic s u with
  | Some h => SK8.set__uuid_chars (<[u:=h]> (SK8._uuid_chars s)) s
  | None => s
  end.

(** The session after a method of the client has run. *)
Definition client_after {A} (m : M BleakClient.t A) (s : SK8.t) : SK8.t :=
  match SK8._client s with
  | Some c => SK8.set__client (Some (fst (m c))) s
  | None => s
  end.

Definition wrote (h : Z) (data : list byte) : SK8.t -> SK8.t :=
  client_after (BleakClient.write_gatt_char h data).

Definition subscribed (h : Z) (k : handler) : SK8.t -> SK8.t :=
  client_after (BleakClient.start_notify (Some h) k).

Definition unsubscribed (h : Z) : SK8.t -> SK8.t :=
  client_after (BleakClient.stop_notify (Some h)).

(** What the steps above leave as it was. *)
Record same_link (s s' : SK8.t) : Prop := {
  link_connected : SK8._check_connected s' = SK8._check_connected s;
  link_characteristic : forall u, characteristic s' u = characteristic s u;
  link_imus : SK8._imus s' = SK8._imus s;
  link_extana : SK8._extana_data s' = SK8._extana_data s
}.

(** The session after a successful [enable_imu_streaming]. *)
Definition imu_enabled (imus : list Z) (sensors hi hs hc : Z) (b1 b2 : list byte)
  (s : SK8.t) : SK8.t :=
  SK8.set__enabled_sensors sensors
    (SK8.set__enabled_imus imus
       (subscribed hc imu_handler
          (cache_add UUID_IMU_CCC
             (wrote hs b2
                (wrote hi b1
                   (cache_add UUID_SENSOR_SELECTION (cache_add UUID_IMU_SELECTION s))))))).

(** The handle of the ExtAna flag register: the regular characteristic,
    else the temporary one. *)
Definition extana_flag_handle (s : SK8.t) : option Z :=
  match characteristic s UUID_EXTANA_IMU_STREAMING with
  | Some h => Some h
  | None => characteristic s UUID_EXTANA_IMU_STREAMING_TMP
  end.

Definition flag_byte (include_imu : bool) : byte := if include_imu then x01 else x00.

(** ** Sample sessions and streaming exclusivity (C1) *)

(** A device with the IMU and ExtAna characteristics. *)
Definition sk8_device : BleakClient.t :=
  BleakClient.mk false
    (list_to_map [(UUID_IMU_SELECTION, 10); (UUID_SENSOR_SELECTION, 11);
                  (UUID_IMU_CCC, 12); (UUID_EXTANA_CCC, 13);
                  (UUID_EXTANA_IMU_STREAMING, 14)])
    [] ∅.

(** [SK8()], every clock reading being 0. *)
Definition sk8_new : SK8.t :=
  match SK8.__init__ true (fun _ => 0%Q) with
  | Ret s => s
  | Raise _ => SK8.mk [] ExtAnaData.__init__ [] 0 0 ∅ None true None
  end.

(** ... connected to the device, with no calibration file. *)
Definition sk8_connected : SK8.t :=
  fst (SK8.connect (Some "SK8"%string) None (Some sk8_device) ∅ sk8_new).

(** ... after [enable_imu_streaming([1, 2])]. *)
Definition sk8_streaming : SK8.t :=
  fst (SK8.enable_imu_streaming [1; 2] SENSOR_ALL sk8_connected).

(** ... or after [enable_extana_streaming()]. *)
Definition sk8_extana : SK8.t :=
  fst (SK8.enable_extana_streaming false SENSOR_ALL sk8_connected).

(** ... and IMU streaming with calibration switched on for all IMUs. *)
Definition sk8_calibrated : SK8.t :=
  fst (SK8.set_calibration true [] sk8_streaming).

(** C1 as the specification words it: once one mode has been enabled,
    enabling the other fails, changes neither [_enabled_imus] nor
    [_enabled_sensors], and writes nothing to the device. *)
Definition C1_as_stated : Prop :=
  (forall s0 imus sensors s include_imu sensors',
      SK8.enable_imu_streaming imus sensors s0 = (s, Ret true) ->
      exists s',
        SK8.enable_extana_streaming include_imu sensors' s = (s', Ret false) /\
        SK8._enabled_imus s' = SK8._enabled_imus s /\
        SK8._enabled_sensors s' = SK8._enabled_sensors s /\
        writes s' = writes s) /\
  (forall s0 include_imu sensors s imus sensors',
      SK8.enable_extana_streaming include_imu sensors s0 = (s, Ret true) ->
      exists s',
        SK8.enable_imu_streaming imus sensors' s = (s', Ret false) /\
        SK8._enabled_imus s' = SK8._enabled_imus s /\
        SK8._enabled_sensors s' = SK8._enabled_sensors s /\
        writes s' = writes s).

(** ** Disabling a streaming mode (C5, C6) *)

(** What [reset] does to an IMU that was constructed without calibration
    data, as every IMU of a session is. *)
Definition reset_to_defaults (d d' : IMUData.t) : Prop :=
  IMUData._packet_metadata d' = [] /\
  IMUData.seq d' = 0 /\
  IMUData._packets_lost d' = 0 /\
  IMUData._use_calibration d' = false /\
  IMUData.acc_scale d' = [F 1; F 1; F 1] /\
  IMUData.acc_offsets d' = [I 0; I 0; I 0] /\
  IMUData.gyro_offsets d' = IMUData.gyro_offsets d /\
  IMUData.mag_scale d' = IMUData.mag_scale d /\
  IMUData.mag_offsets d' = IMUData.mag_offsets d.

(** What C5 says [reset] does. *)
Definition reset_keeps_calibration (d d' : IMUData.t) : Prop :=
  IMUData._packet_metadata d' = [] /\
  IMUData.seq d' = 0 /\
  IMUData._packets_lost d' = 0 /\
  IMUData._use_calibration d' = IMUData._use_calibration d /\
  IMUData.acc_scale d' = IMUData.acc_scale d /\
  IMUData.acc_offsets d' = IMUData.acc_offsets d /\
  IMUData.gyro_offsets d' = IMUData.gyro_offsets d /\
  IMUData.mag_scale d' = IMUData.mag_scale d /\
  IMUData.mag_offsets d' = IMUData.mag_offsets d.

(** C5 as the specification words it. *)
Definition C5_as_stated : Prop :=
  forall now s s',
    SK8.disable_imu_streaming now s = (s', Ret true) ->
    Forall2 reset_keeps_calibration (SK8._imus s) (SK8._imus s').

(** ** More on loss accounting and the window *)

(** What every tracker keeps true from its last reset on. *)
Definition loss_invariant (d : IMUData.t) : Prop :=
  Forall (fun e : Q * Z => 0 <= snd e <= 255) (IMUData._packet_metadata d) /\
  0 <= foldr Z.add 0 (map snd (IMUData._packet_metadata d)) <= IMUData._packets_lost d.

(** [e] is kept by the loop of [update] at [now]. *)
Definition is_fresh (now : Q) (e : Q * Z) : bool :=
  negb (Qlt_bool (inject_Z IMUData.PACKET_PERIOD) (now - fst e)).

(** ** More on calibration *)

(** The three options [sensor ++ axis ++ suffix] of a section, as floats,
    when all three are there. *)
Definition axes_values (cd : IMUData.dict) (sensor suffix : string) : option (list num) :=
  vx ← cd !! (sensor +:+ "x" +:+ suffix)%string;
  vy ← cd !! (sensor +:+ "y" +:+ suffix)%string;
  vz ← cd !! (sensor +:+ "z" +:+ suffix)%string;
  Some [F vx; F vy; F vz].


(** A section with options for the three sensors. *)
Definition cal_full : IMUData.dict :=
  list_to_map [("accx_scale", 2); ("accy_scale", 1); ("accz_scale", 1 # 2);
               ("accx_offset", 10); ("accy_offset", 0); ("accz_offset", -3);
               ("gyrox_offset", 1 # 4); ("gyroy_offset", 0); ("gyroz_offset", 5);
               ("magx_scale", 1); ("magy_scale", 3); ("magz_scale", 1);
               ("magx_offset", 7); ("magy_offset", 8); ("magz_offset", 9)]%string%Q.


(** A section with magnetometer options only. *)
Definition cal_mag_only : IMUData.dict :=
  list_to_map [("magx_scale", 1); ("magy_scale", 3); ("magz_scale", 1);
               ("magx_offset", 7); ("magy_offset", 8); ("magz_offset", 9)]%string%Q.

(** An IMU constructed with the full section, calibration then switched
    off by the user. *)
Definition imu_full_off : IMUData.t :=
  match IMUData.__init__ 0 (Some cal_full) 0 with
  | Ret d => fst (IMUData.set_calibration false d)
  | Raise _ => imu0
  end.

(** ** More on the session *)

(** The IMUs [set_calibration(enabled, imus)] addresses: all of them for an
    empty list, else the listed ones. *)
Definition addressed (imus : list Z) (i : nat) : bool :=
  bool_decide (imus = [] \/ Z.of_nat i ∈ imus).

(** A calibration file with one section per device IMU, named after a device
    called SK8. *)
Definition sk8_file : gmap string IMUData.dict :=
  list_to_map [("SK8_IMU1", cal_acc_only); ("SK8_IMU3", cal_mag_only)]%string.

(** A device that has every characteristic the library looks up. *)
Definition sk8_full_device : BleakClient.t :=
  BleakClient.mk false
    (list_to_map [(UUID_IMU_SELECTION, 10); (UUID_SENSOR_SELECTION, 11);
                  (UUID_IMU_CCC, 12); (UUID_EXTANA_CCC, 13);
                  (UUID_EXTANA_IMU_STREAMING, 14); (UUID_DEVICE_NAME, 20);
                  (UUID_POLLING_OVERRIDE, 21); (UUID_EXTANA_LED, 22);
                  (UUID_HARDWARE_STATE, 23); (UUID_FIRMWARE_REVISION, 24);
                  (UUID_BATTERY_LEVEL, 25)])
    [] ∅.

(** What that device answers to a read: its name SK8 on handle 20, the
    hardware byte 3 on handle 23, nothing elsewhere. *)
Definition sk8_reads (h : Z) : outcome (list byte) :=
  if h =? 20 then Ret [x53; x4b; x38]
  else if h =? 23 then Ret [x03]
  else Ret [].

(** A new session connected to it, with no calibration file. *)
Definition sk8_full : SK8.t :=
  fst (SK8.connect (Some "SK8"%string) None (Some sk8_full_device) ∅ sk8_new).


(** ** Invariants of a session *)

(** [m] keeps the property [P] of the state, whether it returns or
    raises. *)
Definition keeps {St A} (P : St -> Prop) (m : M St A) : Prop :=
  forall s, P s -> P (fst (m s)).

(** A call on a session, with its arguments and what the clock and the
    device answer during the call. *)
Inductive call : Type :=
| Connect (name address : option string) (found : option BleakClient.t)
    (sections : gmap string IMUData.dict)
| Disconnect (answer : option bool)
| LoadCalibration (sections : gmap string IMUData.dict)
| SetCalibration (enabled : bool) (imus : list Z)
| EnableImuStreaming (imus : list Z) (sensors : Z)
| EnableExtanaStreaming (include_imu : bool) (sensors : Z)
| DisableImuStreaming (now : nat -> Q)
| DisableExtanaStreaming (now : nat -> Q)
| ImuPacket (acc gyro mag : list num) (imu : nat) (seq : Z) (timestamp now : Q)
| ExtanaPacket (ch1 ch2 temp seq : Z) (timestamp : Q)
| GetDeviceName (cached : bool) (read : Z -> outcome (list byte))
| SetDeviceName (new_name : string)
| SetPollingOverride (override : Z)
| ResetReceivedPackets
| GetImu (imu_number : Z).

(** The session after a call, returned or raised. *)
Definition run_call (c : call) (s : SK8.t) : SK8.t :=
  match c with
  | Connect name address found sections => fst (SK8.connect name address found sections s)
  | Disconnect answer => fst (SK8.disconnect answer s)
  | LoadCalibration sections => fst (SK8.load_calibration sections s)
  | SetCalibration enabled imus => fst (SK8.set_calibration enabled imus s)
  | EnableImuStreaming imus sensors => fst (SK8.enable_imu_streaming imus sensors s)
  | EnableExtanaStreaming include_imu sensors =>
      fst (SK8.enable_extana_streaming include_imu sensors s)
  | DisableImuStreaming now => fst (SK8.disable_imu_streaming now s)
  | DisableExtanaStreaming now => fst (SK8.disable_extana_streaming now s)
  | ImuPacket acc gyro mag imu seq timestamp now =>
      fst (SK8._imu_callback acc gyro mag (Z.of_nat imu) seq timestamp now s)
  | ExtanaPacket ch1 ch2 temp seq timestamp =>
      fst (SK8._extana_callback ch1 ch2 temp seq timestamp s)
  | GetDeviceName cached read => fst (SK8.get_device_name cached read s)
  | SetDeviceName new_name => fst (SK8.set_device_name new_name s)
  | SetPollingOverride override => fst (SK8.set_polling_override override s)
  | ResetReceivedPackets => fst (SK8.reset_received_packets s)
  | GetImu imu_number => fst (SK8.get_imu imu_number s)
  end.

Definition run_calls (cs : list call) (s : SK8.t) : SK8.t :=
  foldl (fun s c => run_call c s) s cs.

(** ** Hardware state and LED *)

(** A new session with the attributes of the hardware and LED methods,
    connected to the device that has every characteristic. *)
Definition sk8_more_full : SK8_more.t :=
  SK8_more.mk sk8_full None None (-1) None.

(** * Properties *)

(** ** Frame reasoning for methods *)

Lemma preserves_ret {St A X} (f : St -> X) (a : A) : preserves f (mret a).
Proof. by intros s. Qed.

Lemma preserves_raise {St A X} (f : St -> X) e : preserves f (@raise St A e).
Proof. by intros s. Qed.

Lemma preserves_lift {St A X} (f : St -> X) (o : outcome A) : preserves f (lift o).
Proof. by intros s. Qed.

Lemma preserves_get {St X} (f : St -> X) : preserves f get.
Proof. by intros s. Qed.

Lemma preserves_modify {St X} (f : St -> X) (g : St -> St) :
  (forall s, f (g s) = f s) -> preserves f (modify g).
Proof. intros H s. apply H. Qed.

Lemma preserves_bind {St A B X} (f : St -> X) (m : M St A) (k : A -> M St B) :
  preserves f m -> (forall a, preserves f (k a)) -> preserves f (m ≫= k).
Proof.
  intros Hm Hk s. unfold mbind, M_bind. specialize (Hm s).
  destruct (m s) as [s' [a|e]]; simpl in *; [|done].
  by rewrite Hk.
Qed.

Ltac frame_step :=
  match goal with
  | |- preserves _ (mbind _ _) => apply preserves_bind; [|intros ?]
  | |- preserves _ (mret _) => apply preserves_ret
  | |- preserves _ (raise _) => apply preserves_raise
  | |- preserves _ (lift _) => apply preserves_lift
  | |- preserves _ get => apply preserves_get
  | |- preserves _ (modify _) => apply preserves_modify; by intros []
  | |- preserves _ (if ?c then _ else _) => destruct c
  | |- preserves _ (match ?c with _ => _ end) => destruct c
  end.

Ltac frame := repeat frame_step.

(** ** The rolling window *)

Lemma Qlt_bool_true a b : Qlt_bool a b = true <-> (a < b)%Q.
Proof.
  unfold Qlt_bool. rewrite negb_true_iff, <- not_true_iff_false, Qle_bool_iff.
  split; [apply Qnot_le_lt | apply Qlt_not_le].
Qed.

Lemma Qlt_bool_false a b : Qlt_bool a b = false <-> (b <= a)%Q.
Proof.
  unfold Qlt_bool. rewrite negb_false_iff. apply Qle_bool_iff.
Qed.

Lemma stale_dec now e :
  Qlt_bool (inject_Z IMUData.PACKET_PERIOD) (now - fst e) = true <-> stale now e.
Proof. apply Qlt_bool_true. Qed.

Lemma fresh_dec now e :
  Qlt_bool (inject_Z IMUData.PACKET_PERIOD) (now - fst e) = false <-> fresh now e.
Proof. apply Qlt_bool_false. Qed.

Lemma fresh_not_stale now e : fresh now e -> stale now e -> False.
Proof. unfold fresh, stale. intros H1 H2. apply (Qlt_not_le _ _ H2 H1). Qed.

(** The loop equation of [prune]: look at the last entry, pop it when it is
    stale and go round again. *)
Lemma prune_unfold now meta :
  IMUData.prune now meta =
  match last meta with
  | None => ([], Raise IndexError)
  | Some e =>
      if Qlt_bool (inject_Z IMUData.PACKET_PERIOD) (now - fst e)
      then IMUData.prune now (removelast meta)
      else (meta, Ret tt)
  end.
Proof.
  destruct meta as [|x meta _] using rev_ind; [reflexivity|].
  rewrite last_snoc, removelast_last. unfold IMUData.prune.
  rewrite rev_app_distr. simpl.
  destruct (Qlt_bool _ _); [reflexivity|].
  simpl. by rewrite rev_involutive.
Qed.

(** With a fresh entry at the head the loop stops without error: it pops a
    stale tail and keeps the rest. *)
Lemma prune_fresh_head now e meta :
  fresh now e ->
  exists kept popped,
    meta = kept ++ popped /\
    IMUData.prune now (e :: meta) = (e :: kept, Ret tt) /\
    Forall (stale now) popped /\
    (forall x, last kept = Some x -> fresh now x).
Proof.
  intros He. induction meta as [|x meta IH] using rev_ind.
  - exists [], []. repeat split; [|constructor|discriminate].
    rewrite prune_unfold. simpl. apply fresh_dec in He. by rewrite He.
  - rewrite prune_unfold. rewrite app_comm_cons, last_snoc, removelast_last.
    destruct (Qlt_bool _ _) eqn:Hx.
    + destruct IH as (kept & popped & -> & Hp & Hst & Hl).
      exists kept, (popped ++ [x]). repeat split; auto.
      * by rewrite app_assoc.
      * apply Forall_app. split; [done|]. constructor; [|constructor].
        by apply stale_dec.
    + exists (meta ++ [x]), []. repeat split.
      * by rewrite app_nil_r.
      * constructor.
      * intros y. rewrite last_snoc. intros [= <-]. by apply fresh_dec.
Qed.

(** When every entry is stale the loop pops them all and then fails. *)
Lemma prune_all_stale now meta :
  Forall (stale now) meta -> IMUData.prune now meta = ([], Raise IndexError).
Proof.
  induction meta as [|x meta IH] using rev_ind; intros H; [reflexivity|].
  apply Forall_app in H as [H1 H2]. inversion_clear H2 as [|? ? Hx _].
  rewrite prune_unfold, last_snoc, removelast_last.
  apply stale_dec in Hx. rewrite Hx. by apply IH.
Qed.

(** ** [update]: the two stages *)

Ltac run :=
  cbv [IMUData.update IMUData.store_sample IMUData.track_packet
       IMUData.on_packet_metadata IMUData.set_calibration
       mbind mret M_bind M_ret outcome_bind outcome_ret modify get lift raise].

Ltac case_matches :=
  repeat match goal with
         | |- context [match ?x with _ => _ end] => destruct x eqn:?; simpl
         end.

(** Storing the sample touches neither the sequence state nor the window. *)
Lemma store_sample_frame acc gyro mag d :
  let d1 := fst (IMUData.store_sample acc gyro mag d) in
  IMUData.seq d1 = IMUData.seq d /\
  IMUData._packets_lost d1 = IMUData._packets_lost d /\
  IMUData._packet_metadata d1 = IMUData._packet_metadata d /\
  IMUData._packet_start d1 = IMUData._packet_start d.
Proof. destruct d. run. simpl. case_matches; auto. Qed.

Lemma track_packet_spec seq ts now d :
  let n := dropped_count (IMUData.seq d) seq in
  let r := IMUData.prune now ((ts, n) :: IMUData._packet_metadata d) in
  let d' := fst (IMUData.track_packet seq ts now d) in
  snd (IMUData.track_packet seq ts now d) = snd r /\
  IMUData._packet_metadata d' = fst r /\
  IMUData._packets_lost d' = IMUData._packets_lost d + n /\
  IMUData.seq d' = seq /\
  IMUData.timestamp d' = Some ts /\
  IMUData._packet_start d' = IMUData._packet_start d.
Proof.
  destruct d as [? ? ? ? ? ? ? ? ? ? last_seq ? ? ? ? ? ? ? ? ?].
  run. unfold dropped_count. simpl.
  destruct (negb (last_seq =? -1)); simpl.
  - destruct (negb (_ =? seq)); simpl;
      destruct (IMUData.prune _ _); simpl; repeat split; lia.
  - destruct (IMUData.prune _ _); simpl; repeat split; lia.
Qed.

Lemma update_after_store acc gyro mag seq ts now d d1 :
  IMUData.store_sample acc gyro mag d = (d1, Ret tt) ->
  IMUData.update acc gyro mag seq ts now d = IMUData.track_packet seq ts now d1.
Proof.
  intros H. unfold IMUData.update. cbv [mbind M_bind]. by rewrite H.
Qed.

Lemma dropped_count_lost last_seq seq :
  last_seq <> -1 -> (last_seq + 1) `mod` 256 <> seq ->
  dropped_count last_seq seq = (last_seq + 1 - seq) `mod` 256.
Proof.
  intros H1 H2. unfold dropped_count.
  destruct (Z.eqb_spec last_seq (-1)); [done|]. simpl.
  destruct (Z.eqb_spec ((last_seq + 1) `mod` 256) seq); [done|]. simpl.
  apply Zminus_mod_idemp_l.
Qed.

(** A packet with a fresh timestamp: [update] returns, the new entry heads
    the window and carries the count added to the lifetime counter. *)
Lemma update_fresh acc gyro mag seq ts now d d1 :
  IMUData.store_sample acc gyro mag d = (d1, Ret tt) ->
  (now - ts <= period)%Q ->
  let n := dropped_count (IMUData.seq d) seq in
  exists d' kept popped,
    IMUData.update acc gyro mag seq ts now d = (d', Ret tt) /\
    IMUData._packet_metadata d = kept ++ popped /\
    IMUData._packet_metadata d' = (ts, n) :: kept /\
    Forall (stale now) popped /\
    (forall x, last kept = Some x -> fresh now x) /\
    IMUData._packets_lost d' = IMUData._packets_lost d + n /\
    IMUData.seq d' = seq /\
    IMUData._packet_start d' = IMUData._packet_start d.
Proof.
  intros Hs Hf n.
  pose proof (store_sample_frame acc gyro mag d) as Hfr. rewrite Hs in Hfr.
  simpl in Hfr. destruct Hfr as (Hseq & Hlost & Hmeta & Hstart).
  rewrite (update_after_store _ _ _ _ _ _ _ _ Hs).
  pose proof (track_packet_spec seq ts now d1) as Ht.
  destruct (IMUData.track_packet seq ts now d1) as [d' o]. simpl in Ht.
  rewrite Hseq, Hlost, Hmeta, Hstart in Ht. fold n in Ht.
  destruct (prune_fresh_head now (ts, n) (IMUData._packet_metadata d))
    as (kept & popped & Hsplit & Hpr & Hst & Hl); [exact Hf|].
  rewrite Hpr in Ht. simpl in Ht. destruct Ht as (-> & Hm & Hl' & Hs' & _ & Hst').
  exists d', kept, popped. repeat split; auto.
Qed.

Lemma counts_dropped_count last_seq seq :
  counts_dropped last_seq seq (dropped_count last_seq seq).
Proof.
  intros d acc gyro mag ts now d1 <- Hs Hf.
  destruct (update_fresh acc gyro mag seq ts now d d1 Hs Hf)
    as (d' & kept & popped & Hu & _ & Hm & _ & _ & Hl & _).
  exists d'. repeat split; auto. by rewrite Hm.
Qed.

Lemma store_sample_uncalibrated acc gyro mag d :
  IMUData._use_calibration d = false ->
  snd (IMUData.store_sample acc gyro mag d) = Ret tt.
Proof. destruct d. simpl. intros ->. reflexivity. Qed.

(** From 254 to 0 the code counts 255, not 1. *)
Lemma C2_counterexample : ~ C2_as_stated.
Proof.
  intros (_ & H & _).
  destruct (H (feed 254 0 0 imu0) [] [] [] 0%Q 0%Q
              (fst (IMUData.store_sample [] [] [] (feed 254 0 0 imu0))))
    as (d' & Hu & Hl & _).
  - vm_compute. reflexivity.
  - vm_compute. reflexivity.
  - vm_compute. discriminate.
  - apply (f_equal (fun r => IMUData._packets_lost (fst r))) in Hu.
    cbn [fst] in Hu. rewrite <- Hu in Hl. vm_compute in Hl. discriminate.
Qed.

(** C2: what the code counts.  An update whose sequence number differs
    from [expected = (last_seq + 1) mod 256] adds
    [(expected - seq) mod 256] to the lifetime-lost counter and records it
    in the new window entry: from 254 to 0, where one packet is missing, that
    is 255, and from 10 to 10 it is 1.  The number of missing packets is
    [(seq - expected) mod 256]: the operands are the wrong way round. *)
Theorem C2_dropped_count :
  (forall last_seq seq,
      0 <= last_seq <= 255 -> (last_seq + 1) `mod` 256 <> seq ->
      counts_dropped last_seq seq ((last_seq + 1 - seq) `mod` 256)) /\
  counts_dropped 254 0 255 /\
  counts_dropped 10 10 1.
Proof.
  split; [|split].
  - intros last_seq seq Hr Hne.
    rewrite <- (dropped_count_lost last_seq seq) by lia.
    apply counts_dropped_count.
  - apply (counts_dropped_count 254 0).
  - apply (counts_dropped_count 10 10).
Qed.

Lemma C2_dropped_count_witness :
  exists d',
    IMUData.update [I 1; I 2; I 3] [I 4; I 5; I 6] [I 7; I 8; I 9] 8 1 1
                   (feed 6 0 0 imu0) = (d', Ret tt) /\
    IMUData._packets_lost d' = IMUData._packets_lost (feed 6 0 0 imu0) + 255 /\
    head (IMUData._packet_metadata d') = Some (1%Q, 255).
Proof.
  apply (proj1 C2_dropped_count 6 8 ltac:(lia) ltac:(vm_compute; discriminate)
           (feed 6 0 0 imu0) _ _ _ 1%Q 1%Q
           (fst (IMUData.store_sample [I 1; I 2; I 3] [I 4; I 5; I 6] [I 7; I 8; I 9]
                   (feed 6 0 0 imu0)))).
  - vm_compute. reflexivity.
  - vm_compute. reflexivity.
  - vm_compute. discriminate.
Defined.

(** ** First packet after a reset (C3) *)

Lemma reset_no_calibration now d :
  IMUData._calibration_data d = None ->
  let d' := fst (IMUData.reset now d) in
  snd (IMUData.reset now d) = Ret tt /\
  IMUData.seq d' = 0 /\
  IMUData._packets_lost d' = 0 /\
  IMUData._packet_metadata d' = [] /\
  IMUData._packet_start d' = now /\
  IMUData._use_calibration d' = false /\
  IMUData.acc_scale d' = [F 1; F 1; F 1] /\
  IMUData.acc_offsets d' = [I 0; I 0; I 0] /\
  IMUData.gyro_offsets d' = IMUData.gyro_offsets d /\
  IMUData.mag_scale d' = IMUData.mag_scale d /\
  IMUData.mag_offsets d' = IMUData.mag_offsets d /\
  IMUData._calibration_data d' = None.
Proof.
  destruct d. simpl. intros ->. repeat split.
Qed.

Lemma load_calibration_tracking cd :
  preserves (fun d => (IMUData.seq d, IMUData._packets_lost d, IMUData._packet_metadata d))
            (IMUData.load_calibration cd).
Proof. unfold IMUData.load_calibration. frame. Qed.

(** Whatever the calibration data, a [reset] that returns leaves [seq] at 0,
    the counter at 0 and the window empty. *)
Lemma reset_tracking now d0 d :
  IMUData.reset now d0 = (d, Ret tt) ->
  IMUData.seq d = 0 /\
  IMUData._packets_lost d = 0 /\
  IMUData._packet_metadata d = [] /\
  IMUData._packet_start d = now.
Proof.
  destruct d0. unfold IMUData.reset.
  cbv [mbind mret M_bind M_ret modify get]. simpl.
  match goal with
  | |- context [IMUData.load_calibration ?cd ?d1] =>
      pose proof (load_calibration_tracking cd d1) as Hl;
      destruct (IMUData.load_calibration cd d1) as [d2 [b|e]]; [|discriminate]
  end.
  simpl in Hl. injection Hl as Hseq _ _.
  destruct d2. simpl in *. intros [= <-]. simpl. auto.
Qed.

(** C3: [reset] leaves [seq] at 0, which the guard [self.seq != -1] of
    [update] takes for a previous sequence number: the first packet after
    a reset (or after the constructor, which calls [reset]) is checked
    against [expected = 1], and any other sequence number is counted as a
    loss of [(1 - seq) mod 256] packets. *)
Theorem C3_first_update_counts_loss now0 d0 d acc gyro mag d1 seq ts now :
  IMUData.reset now0 d0 = (d, Ret tt) ->
  IMUData.store_sample acc gyro mag d = (d1, Ret tt) ->
  0 <= seq <= 255 -> seq <> 1 ->
  (now - ts <= period)%Q ->
  exists d',
    IMUData.update acc gyro mag seq ts now d = (d', Ret tt) /\
    IMUData._packets_lost d' = (1 - seq) `mod` 256 /\
    0 < IMUData._packets_lost d' /\
    IMUData._packet_metadata d' = [(ts, (1 - seq) `mod` 256)].
Proof.
  intros Hre Hst Hr Hne Hf.
  destruct (reset_tracking now0 d0 d Hre) as (Hseq & Hlost & Hmeta & _).
  destruct (update_fresh acc gyro mag seq ts now d d1 Hst Hf)
    as (d' & kept & popped & Hu & Hsplit & Hm & _ & _ & Hl & _).
  rewrite Hmeta in Hsplit. symmetry in Hsplit.
  apply app_eq_nil in Hsplit as [-> _].
  rewrite Hseq in Hm, Hl. rewrite Hlost in Hl.
  assert (Hd : dropped_count 0 seq = (1 - seq) `mod` 256).
  { rewrite dropped_count_lost; [done|lia|].
    change ((0 + 1) `mod` 256) with 1. lia. }
  rewrite Hd in Hm, Hl.
  assert (Hpos : 0 < (1 - seq) `mod` 256).
  { assert ((1 - seq) `mod` 256 <> 0);
      [|pose proof (Z.mod_pos_bound (1 - seq) 256); lia].
    intros E. apply Z.mod_divide in E; [|lia]. destruct E as [k Hk]. lia. }
  exists d'. split; [exact Hu|]. split; [lia|]. split; [lia|exact Hm].
Qed.

Lemma C3_first_update_counts_loss_witness :
  exists d',
    IMUData.update [I 1; I 2; I 3] [I 4; I 5; I 6] [I 7; I 8; I 9] 5 0 0 imu0
    = (d', Ret tt) /\
    IMUData._packets_lost d' = (1 - 5) `mod` 256 /\
    0 < IMUData._packets_lost d' /\
    IMUData._packet_metadata d' = [(0%Q, (1 - 5) `mod` 256)].
Proof.
  apply (C3_first_update_counts_loss 0%Q (IMUData.blank 0 None) imu0 _ _ _
           (fst (IMUData.store_sample [I 1; I 2; I 3] [I 4; I 5; I 6] [I 7; I 8; I 9]
                   imu0)) 5 0%Q 0%Q).
  - vm_compute. reflexivity.
  - vm_compute. reflexivity.
  - lia.
  - lia.
  - vm_compute. discriminate.
Defined.

(** ** The window after an update (C10) *)

(** C10, counterexample: a third packet arrives at 12 with timestamp 12; the
    loop stops at the last entry (timestamp 10) and the entry with timestamp
    8, now 4 seconds old, stays in the window. *)
Lemma C10_counterexample : ~ C10_as_stated.
Proof.
  intros [H _].
  destruct (H imu_unordered [] [] [] 3 12%Q 12%Q
              (fst (IMUData.store_sample [] [] [] imu_unordered)))
    as (d' & Hu & _ & Hall).
  - vm_compute. reflexivity.
  - vm_compute. discriminate.
  - assert (Hm : IMUData._packet_metadata d' = [(12%Q, 0); (8%Q, 0); (10%Q, 0)]).
    { apply (f_equal (fun r => IMUData._packet_metadata (fst r))) in Hu.
      cbn [fst] in Hu. rewrite <- Hu. vm_compute. reflexivity. }
    rewrite Hm in Hall.
    apply Forall_cons in Hall as [_ Hall]. apply Forall_cons in Hall as [H8 _].
    vm_compute in H8. apply H8. reflexivity.
Qed.

Lemma newest_first_fresh now kept popped :
  newest_first (kept ++ popped) ->
  (forall x, last kept = Some x -> fresh now x) ->
  Forall (fresh now) kept.
Proof.
  intros Hs Hl. apply StronglySorted_app_1_l in Hs.
  destruct kept as [|y k _] using rev_ind; [constructor|].
  specialize (Hl y (last_snoc _ _)).
  apply Forall_app. split; [|by repeat constructor].
  apply Forall_forall. intros x Hx.
  assert (Hxy : (fst y <= fst x)%Q).
  { apply (StronglySorted_app_1_elem_of _ k [y] x y Hs Hx). by left. }
  unfold fresh in *. lra.
Qed.

(** C10 (amended): when the new entry is no older than the period, the loop
    terminates without error and leaves the window non-empty, and when the
    window was in newest-first order every remaining entry is at most one
    period old; when the new entry and all entries of the window are older
    than the period, the loop empties the list and fails with an
    [IndexError]. *)
Theorem C10_window_pruning d acc gyro mag seq ts now d1 :
  IMUData.store_sample acc gyro mag d = (d1, Ret tt) ->
  ((now - ts <= period)%Q ->
   exists d',
     IMUData.update acc gyro mag seq ts now d = (d', Ret tt) /\
     IMUData._packet_metadata d' <> [] /\
     (newest_first (IMUData._packet_metadata d) ->
      Forall (fresh now) (IMUData._packet_metadata d'))) /\
  ((period < now - ts)%Q ->
   Forall (stale now) (IMUData._packet_metadata d) ->
   exists d',
     IMUData.update acc gyro mag seq ts now d = (d', Raise IndexError) /\
     IMUData._packet_metadata d' = []).
Proof.
  intros Hs. split.
  - intros Hf.
    destruct (update_fresh acc gyro mag seq ts now d d1 Hs Hf)
      as (d' & kept & popped & Hu & Hsplit & Hm & _ & Hl & _).
    exists d'. split; [exact Hu|]. rewrite Hm. split; [discriminate|].
    intros Hsorted. constructor; [exact Hf|].
    rewrite Hsplit in Hsorted. by apply (newest_first_fresh now kept popped).
  - intros Hst Hall.
    pose proof (store_sample_frame acc gyro mag d) as Hfr. rewrite Hs in Hfr.
    simpl in Hfr. destruct Hfr as (_ & _ & Hmeta & _).
    rewrite (update_after_store _ _ _ _ _ _ _ _ Hs).
    pose proof (track_packet_spec seq ts now d1) as Ht.
    destruct (IMUData.track_packet seq ts now d1) as [d' o]. simpl in Ht.
    rewrite Hmeta, prune_all_stale in Ht by (constructor; assumption).
    destruct Ht as (-> & Hm & _). by exists d'.
Qed.

Lemma C10_window_pruning_witness :
  (exists d',
      IMUData.update [] [] [] 3 12 12 (feed 2 11 11 (feed 1 10 10 imu0)) = (d', Ret tt) /\
      IMUData._packet_metadata d' <> [] /\
      Forall (fresh 12) (IMUData._packet_metadata d')) /\
  (exists d',
      IMUData.update [] [] [] 3 12 20 (feed 2 11 11 (feed 1 10 10 imu0))
      = (d', Raise IndexError) /\
      IMUData._packet_metadata d' = []).
Proof.
  assert (E : IMUData._packet_metadata (feed 2 11 11 (feed 1 10 10 imu0))
              = [(11%Q, 0); (10%Q, 0)]) by (vm_compute; reflexivity).
  assert (Hs : IMUData.store_sample [] [] [] (feed 2 11 11 (feed 1 10 10 imu0))
               = (fst (IMUData.store_sample [] [] [] (feed 2 11 11 (feed 1 10 10 imu0))),
                  Ret tt)) by (vm_compute; reflexivity).
  split.
  - destruct (proj1 (C10_window_pruning _ [] [] [] 3 12%Q 12%Q _ Hs))
      as (d' & Hu & Hne & Hall).
    + vm_compute. discriminate.
    + exists d'. split; [exact Hu|]. split; [exact Hne|]. apply Hall.
      rewrite E. repeat constructor. vm_compute. discriminate.
  - apply (proj2 (C10_window_pruning _ [] [] [] 3 12%Q 20%Q _ Hs)).
    + vm_compute. reflexivity.
    + rewrite E. repeat constructor.
Defined.

(** ** Sample rate and recent loss (C9) *)

Lemma load_calibration_packet_start cd :
  preserves IMUData._packet_start (IMUData.load_calibration cd).
Proof. unfold IMUData.load_calibration. frame. Qed.

Lemma reset_packet_start now d0 d :
  IMUData.reset now d0 = (d, Ret tt) -> IMUData._packet_start d = now.
Proof. intros H. by apply (reset_tracking now d0 d). Qed.

Lemma update_packet_start acc gyro mag seq ts now d :
  IMUData._packet_start (fst (IMUData.update acc gyro mag seq ts now d))
  = IMUData._packet_start d.
Proof.
  pose proof (store_sample_frame acc gyro mag d) as (_ & _ & _ & Hs).
  unfold IMUData.update. cbv [mbind M_bind].
  destruct (IMUData.store_sample acc gyro mag d) as [d1 [[]|e]]; simpl in *; [|done].
  pose proof (track_packet_spec seq ts now d1) as (_ & _ & _ & _ & _ & Ht).
  by rewrite Ht.
Qed.

Lemma started_at_packet_start t0 d : started_at t0 d -> IMUData._packet_start d = t0.
Proof.
  induction 1 as [index cd d Hi|d0 d Hr|d acc gyro mag seq ts now _ IH|d state _ IH
                 |d cd _ IH].
  - unfold IMUData.__init__ in Hi.
    destruct (IMUData.reset t0 _) as [d1 [[]|e]] eqn:Hr; [|discriminate].
    injection Hi as <-. by apply (reset_packet_start _ _ _ Hr).
  - by apply (reset_packet_start _ _ _ Hr).
  - by rewrite update_packet_start.
  - by destruct d.
  - by rewrite (load_calibration_packet_start cd d).
Qed.

(** C9: until a full sampling period (3 seconds) has elapsed since the
    tracker started or was reset, [get_sample_rate] and [get_packets_lost]
    both return the sentinel -1; afterwards [get_sample_rate] returns
    [len(window) / 3] and [get_packets_lost] the sum of the dropped counts
    of the window entries. *)
Theorem C9_rate_and_recent_loss t0 d now :
  started_at t0 d ->
  ((now - t0 < 3)%Q ->
   IMUData.get_sample_rate now d = I (-1) /\
   IMUData.get_packets_lost now d = I (-1)) /\
  ((3 <= now - t0)%Q ->
   IMUData.get_sample_rate now d
   = F (inject_Z (Z.of_nat (length (IMUData._packet_metadata d))) / 3) /\
   IMUData.get_packets_lost now d
   = I (foldr Z.add 0 (map snd (IMUData._packet_metadata d)))).
Proof.
  intros Hst. apply started_at_packet_start in Hst.
  unfold IMUData.get_packets_lost, IMUData.get_sample_rate. rewrite Hst.
  change (inject_Z IMUData.PACKET_PERIOD) with 3%Q.
  split; intros H.
  - apply Qlt_bool_true in H. by rewrite H.
  - apply Qlt_bool_false in H. rewrite H. split; [reflexivity|].
    unfold py_eq, to_Q.
    destruct (Qeq_bool _ _) eqn:E; [|reflexivity].
    apply Qeq_bool_iff in E. exfalso.
    pose proof (Nat2Z.is_nonneg (length (IMUData._packet_metadata d))) as Hn.
    rewrite Zle_Qle in Hn.
    change (inject_Z 0) with 0%Q in Hn. change (inject_Z (-1)) with (-1)%Q in E.
    set (n := inject_Z _) in *. clearbody n.
    unfold Qdiv in E. change (/ 3)%Q with (1 # 3)%Q in E. lra.
Qed.

Lemma C9_rate_and_recent_loss_witness :
  (IMUData.get_sample_rate 2 (feed 3 1 1 imu0) = I (-1) /\
   IMUData.get_packets_lost 2 (feed 3 1 1 imu0) = I (-1)) /\
  (IMUData.get_sample_rate 3 (feed 3 1 1 imu0)
   = F (inject_Z (Z.of_nat (length (IMUData._packet_metadata (feed 3 1 1 imu0)))) / 3) /\
   IMUData.get_packets_lost 3 (feed 3 1 1 imu0)
   = I (foldr Z.add 0 (map snd (IMUData._packet_metadata (feed 3 1 1 imu0))))).
Proof.
  assert (Hst : started_at 0 (feed 3 1 1 imu0)).
  { apply started_update. apply (started_reset 0 (IMUData.blank 0 None)).
    vm_compute. reflexivity. }
  split.
  - apply (proj1 (C9_rate_and_recent_loss 0 (feed 3 1 1 imu0) 2 Hst)).
    vm_compute. reflexivity.
  - apply (proj2 (C9_rate_and_recent_loss 0 (feed 3 1 1 imu0) 3 Hst)).
    vm_compute. discriminate.
Defined.

(** ** Calibration (C4, C8) *)

Lemma Qtrunc_inject q z : (q == inject_Z z)%Q -> Qtrunc q = z.
Proof.
  destruct q as [n d]. unfold Qeq, Qtrunc. simpl. intros H.
  rewrite Z.mul_1_r in H. subst n. apply Z.quot_mul. lia.
Qed.

Lemma Qtrunc_nonneg q : (0 <= q)%Q -> Qtrunc q = Qfloor q.
Proof.
  destruct q as [n d]. unfold Qle, Qtrunc, Qfloor. simpl. intros H.
  apply Z.quot_div_nonneg; lia.
Qed.





(** [for_each] over a range: the result holds [f i] at position [i]. *)
Lemma for_each_seq {B} (f : nat -> outcome B) (g : nat -> B) a n :
  (forall i, (i < n)%nat -> f (a + i)%nat = Ret (g (a + i)%nat)) ->
  for_each f (List.seq a n) = Ret (map g (List.seq a n)).
Proof.
  revert a. induction n as [|n IH]; intros a H; [reflexivity|].
  simpl. rewrite <- (Nat.add_0_r a) at 1. rewrite H by lia.
  rewrite Nat.add_0_r. simpl. rewrite IH; [reflexivity|].
  intros i Hi. replace (S a + i)%nat with (a + S i)%nat by lia. apply H. lia.
Qed.

(** With coefficients for every component, [_get_cal] applies
    [raw[x] * scale[x] - offset[x]] to each component. *)
Lemma _get_cal_apply raw offset scale :
  (length raw <= length offset)%nat -> (length raw <= length scale)%nat ->
  exists l,
    IMUData._get_cal raw offset scale false = Ret l /\
    length l = length raw /\
    forall i r s o,
      raw !! i = Some r -> scale !! i = Some s -> offset !! i = Some o ->
      l !! i = Some (py_sub (py_mul r s) o).
Proof.
  intros Ho Hs.
  pose (g := fun i => match raw !! i, scale !! i, offset !! i with
                      | Some r, Some s, Some o => py_sub (py_mul r s) o
                      | _, _, _ => I 0
                      end).
  exists (map g (List.seq 0 (length raw))). split; [|split].
  - unfold IMUData._get_cal. apply for_each_seq. intros i Hi. simpl.
    unfold item, g.
    destruct (lookup_lt_is_Some_2 raw i) as [r ->]; [lia|].
    destruct (lookup_lt_is_Some_2 scale i) as [s ->]; [lia|].
    destruct (lookup_lt_is_Some_2 offset i) as [o ->]; [lia|].
    reflexivity.
  - by rewrite length_map, length_seq.
  - intros i r s o Hr Hsc Hof.
    pose proof (lookup_lt_Some _ _ _ Hr) as Hi.
    rewrite list_lookup_fmap, lookup_seq_lt by done. simpl.
    unfold g. by rewrite Hr, Hsc, Hof.
Qed.

Lemma preserves_on_packet_metadata {A X} (f : IMUData.t -> X)
  (m : M (list (Q * Z)) A) :
  (forall meta d, f (IMUData.set__packet_metadata meta d) = f d) ->
  preserves f (IMUData.on_packet_metadata m).
Proof.
  intros H d. unfold IMUData.on_packet_metadata.
  destruct (m _) as [meta o]. apply H.
Qed.

(** The sequence check and the window leave the stored sample alone. *)
Lemma track_packet_sample seq ts now d :
  let d' := fst (IMUData.track_packet seq ts now d) in
  IMUData.acc d' = IMUData.acc d /\
  IMUData.gyro d' = IMUData.gyro d /\
  IMUData.mag d' = IMUData.mag d.
Proof.
  assert (forall X (f : IMUData.t -> X),
             (forall v d, f (IMUData.set__packets_lost v d) = f d) ->
             (forall v d, f (IMUData.set_seq v d) = f d) ->
             (forall v d, f (IMUData.set_timestamp v d) = f d) ->
             (forall v d, f (IMUData.set__packet_metadata v d) = f d) ->
             preserves f (IMUData.track_packet seq ts now)) as H.
  { intros X f H1 H2 H3 H4. unfold IMUData.track_packet.
    repeat first [ apply preserves_on_packet_metadata; by intros ? []
                 | frame_step ]. }
  repeat split; apply H; by intros ? [].
Qed.

Lemma store_sample_calibrated d acc gyro mag go mo ms a g m :
  IMUData._use_calibration d = true ->
  IMUData.gyro_offsets d = Some go ->
  IMUData.mag_offsets d = Some mo ->
  IMUData.mag_scale d = Some ms ->
  IMUData._get_cal acc (IMUData.acc_offsets d) (IMUData.acc_scale d) false = Ret a ->
  IMUData._get_cal gyro go [F 1; F 1; F 1] false = Ret g ->
  IMUData._get_cal mag mo ms false = Ret m ->
  exists d',
    IMUData.store_sample acc gyro mag d = (d', Ret tt) /\
    IMUData.acc d' = map py_int a /\
    IMUData.gyro d' = g /\
    IMUData.mag d' = map py_int m.
Proof.
  intros Hcal Hgo Hmo Hms Ha Hg Hm. destruct d.
  cbn [IMUData._use_calibration IMUData.acc_offsets IMUData.acc_scale
       IMUData.gyro_offsets IMUData.mag_offsets IMUData.mag_scale] in *. subst.
  unfold IMUData.store_sample.
  cbv [mbind mret M_bind M_ret modify get lift attr].
  cbn [negb IMUData._use_calibration IMUData.acc_offsets IMUData.acc_scale
       IMUData.gyro_offsets IMUData.mag_offsets IMUData.mag_scale].
  rewrite Ha. cbn [IMUData.set_acc]. rewrite Hg. cbn [IMUData.set_gyro]. rewrite Hm.
  eexists. split; [reflexivity|]. repeat split.
Qed.


(** What [binary64] accepts is a double: an integer mantissa below [2^53]
    times a power of two within the exponent range. *)
Lemma binary64_sound q :
  binary64 q = true ->
  exists m e,
    Z.abs m < 2 ^ 53 /\
    ((0 <= e <= 971 /\ (q == inject_Z (m * 2 ^ e))%Q) \/
     (1 <= e <= 1074 /\ (q * inject_Z (2 ^ e) == inject_Z m)%Q)).
Proof.
  unfold binary64. pose proof (Qred_correct q) as Hq.
  destruct (Qred q) as [n d]. cbn [Qnum Qden].
  set (k := Z.log2 (Z.pos d)).
  intros H. apply andb_true_iff in H as [Hd H]. apply Z.eqb_eq in Hd.
  destruct (Z.eqb_spec k 0) as [Hk|Hk].
  - apply andb_true_iff in H as [He Hm].
    apply Z.leb_le in He. apply Z.eqb_eq in Hm.
    set (e := Z.max 0 (Z.log2 (Z.abs n) - 52)) in *.
    assert (He0 : 0 <= e) by lia.
    assert (Hpow : 0 < 2 ^ e) by (apply Z.pow_pos_nonneg; lia).
    assert (Hdiv : n = n / 2 ^ e * 2 ^ e).
    { assert (Hn : n `mod` 2 ^ e = 0).
      { apply Z.mod_divide; [lia|]. apply Z.divide_abs_r.
        apply Z.mod_divide; [lia|exact Hm]. }
      pose proof (Z.div_mod n (2 ^ e) ltac:(lia)). lia. }
    exists (n / 2 ^ e), e. split.
    + assert (Habs : Z.abs n < 2 ^ 53 * 2 ^ e).
      { destruct (Z.eq_dec (Z.abs n) 0) as [->|Hne]; [lia|].
        rewrite <- Z.pow_add_r by lia. apply Z.log2_lt_pow2; lia. }
      rewrite Hdiv, Z.abs_mul, (Z.abs_eq (2 ^ e)) in Habs by lia.
      nia.
    + left. split; [lia|]. rewrite <- Hdiv, <- Hq.
      rewrite Hk in Hd. change (2 ^ 0) with 1 in Hd. injection Hd as ->. reflexivity.
  - apply andb_true_iff in H as [Hk2 Hn].
    apply Z.leb_le in Hk2. apply Z.ltb_lt in Hn.
    exists n, k. split; [exact Hn|]. right.
    assert (0 <= k) by apply Z.log2_nonneg.
    split; [lia|]. rewrite <- Hq, <- Hd.
    unfold Qeq, Qmult, inject_Z. cbn [Qnum Qden]. lia.
Qed.



(** [read_axes] returns one value per axis. *)
Lemma read_axes_length cd sensor suffix l :
  IMUData.read_axes cd sensor suffix = Ret l -> length l = 3%nat.
Proof.
  unfold IMUData.read_axes, IMUData.axes. cbn [for_each].
  cbv [mbind outcome_bind].
  repeat (destruct (IMUData.getitem _ _); [|discriminate]).
  by intros [= <-].
Qed.

(** What [load_calibration] leaves behind when it returns. *)
Lemma load_calibration_loaded cd d0 d b :
  IMUData.load_calibration (Some cd) d0 = (d, Ret b) ->
  b = true /\
  IMUData._use_calibration d = true /\
  length (IMUData.acc_scale d) = 3%nat /\
  length (IMUData.acc_offsets d) = 3%nat /\
  (cd !! "accx_offset"%string = None ->
   IMUData.acc_scale d = [F 1; F 1; F 1] /\ IMUData.acc_offsets d = [I 0; I 0; I 0]) /\
  (exists go, IMUData.gyro_offsets d = Some go /\ length go = 3%nat /\
     (cd !! "gyrox_offset"%string = None -> go = [I 0; I 0; I 0])) /\
  (exists ms mo, IMUData.mag_scale d = Some ms /\ IMUData.mag_offsets d = Some mo /\
     length ms = 3%nat /\ length mo = 3%nat /\
     (cd !! "magx_offset"%string = None ->
      ms = [I 0; I 0; I 0] /\ mo = [F 1; F 1; F 1])).
Proof.
  destruct d0. unfold IMUData.load_calibration.
  cbv [mbind mret M_bind M_ret modify get lift].
  repeat match goal with
         | |- context [decide ?P] => destruct (decide P) as [[? ?]|?]
         | |- context [IMUData.read_axes ?a ?b ?c] =>
             let E := fresh "E" in
             destruct (IMUData.read_axes a b c) eqn:E;
             [apply read_axes_length in E|]
         end;
    cbn -[lookup]; intros [= <- <-] || discriminate;
    cbn -[lookup]; (split; [reflexivity|]); (split; [reflexivity|]);
    repeat match goal with
           | |- _ /\ _ => split
           | |- (?x = None) -> _ => let H := fresh in intros H; try congruence
           | |- exists _, _ => eexists
           | H : ~ is_Some (?x) |- _ => fail
           end; try done.
Qed.

Lemma degenerate_mag m : py_int (py_sub (py_mul m (I 0)) (F 1)) = I (-1).
Proof.
  destruct m as [x|q]; cbn [py_mul py_sub py_int to_Q]; f_equal; apply Qtrunc_inject.
  - rewrite Z.mul_0_r. reflexivity.
  - change (inject_Z 0) with 0%Q. change (inject_Z (-1)) with (-1)%Q. lra.
Qed.

(** C4: when the loaded section has no magnetometer options,
    [load_calibration] stores [mag_offsets = (1., 1., 1.)] and
    [mag_scale = (0, 0, 0)] (the accelerometer branch stores scale 1 and
    offset 0), and leaves calibration enabled; the next update computes
    [int(raw * 0 - 1.0)] for the magnetometer: every raw reading becomes -1. *)
Theorem C4_missing_mag_section_applied cd d0 d b acc gyro m1 m2 m3 seq ts now :
  cd !! "magx_offset"%string = None ->
  IMUData.load_calibration (Some cd) d0 = (d, Ret b) ->
  (length acc <= 3)%nat -> (length gyro <= 3)%nat ->
  (now - ts <= period)%Q ->
  exists d',
    IMUData.update acc gyro [m1; m2; m3] seq ts now d = (d', Ret tt) /\
    IMUData.mag d' = [I (-1); I (-1); I (-1)].
Proof.
  intros Hno Hload La Lg Hf.
  destruct (load_calibration_loaded cd d0 d b Hload)
    as (_ & Hcal & Ls & Lo & _ & (go & Hgo & Lgo & _)
        & (ms & mo & Hms & Hmo & _ & _ & Hdeg)).
  destruct (Hdeg Hno) as [-> ->].
  destruct (_get_cal_apply acc (IMUData.acc_offsets d) (IMUData.acc_scale d))
    as (a & Ha & _); [lia|lia|].
  destruct (_get_cal_apply gyro go [F 1; F 1; F 1]) as (g & Hg & _);
    [lia|simpl; lia|].
  destruct (store_sample_calibrated d acc gyro [m1; m2; m3] go [F 1; F 1; F 1]
              [I 0; I 0; I 0] a g _ Hcal Hgo Hmo Hms Ha Hg eq_refl)
    as (d1 & Hs & _ & _ & Hmag).
  destruct (update_fresh acc gyro [m1; m2; m3] seq ts now d d1 Hs Hf)
    as (d' & _ & _ & Hu & _).
  pose proof (track_packet_sample seq ts now d1) as (_ & _ & Em).
  rewrite <- (update_after_store _ _ _ _ _ _ _ _ Hs), Hu in Em. simpl in Em.
  exists d'. split; [exact Hu|]. rewrite Em, Hmag.
  cbn [map]. by rewrite !degenerate_mag.
Qed.

Lemma C4_missing_mag_section_applied_witness :
  exists d',
    IMUData.update [I 1; I 2; I 3] [I 4; I 5; I 6] [I 100; I 200; I 300] 1 0 0
                   imu_acc_only = (d', Ret tt) /\
    IMUData.mag d' = [I (-1); I (-1); I (-1)].
Proof.
  apply (C4_missing_mag_section_applied cal_acc_only imu0 imu_acc_only true).
  - vm_compute. reflexivity.
  - vm_compute. reflexivity.
  - simpl. lia.
  - simpl. lia.
  - vm_compute. discriminate.
Defined.

(** With calibration switched on and no coefficients ever loaded, [update]
    does not fall back to the raw values: [self.gyro_offsets] does not
    exist. *)
Lemma update_without_coefficients_raises :
  snd (IMUData.update [I 1; I 2; I 3] [I 4; I 5; I 6] [I 7; I 8; I 9] 1 0 0
         (fst (IMUData.set_calibration true imu0)))
  = Raise AttributeError.
Proof. vm_compute. reflexivity. Qed.

(** ** [ExtAnaData] (C7) *)

(** C7, counterexample: sending the packet with sequence number 5 twice
    leaves the same state twice, although the second one is out of
    sequence. *)
Lemma C7_counterexample : ~ C7_as_stated.
Proof.
  intros [total H].
  pose (d := fst (ExtAnaData.update 0 0 0 5 0 ExtAnaData.__init__)).
  specialize (H d 0 0 0 5 0%Q). change (fst (ExtAnaData.update 0 0 0 5 0 d)) with d in H.
  change (dropped_count (ExtAnaData.seq d) 5) with 1 in H. lia.
Qed.

(** C7 (amended): [ExtAnaData.update] performs no loss detection; it stores
    the two channels, the temperature divided by 100, the sequence number
    and the timestamp of the packet, so the state after an update does not
    depend on the previous sequence number and holds no loss counter. *)
Theorem C7_extana_update_overwrites d d' ch1 ch2 temp seq ts :
  ExtAnaData.update ch1 ch2 temp seq ts d
  = (ExtAnaData.mk ch1 ch2 (F (inject_Z temp / 100)) seq (F ts), Ret tt) /\
  fst (ExtAnaData.update ch1 ch2 temp seq ts d)
  = fst (ExtAnaData.update ch1 ch2 temp seq ts d').
Proof. split; reflexivity. Qed.

(** ** The session: characteristics, writes and subscriptions *)

Lemma run_bind {St A B} (m : M St A) (k : A -> M St B) s s' a :
  m s = (s', Ret a) -> (m ≫= k) s = k a s'.
Proof. intros H. unfold mbind, M_bind. by rewrite H. Qed.

Lemma run_bind_raise {St A B} (m : M St A) (k : A -> M St B) s s' e :
  m s = (s', Raise e) -> (m ≫= k) s = (s', Raise e).
Proof. intros H. unfold mbind, M_bind. by rewrite H. Qed.

Lemma run_get_characteristic u s :
  SK8._check_connected s = true ->
  SK8._get_characteristic_from_uuid u s = (cache_add u s, Ret (characteristic s u)).
Proof.
  destruct s as [? ? ? ? ? cache [[conn srv wr subs]|] ? ?]; [|discriminate].
  unfold SK8._check_connected. simpl. intros ->.
  unfold SK8._get_characteristic_from_uuid, cache_add, characteristic.
  cbv [mbind mret M_bind M_ret get modify raise]. simpl.
  destruct (cache !! u) as [h|] eqn:Hc; simpl.
  - by rewrite insert_id.
  - by destruct (srv !! u).
Qed.

Lemma run_write_attribute h data s :
  SK8._check_connected s = true ->
  SK8._write_attribute h data s = (wrote h data s, Ret tt).
Proof.
  destruct s as [? ? ? ? ? cache [[conn srv wr subs]|] ? ?]; [|discriminate].
  unfold SK8._check_connected, SK8._write_attribute. simpl. intros ->.
  reflexivity.
Qed.

Lemma run_start_notify h k s :
  SK8._check_connected s = true ->
  SK8.on_client (BleakClient.start_notify (Some h) k) s = (subscribed h k s, Ret tt).
Proof.
  by destruct s as [? ? ? ? ? cache [[conn srv wr subs]|] ? ?].
Qed.

Lemma run_start_notify_missing k s :
  SK8._check_connected s = true ->
  SK8.on_client (BleakClient.start_notify None k) s = (s, Raise BleakError).
Proof.
  by destruct s as [? ? ? ? ? cache [[conn srv wr subs]|] ? ?].
Qed.

Lemma run_stop_notify h s :
  SK8._check_connected s = true ->
  SK8.on_client (BleakClient.stop_notify (Some h)) s = (unsubscribed h s, Ret tt).
Proof.
  by destruct s as [? ? ? ? ? cache [[conn srv wr subs]|] ? ?].
Qed.

Lemma same_link_refl s : same_link s s.
Proof. by split. Qed.

Lemma same_link_trans s1 s2 s3 : same_link s1 s2 -> same_link s2 s3 -> same_link s1 s3.
Proof.
  intros [] []. split; congruence.
Qed.

Lemma cache_add_link u s : same_link s (cache_add u s).
Proof.
  unfold cache_add. destruct (characteristic s u) as [h|] eqn:Hu; [|apply same_link_refl].
  destruct s as [? ? ? ? ? cache [c|] ? ?]; split; try reflexivity;
    intros v; unfold characteristic in *; simpl in *;
    (destruct (decide (u = v)) as [<-|Hne];
     [rewrite lookup_insert_eq; by destruct (cache !! u)
     |by rewrite lookup_insert_ne]).
Qed.

Lemma client_after_link {A} (m : M BleakClient.t A) s :
  (forall c, BleakClient.is_connected (fst (m c)) = BleakClient.is_connected c) ->
  (forall c, BleakClient.services (fst (m c)) = BleakClient.services c) ->
  same_link s (client_after m s).
Proof.
  intros H1 H2. destruct s as [? ? ? ? ? cache [c|] ? ?]; [|apply same_link_refl].
  split; try reflexivity; simpl; [apply H1|].
  intros u. unfold characteristic. simpl. by rewrite H2.
Qed.

Lemma wrote_link h data s : same_link s (wrote h data s).
Proof. apply client_after_link; by intros []. Qed.

Lemma subscribed_link h k s : same_link s (subscribed h k s).
Proof. apply client_after_link; by intros []. Qed.

Lemma unsubscribed_link h s : same_link s (unsubscribed h s).
Proof. apply client_after_link; by intros []. Qed.

Lemma set_enabled_imus_link v s : same_link s (SK8.set__enabled_imus v s).
Proof. by destruct s. Qed.

Lemma set_enabled_sensors_link v s : same_link s (SK8.set__enabled_sensors v s).
Proof. by destruct s. Qed.

Lemma writes_cache_add u s : writes (cache_add u s) = writes s.
Proof. unfold cache_add. destruct (characteristic s u); by destruct s. Qed.

Lemma writes_wrote h data s :
  SK8._check_connected s = true -> writes (wrote h data s) = writes s ++ [(h, data)].
Proof.
  by destruct s as [? ? ? ? ? cache [[conn srv wr subs]|] ? ?].
Qed.

Lemma writes_subscribed h k s : writes (subscribed h k s) = writes s.
Proof. by destruct s as [? ? ? ? ? cache [[conn srv wr subs]|] ? ?]. Qed.

Lemma writes_set_enabled_imus v s : writes (SK8.set__enabled_imus v s) = writes s.
Proof. by destruct s. Qed.

Lemma writes_set_enabled_sensors v s : writes (SK8.set__enabled_sensors v s) = writes s.
Proof. by destruct s. Qed.

Lemma connected_cache_add u s :
  SK8._check_connected (cache_add u s) = SK8._check_connected s.
Proof. apply cache_add_link. Qed.
Lemma connected_wrote h data s :
  SK8._check_connected (wrote h data s) = SK8._check_connected s.
Proof. apply wrote_link. Qed.
Lemma connected_subscribed h k s :
  SK8._check_connected (subscribed h k s) = SK8._check_connected s.
Proof. apply subscribed_link. Qed.
Lemma connected_unsubscribed h s :
  SK8._check_connected (unsubscribed h s) = SK8._check_connected s.
Proof. apply unsubscribed_link. Qed.
Lemma connected_set_enabled_imus v s :
  SK8._check_connected (SK8.set__enabled_imus v s) = SK8._check_connected s.
Proof. by destruct s. Qed.
Lemma connected_set_enabled_sensors v s :
  SK8._check_connected (SK8.set__enabled_sensors v s) = SK8._check_connected s.
Proof. by destruct s. Qed.

Lemma characteristic_cache_add u s v : characteristic (cache_add u s) v = characteristic s v.
Proof. apply cache_add_link. Qed.
Lemma characteristic_wrote h data s v : characteristic (wrote h data s) v = characteristic s v.
Proof. apply wrote_link. Qed.
Lemma characteristic_subscribed h k s v :
  characteristic (subscribed h k s) v = characteristic s v.
Proof. apply subscribed_link. Qed.
Lemma characteristic_unsubscribed h s v :
  characteristic (unsubscribed h s) v = characteristic s v.
Proof. apply unsubscribed_link. Qed.
Lemma characteristic_set_enabled_imus x s v :
  characteristic (SK8.set__enabled_imus x s) v = characteristic s v.
Proof. by destruct s. Qed.
Lemma characteristic_set_enabled_sensors x s v :
  characteristic (SK8.set__enabled_sensors x s) v = characteristic s v.
Proof. by destruct s. Qed.

Create Rewrite HintDb session.
#[local] Hint Rewrite connected_cache_add connected_wrote connected_subscribed
  connected_unsubscribed connected_set_enabled_imus connected_set_enabled_sensors
  characteristic_cache_add characteristic_wrote characteristic_subscribed
  characteristic_unsubscribed characteristic_set_enabled_imus
  characteristic_set_enabled_sensors writes_cache_add writes_subscribed
  writes_set_enabled_imus writes_set_enabled_sensors : session.

Ltac conn := autorewrite with session; assumption.

Lemma enable_imu_streaming_ok imus sensors bits hi hs hc b1 b2 s :
  SK8._check_connected s = true ->
  SK8.imu_bits imus 0 = Ret bits ->
  sensors <> 0 ->
  characteristic s UUID_IMU_SELECTION = Some hi ->
  characteristic s UUID_SENSOR_SELECTION = Some hs ->
  characteristic s UUID_IMU_CCC = Some hc ->
  struct_pack_B bits = Ret b1 ->
  struct_pack_B sensors = Ret b2 ->
  SK8.enable_imu_streaming imus sensors s
  = (imu_enabled imus sensors hi hs hc b1 b2 s, Ret true).
Proof.
  intros Hc Hbits Hs Hi Hss Hcc Hb1 Hb2.
  unfold SK8.enable_imu_streaming, SK8._get_characteristic_handle_from_uuid.
  cbv [mbind M_bind get mret M_ret lift modify].
  rewrite Hc, Hbits. cbn [negb]. destruct (Z.eqb_spec sensors 0) as [|_]; [done|].
  rewrite run_get_characteristic, Hi by conn.
  rewrite run_get_characteristic by conn. autorewrite with session. rewrite Hss, Hb1.
  rewrite run_write_attribute by conn. rewrite Hb2.
  rewrite run_write_attribute by conn.
  rewrite run_get_characteristic by conn. autorewrite with session. rewrite Hcc.
  rewrite run_start_notify by conn. reflexivity.
Qed.

Lemma enabled_imus_cache_add u s : SK8._enabled_imus (cache_add u s) = SK8._enabled_imus s.
Proof. unfold cache_add. destruct (characteristic s u); by destruct s. Qed.
Lemma enabled_sensors_cache_add u s :
  SK8._enabled_sensors (cache_add u s) = SK8._enabled_sensors s.
Proof. unfold cache_add. destruct (characteristic s u); by destruct s. Qed.
Lemma enabled_imus_client_after {A} (m : M BleakClient.t A) s :
  SK8._enabled_imus (client_after m s) = SK8._enabled_imus s.
Proof. by destruct s as [? ? ? ? ? ? [c|] ? ?]. Qed.
Lemma enabled_sensors_client_after {A} (m : M BleakClient.t A) s :
  SK8._enabled_sensors (client_after m s) = SK8._enabled_sensors s.
Proof. by destruct s as [? ? ? ? ? ? [c|] ? ?]. Qed.
Lemma enabled_imus_set_imus v s : SK8._enabled_imus (SK8.set__enabled_imus v s) = v.
Proof. by destruct s. Qed.
Lemma enabled_imus_set_sensors v s :
  SK8._enabled_imus (SK8.set__enabled_sensors v s) = SK8._enabled_imus s.
Proof. by destruct s. Qed.
Lemma enabled_sensors_set_imus v s :
  SK8._enabled_sensors (SK8.set__enabled_imus v s) = SK8._enabled_sensors s.
Proof. by destruct s. Qed.
Lemma enabled_sensors_set_sensors v s :
  SK8._enabled_sensors (SK8.set__enabled_sensors v s) = v.
Proof. by destruct s. Qed.

Lemma enabled_imus_wrote h data s :
  SK8._enabled_imus (wrote h data s) = SK8._enabled_imus s.
Proof. apply enabled_imus_client_after. Qed.
Lemma enabled_sensors_wrote h data s :
  SK8._enabled_sensors (wrote h data s) = SK8._enabled_sensors s.
Proof. apply enabled_sensors_client_after. Qed.
Lemma enabled_imus_subscribed h k s :
  SK8._enabled_imus (subscribed h k s) = SK8._enabled_imus s.
Proof. apply enabled_imus_client_after. Qed.
Lemma enabled_sensors_subscribed h k s :
  SK8._enabled_sensors (subscribed h k s) = SK8._enabled_sensors s.
Proof. apply enabled_sensors_client_after. Qed.
Lemma enabled_imus_unsubscribed h s :
  SK8._enabled_imus (unsubscribed h s) = SK8._enabled_imus s.
Proof. apply enabled_imus_client_after. Qed.

#[local] Hint Rewrite enabled_imus_cache_add enabled_sensors_cache_add
  enabled_imus_wrote enabled_sensors_wrote enabled_imus_subscribed
  enabled_sensors_subscribed enabled_imus_unsubscribed enabled_imus_set_imus
  enabled_imus_set_sensors enabled_sensors_set_imus enabled_sensors_set_sensors : session.

Ltac session := autorewrite with session.

Lemma writes_imu_enabled imus sensors hi hs hc b1 b2 s :
  SK8._check_connected s = true ->
  writes (imu_enabled imus sensors hi hs hc b1 b2 s) = writes s ++ [(hi, b1); (hs, b2)].
Proof.
  intros Hc. unfold imu_enabled. autorewrite with session.
  rewrite !writes_wrote by conn. autorewrite with session.
  by rewrite <- app_assoc.
Qed.

Lemma connected_imu_enabled imus sensors hi hs hc b1 b2 s :
  SK8._check_connected (imu_enabled imus sensors hi hs hc b1 b2 s)
  = SK8._check_connected s.
Proof. unfold imu_enabled. by autorewrite with session. Qed.

Lemma characteristic_imu_enabled imus sensors hi hs hc b1 b2 s v :
  characteristic (imu_enabled imus sensors hi hs hc b1 b2 s) v = characteristic s v.
Proof. unfold imu_enabled. by autorewrite with session. Qed.

Lemma enabled_imus_imu_enabled imus sensors hi hs hc b1 b2 s :
  SK8._enabled_imus (imu_enabled imus sensors hi hs hc b1 b2 s) = imus.
Proof. unfold imu_enabled. by autorewrite with session. Qed.

#[local] Hint Rewrite connected_imu_enabled characteristic_imu_enabled
  enabled_imus_imu_enabled : session.

Lemma pack_flag (include_imu : bool) :
  struct_pack_B (if include_imu then 1 else 0) = Ret [flag_byte include_imu].
Proof. by destruct include_imu. Qed.

Lemma enable_extana_streaming_ok include_imu sensors hi hs hc hx he b2 s :
  SK8._check_connected s = true ->
  sensors <> 0 ->
  characteristic s UUID_IMU_SELECTION = Some hi ->
  characteristic s UUID_SENSOR_SELECTION = Some hs ->
  characteristic s UUID_IMU_CCC = Some hc ->
  extana_flag_handle s = Some hx ->
  characteristic s UUID_EXTANA_CCC = Some he ->
  struct_pack_B sensors = Ret b2 ->
  exists s',
    SK8.enable_extana_streaming include_imu sensors s = (s', Ret true) /\
    SK8._enabled_imus s' = [0] /\
    SK8._enabled_sensors s' = sensors /\
    writes s' = writes s ++ [(hi, [x01]); (hs, b2); (hx, [flag_byte include_imu])].
Proof.
  intros Hc Hs Hi Hss Hcc Hx He Hb2.
  unfold SK8.enable_extana_streaming, SK8._get_characteristic_handle_from_uuid.
  cbv [mbind M_bind get mret M_ret lift modify].
  rewrite Hc. cbn [negb].
  rewrite (enable_imu_streaming_ok [0] sensors 1 hi hs hc [x01] b2 s) by done.
  pose proof (writes_imu_enabled [0] sensors hi hs hc [x01] b2 s Hc) as Hw1.
  set (s1 := imu_enabled [0] sensors hi hs hc [x01] b2 s) in *.
  assert (Hc1 : SK8._check_connected s1 = true) by (unfold s1; conn).
  assert (Hi1 : SK8._enabled_imus s1 = [0]) by (unfold s1; by autorewrite with session).
  assert (Hch : forall v, characteristic s1 v = characteristic s v)
    by (intros v; unfold s1; by autorewrite with session).
  clearbody s1.
  rewrite run_get_characteristic by conn.
  rewrite run_get_characteristic by conn. autorewrite with session.
  unfold extana_flag_handle in Hx. rewrite !Hch, pack_flag.
  destruct (characteristic s UUID_EXTANA_IMU_STREAMING);
    destruct (characteristic s UUID_EXTANA_IMU_STREAMING_TMP);
    try discriminate; injection Hx as ->;
    (rewrite run_write_attribute by conn;
     rewrite run_get_characteristic by (session; conn);
     session; rewrite Hch, He;
     rewrite run_start_notify by (session; conn);
     destruct include_imu; eexists; (split; [reflexivity|]);
     session; rewrite writes_wrote by conn; session;
     rewrite Hw1, <- app_assoc; auto).
Qed.

(** ** The selection bytes *)

Lemma imu_bits_spec imus acc :
  0 <= acc ->
  Forall (fun i => 0 <= i) imus ->
  exists bits,
    SK8.imu_bits imus acc = Ret bits /\ 0 <= bits /\
    forall i, 0 <= i -> Z.testbit bits i = Z.testbit acc i || bool_decide (i ∈ imus).
Proof.
  intros Hacc H. revert acc Hacc.
  induction H as [|x imus Hx _ IH]; intros acc Hacc.
  - exists acc. split; [reflexivity|]. split; [exact Hacc|].
    intros i _. rewrite bool_decide_eq_false_2 by apply not_elem_of_nil.
    by rewrite orb_false_r.
  - cbn [SK8.imu_bits]. destruct (Z.ltb_spec x 0) as [|_]; [lia|].
    destruct (IH (Z.lor acc (Z.shiftl 1 x))) as (bits & Hrun & Hpos & Hbits).
    { apply Z.lor_nonneg. split; [exact Hacc|]. apply Z.shiftl_nonneg. lia. }
    exists bits. split; [exact Hrun|]. split; [exact Hpos|].
    intros i Hi. rewrite (Hbits i Hi), Z.lor_spec, Z.shiftl_1_l, Z.pow2_bits_eqb by exact Hx.
    rewrite <- orb_assoc. f_equal.
    destruct (Z.eqb_spec x i) as [->|Hne].
    + by rewrite (bool_decide_eq_true_2 (i ∈ i :: imus)) by (by left).
    + cbn [orb]. apply bool_decide_ext. rewrite elem_of_cons.
      split; [by right|]. intros [?|?]; [congruence|done].
Qed.


Lemma struct_pack_B_range v :
  (0 <= v <= 255 -> exists b, struct_pack_B v = Ret [b]) /\
  (v < 0 \/ 255 < v -> struct_pack_B v = Raise StructError).
Proof.
  unfold struct_pack_B. split.
  - intros Hv. destruct (Z.ltb_spec v 0) as [|_]; [lia|].
    destruct (Byte.of_N (Z.to_N v)) as [b|] eqn:Hb; [by exists b|].
    apply Byte.of_N_None_iff in Hb. lia.
  - intros Hv. destruct (Z.ltb_spec v 0) as [|Hge]; [done|].
    assert (Hb : Byte.of_N (Z.to_N v) = None) by (apply Byte.of_N_None_iff; lia).
    by rewrite Hb.
Qed.

Lemma bits_below a n :
  0 <= a -> 0 <= n -> (forall i, n <= i -> Z.testbit a i = false) -> a < 2 ^ n.
Proof.
  intros Ha Hn Hbits. destruct (Z.eq_dec a 0) as [->|Hne].
  - apply Z.pow_pos_nonneg; lia.
  - apply Z.log2_lt_pow2; [lia|].
    destruct (Z.ltb_spec (Z.log2 a) n) as [|Hge]; [done|].
    specialize (Hbits (Z.log2 a) Hge). rewrite Z.bit_log2 in Hbits by lia. discriminate.
Qed.

Lemma struct_pack_B_value v b : struct_pack_B v = Ret [b] -> Z_of_byte b = v.
Proof.
  unfold struct_pack_B, Z_of_byte. destruct (Z.ltb_spec v 0) as [|Hv]; [done|].
  destruct (Byte.of_N (Z.to_N v)) as [b'|] eqn:Hb; [|done].
  intros [= <-]. apply Byte.to_of_N in Hb. rewrite Hb. lia.
Qed.

(** For indices from 0 to 7 the mask fits the selection byte. *)
Lemma imu_bits_byte imus :
  Forall (fun i => 0 <= i <= 7) imus ->
  exists bits b1,
    SK8.imu_bits imus 0 = Ret bits /\
    struct_pack_B bits = Ret [b1] /\
    forall i, Z.testbit (Z_of_byte b1) i = true <-> i ∈ imus.
Proof.
  intros Hall.
  assert (Hnn : Forall (fun i => 0 <= i) imus)
    by (eapply Forall_impl; [exact Hall|]; intros; simpl in *; lia).
  destruct (imu_bits_spec imus 0 ltac:(lia) Hnn) as (bits & Hbits & Hpos & Hspec).
  assert (Hsmall : bits < 2 ^ 8).
  { apply bits_below; [exact Hpos|lia|]. intros j Hj.
    rewrite Hspec, Z.bits_0 by lia. cbn [orb]. apply bool_decide_eq_false_2.
    intros Hjin. rewrite Forall_forall in Hall. specialize (Hall j Hjin). simpl in Hall. lia. }
  destruct (proj1 (struct_pack_B_range bits)) as [b1 Hb1]; [lia|].
  exists bits, b1. split; [exact Hbits|]. split; [exact Hb1|].
  intros i. rewrite (struct_pack_B_value _ _ Hb1).
  destruct (Z.ltb_spec i 0) as [Hneg|Hi].
  - rewrite Z.testbit_neg_r by exact Hneg. split; [done|].
    intros Hin. rewrite Forall_forall in Hnn. specialize (Hnn i Hin). lia.
  - rewrite (Hspec i Hi), Z.bits_0. cbn [orb]. apply bool_decide_eq_true.
Qed.

(** ** Streaming exclusivity (C1) *)

(** C1, counterexample: with IMUs 1 and 2 streaming,
    [enable_extana_streaming()] returns [True]. *)
Lemma C1_counterexample : ~ C1_as_stated.
Proof.
  intros [H _].
  destruct (H sk8_connected [1; 2] SENSOR_ALL sk8_streaming false SENSOR_ALL)
    as (s' & Hu & _).
  - vm_compute. reflexivity.
  - apply (f_equal snd) in Hu. vm_compute in Hu. discriminate.
Qed.

(** C1 (amended): neither method looks at the streaming mode.  On a
    session that is not connected both return [False] and change nothing.
    On every connected session whose characteristics resolve, whatever is
    streaming, and for a sensor mask from 1 to 255:
    [enable_extana_streaming] returns [True], sets [_enabled_sensors] to the
    mask and writes the ExtAna flag last (1 with [include_imu], else 0), and
    with [include_imu] it sets [_enabled_imus] to [[0]];
    [enable_imu_streaming], for IMU indices from 0 to 7, returns [True],
    writes the selection byte that has exactly the bits of the listed
    indices and then the sensor mask, and records its arguments. *)
Theorem C1_enable_ignores_streaming_mode :
  (forall s include_imu imus sensors,
      SK8._check_connected s = false ->
      SK8.enable_extana_streaming include_imu sensors s = (s, Ret false) /\
      SK8.enable_imu_streaming imus sensors s = (s, Ret false)) /\
  (forall s include_imu sensors hi hs hc hx he,
      SK8._check_connected s = true ->
      1 <= sensors <= 255 ->
      characteristic s UUID_IMU_SELECTION = Some hi ->
      characteristic s UUID_SENSOR_SELECTION = Some hs ->
      characteristic s UUID_IMU_CCC = Some hc ->
      extana_flag_handle s = Some hx ->
      characteristic s UUID_EXTANA_CCC = Some he ->
      exists s',
        SK8.enable_extana_streaming include_imu sensors s = (s', Ret true) /\
        SK8._enabled_sensors s' = sensors /\
        last (writes s') = Some (hx, [flag_byte include_imu]) /\
        (include_imu = true -> SK8._enabled_imus s' = [0])) /\
  (forall s imus sensors hi hs hc,
      SK8._check_connected s = true ->
      Forall (fun i => 0 <= i <= 7) imus ->
      1 <= sensors <= 255 ->
      characteristic s UUID_IMU_SELECTION = Some hi ->
      characteristic s UUID_SENSOR_SELECTION = Some hs ->
      characteristic s UUID_IMU_CCC = Some hc ->
      exists s' b1 b2,
        SK8.enable_imu_streaming imus sensors s = (s', Ret true) /\
        SK8._enabled_imus s' = imus /\
        SK8._enabled_sensors s' = sensors /\
        writes s' = writes s ++ [(hi, [b1]); (hs, [b2])] /\
        (forall i, Z.testbit (Z_of_byte b1) i = true <-> i ∈ imus) /\
        Z_of_byte b2 = sensors).
Proof.
  split; [|split].
  - intros s include_imu imus sensors Hc.
    unfold SK8.enable_extana_streaming, SK8.enable_imu_streaming.
    cbv [mbind M_bind get mret M_ret]. by rewrite Hc.
  - intros s include_imu sensors hi hs hc hx he Hc Hs Hi Hss Hcc Hx He.
    destruct (proj1 (struct_pack_B_range sensors)) as [b2 Hb2]; [lia|].
    destruct (enable_extana_streaming_ok include_imu sensors hi hs hc hx he [b2] s)
      as (s' & Hrun & _ & Hsens & Hw); try done; [lia|].
    exists s'. split; [exact Hrun|]. split; [exact Hsens|]. split.
    + rewrite Hw.
      change [(hi, [x01]); (hs, [b2]); (hx, [flag_byte include_imu])]
        with ([(hi, [x01]); (hs, [b2])] ++ [(hx, [flag_byte include_imu])]).
      rewrite app_assoc. apply last_snoc.
    + intros ->. revert Hrun.
      destruct (enable_extana_streaming_ok true sensors hi hs hc hx he [b2] s)
        as (s2 & -> & Himus & _); try done; [lia|].
      by intros [= <-].
  - intros s imus sensors hi hs hc Hc Hall Hs Hi Hss Hcc.
    destruct (imu_bits_byte imus Hall) as (bits & b1 & Hbits & Hb1 & Hspec).
    destruct (proj1 (struct_pack_B_range sensors)) as [b2 Hb2]; [lia|].
    eexists _, b1, b2.
    split; [eapply (enable_imu_streaming_ok imus sensors bits); try done; lia|].
    autorewrite with session. repeat split.
    + unfold imu_enabled. by autorewrite with session.
    + by apply writes_imu_enabled.
    + by apply Hspec.
    + by apply Hspec.
    + by apply struct_pack_B_value.
Qed.

Lemma C1_enable_ignores_streaming_mode_witness :
  (SK8.enable_extana_streaming false SENSOR_ALL sk8_new = (sk8_new, Ret false) /\
   SK8.enable_imu_streaming [0] SENSOR_ALL sk8_new = (sk8_new, Ret false)) /\
  (exists s',
      SK8.enable_extana_streaming false SENSOR_ALL sk8_streaming = (s', Ret true) /\
      SK8._enabled_sensors s' = SENSOR_ALL /\
      last (writes s') = Some (14, [flag_byte false]) /\
      (false = true -> SK8._enabled_imus s' = [0])) /\
  (exists s' b1 b2,
      SK8.enable_imu_streaming [1; 2] SENSOR_ALL sk8_extana = (s', Ret true) /\
      SK8._enabled_imus s' = [1; 2] /\
      SK8._enabled_sensors s' = SENSOR_ALL /\
      writes s' = writes sk8_extana ++ [(10, [b1]); (11, [b2])] /\
      (forall i, Z.testbit (Z_of_byte b1) i = true <-> i ∈ [1; 2]) /\
      Z_of_byte b2 = SENSOR_ALL).
Proof.
  split; [|split].
  - apply (proj1 C1_enable_ignores_streaming_mode sk8_new false [0] SENSOR_ALL).
    vm_compute. reflexivity.
  - apply (proj1 (proj2 C1_enable_ignores_streaming_mode)
             sk8_streaming false SENSOR_ALL 10 11 12 14 13).
    + vm_compute. reflexivity.
    + vm_compute. split; discriminate.
    + vm_compute. reflexivity.
    + vm_compute. reflexivity.
    + vm_compute. reflexivity.
    + vm_compute. reflexivity.
    + vm_compute. reflexivity.
  - apply (proj2 (proj2 C1_enable_ignores_streaming_mode)
             sk8_extana [1; 2] SENSOR_ALL 10 11 12).
    + vm_compute. reflexivity.
    + repeat constructor; lia.
    + vm_compute. split; discriminate.
    + vm_compute. reflexivity.
    + vm_compute. reflexivity.
    + vm_compute. reflexivity.
Defined.

(** The sample states are the ones the calls in their definitions return. *)
Lemma imu0_constructed : IMUData.__init__ 0 None 0 = Ret imu0.
Proof. vm_compute. reflexivity. Qed.

Lemma samples_reachable :
  SK8.__init__ true (fun _ => 0%Q) = Ret sk8_new /\
  SK8.connect (Some "SK8"%string) None (Some sk8_device) ∅ sk8_new
  = (sk8_connected, Ret true) /\
  SK8.enable_imu_streaming [1; 2] SENSOR_ALL sk8_connected = (sk8_streaming, Ret true) /\
  SK8.enable_extana_streaming false SENSOR_ALL sk8_connected = (sk8_extana, Ret true) /\
  SK8.set_calibration true [] sk8_streaming = (sk8_calibrated, Ret tt) /\
  SK8.get_calibration sk8_calibrated = [true; true; true; true; true].
Proof. repeat split; vm_compute; reflexivity. Qed.

(** ** Disabling a streaming mode (C5, C6) *)

Lemma preserves_on_client {A X} (f : SK8.t -> X) (m : M BleakClient.t A) :
  (forall c s, f (SK8.set__client c s) = f s) -> preserves f (SK8.on_client m).
Proof.
  intros H s. unfold SK8.on_client.
  destruct (SK8._client s) as [c|]; [|reflexivity].
  destruct (m c). apply H.
Qed.

Lemma preserves_reset_imus {X} (f : SK8.t -> X) now :
  (forall v s, f (SK8.set__imus v s) = f s) -> preserves f (SK8.reset_imus now).
Proof.
  intros H s. unfold SK8.reset_imus. destruct (SK8.reset_from _ _ _). apply H.
Qed.

Lemma preserves_get_characteristic {X} (f : SK8.t -> X) u :
  (forall v s, f (SK8.set__uuid_chars v s) = f s) ->
  preserves f (SK8._get_characteristic_from_uuid u).
Proof.
  intros H. unfold SK8._get_characteristic_from_uuid.
  repeat first [ apply preserves_modify; intros; apply H | frame_step ].
Qed.

(** Calibration was switched on for all IMUs, and is off after
    [disable_imu_streaming]. *)
Lemma C5_counterexample : ~ C5_as_stated.
Proof.
  intros H.
  specialize (H (fun _ => 5%Q) sk8_calibrated
                (fst (SK8.disable_imu_streaming (fun _ => 5%Q) sk8_calibrated))).
  assert (E : map IMUData._use_calibration
                (SK8._imus (fst (SK8.disable_imu_streaming (fun _ => 5%Q) sk8_calibrated)))
              = map IMUData._use_calibration (SK8._imus sk8_calibrated)).
  { assert (Hrun : SK8.disable_imu_streaming (fun _ => 5%Q) sk8_calibrated
                   = (fst (SK8.disable_imu_streaming (fun _ => 5%Q) sk8_calibrated),
                      Ret true)) by (vm_compute; reflexivity).
    specialize (H Hrun). clear Hrun.
    induction H as [|d d' l l' (_ & _ & _ & Hd & _) _ IH]; [reflexivity|].
    simpl. by rewrite Hd, IH. }
  vm_compute in E. discriminate.
Qed.

Lemma reset_from_defaults now i imus :
  Forall (fun d => IMUData._calibration_data d = None) imus ->
  exists imus',
    SK8.reset_from now i imus = (imus', Ret tt) /\
    Forall2 reset_to_defaults imus imus'.
Proof.
  intros H. revert i. induction H as [|d imus Hd _ IH]; intros i.
  - by exists [].
  - simpl. pose proof (reset_no_calibration (now i) d Hd) as Hr.
    destruct (IMUData.reset (now i) d) as [d' o]. simpl in Hr.
    destruct Hr as (-> & ? & ? & ? & _ & ? & ? & ? & ? & ? & ? & _).
    destruct (IH (S i)) as (imus' & -> & Hall).
    exists (d' :: imus'). split; [reflexivity|].
    constructor; [|exact Hall]. by repeat split.
Qed.

(** C5: what the code does.  On a connected session whose notification
    characteristic resolves, [disable_imu_streaming] and
    [disable_extana_streaming] return [True] and reset every IMU: the
    rolling window is emptied, [seq] and the cumulative loss are set to 0.
    [reset] also switches calibration off and puts the accelerometer
    coefficients back to scale 1, offset 0, and then reloads
    [_calibration_data], which no IMU of a session has: the calibration the
    user set is lost, and the gyroscope and magnetometer coefficients are
    left behind. *)
Theorem C5_disable_resets_calibration now s :
  SK8._check_connected s = true ->
  Forall (fun d => IMUData._calibration_data d = None) (SK8._imus s) ->
  (is_Some (characteristic s UUID_IMU_CCC) ->
   exists s',
     SK8.disable_imu_streaming now s = (s', Ret true) /\
     Forall2 reset_to_defaults (SK8._imus s) (SK8._imus s')) /\
  (is_Some (characteristic s UUID_EXTANA_CCC) ->
   exists s',
     SK8.disable_extana_streaming now s = (s', Ret true) /\
     Forall2 reset_to_defaults (SK8._imus s) (SK8._imus s')).
Proof.
  intros Hc Hno.
  assert (Hreset : forall s1, SK8._imus s1 = SK8._imus s ->
            exists s2, SK8.reset_imus now s1 = (s2, Ret tt) /\
                       Forall2 reset_to_defaults (SK8._imus s) (SK8._imus s2)).
  { intros s1 E. unfold SK8.reset_imus. rewrite E.
    destruct (reset_from_defaults now 0%nat (SK8._imus s) Hno) as (imus' & -> & Hall).
    eexists. split; [reflexivity|]. by destruct s1. }
  split; intros [h Hh].
  - unfold SK8.disable_imu_streaming. cbv [mbind M_bind get mret M_ret].
    rewrite Hc. cbn [negb].
    rewrite run_get_characteristic, Hh by conn.
    rewrite run_stop_notify by conn.
    destruct (Hreset (unsubscribed h (cache_add UUID_IMU_CCC s))) as (s2 & -> & Hall).
    { rewrite (link_imus _ _ (unsubscribed_link _ _)).
      apply (link_imus _ _ (cache_add_link _ _)). }
    by exists s2.
  - unfold SK8.disable_extana_streaming. cbv [mbind M_bind get mret M_ret modify].
    rewrite Hc. cbn [negb].
    rewrite run_get_characteristic, Hh by conn.
    rewrite run_stop_notify by conn.
    destruct (Hreset (unsubscribed h (cache_add UUID_EXTANA_CCC s))) as (s2 & -> & Hall).
    { rewrite (link_imus _ _ (unsubscribed_link _ _)).
      apply (link_imus _ _ (cache_add_link _ _)). }
    eexists. split; [reflexivity|]. by destruct s2.
Qed.

Lemma C5_disable_resets_calibration_witness :
  (exists s',
      SK8.disable_imu_streaming (fun _ => 5%Q) sk8_calibrated = (s', Ret true) /\
      Forall2 reset_to_defaults (SK8._imus sk8_calibrated) (SK8._imus s')) /\
  (exists s',
      SK8.disable_extana_streaming (fun _ => 5%Q) sk8_calibrated = (s', Ret true) /\
      Forall2 reset_to_defaults (SK8._imus sk8_calibrated) (SK8._imus s')).
Proof.
  assert (Hno : Forall (fun d => IMUData._calibration_data d = None)
                  (SK8._imus sk8_calibrated)).
  { assert (E : IMUData._calibration_data <$> SK8._imus sk8_calibrated
                = replicate 5 None) by (vm_compute; reflexivity).
    apply Forall_forall. intros d Hd.
    apply (list_elem_of_fmap_2 IMUData._calibration_data) in Hd. rewrite E in Hd.
    by apply elem_of_replicate in Hd as [? _]. }
  destruct (C5_disable_resets_calibration (fun _ => 5%Q) sk8_calibrated) as [H1 H2].
  - vm_compute. reflexivity.
  - exact Hno.
  - split; [apply H1; exists 12|apply H2; exists 13]; vm_compute; reflexivity.
Defined.

(** C6: [disable_imu_streaming] never assigns [_enabled_imus] (its sibling
    [disable_extana_streaming] ends with [self._enabled_imus = []]): after
    enabling IMUs 1 and 2 and a successful [disable_imu_streaming],
    [get_enabled_imus] still returns [[1, 2]]. *)
Theorem C6_disable_keeps_enabled_imus :
  (forall now s,
      SK8.get_enabled_imus (fst (SK8.disable_imu_streaming now s))
      = SK8.get_enabled_imus s) /\
  (exists s',
      SK8.disable_imu_streaming (fun _ => 5%Q) sk8_streaming = (s', Ret true) /\
      SK8.get_enabled_imus s' = [1; 2]) /\
  (exists s',
      SK8.get_enabled_imus sk8_extana = [0] /\
      SK8.disable_extana_streaming (fun _ => 5%Q) sk8_extana = (s', Ret true) /\
      SK8.get_enabled_imus s' = []).
Proof.
  split; [|split].
  - intros now. change (preserves SK8.get_enabled_imus (SK8.disable_imu_streaming now)).
    unfold SK8.disable_imu_streaming.
    repeat first [ apply preserves_get_characteristic; by intros ? []
                 | apply preserves_on_client; by intros ? []
                 | apply preserves_reset_imus; by intros ? []
                 | frame_step ].
  - exists (fst (SK8.disable_imu_streaming (fun _ => 5%Q) sk8_streaming)).
    split; vm_compute; reflexivity.
  - exists (fst (SK8.disable_extana_streaming (fun _ => 5%Q) sk8_extana)).
    repeat split; vm_compute; reflexivity.
Qed.

(** ** A stream through the session *)

(** IMU 0 of the streaming session receives packets 5, 6 and 8: the first is
    counted as 252 lost packets (C3), the gap before 8 as 255 (C2). *)
Example stream_5_6_8 :
  let run seq s := fst (SK8._imu_callback [I 1; I 2; I 3] [I 4; I 5; I 6] [I 7; I 8; I 9]
                          0 seq 1 1 s) in
  (fun d => (IMUData.seq d, IMUData.get_total_packets_lost d, IMUData._packet_metadata d))
    <$> SK8._imus (run 8 (run 6 (run 5 sk8_streaming))) !! 0%nat
  = Some (8, 507, [(1%Q, 255); (1%Q, 0); (1%Q, 252)]).
Proof. vm_compute. reflexivity. Qed.

(** ** More on loss accounting and the window *)

Lemma dropped_count_range last_seq seq : 0 <= dropped_count last_seq seq <= 255.
Proof.
  unfold dropped_count.
  destruct (negb (last_seq =? -1)); [|lia].
  destruct (negb (_ =? seq)); [|lia].
  pose proof (Z.mod_pos_bound ((last_seq + 1) `mod` 256 - seq) 256). lia.
Qed.




Lemma sum_dropped_app (l1 l2 : list (Q * Z)) :
  foldr Z.add 0 (map snd (l1 ++ l2))
  = foldr Z.add 0 (map snd l1) + foldr Z.add 0 (map snd l2).
Proof. induction l1 as [|e l1 IH]; simpl; lia. Qed.

Lemma sum_dropped_nonneg (l : list (Q * Z)) :
  Forall (fun e : Q * Z => 0 <= snd e <= 255) l -> 0 <= foldr Z.add 0 (map snd l).
Proof. induction 1; simpl; lia. Qed.

(** The window left by the loop is the old one without a tail, whatever the
    outcome. *)
Lemma prune_prefix now meta :
  exists popped, meta = fst (IMUData.prune now meta) ++ popped.
Proof.
  induction meta as [|x meta IH] using rev_ind.
  - by exists [].
  - rewrite prune_unfold, last_snoc, removelast_last.
    destruct (Qlt_bool _ _).
    + destruct IH as (popped & IH). exists (popped ++ [x]).
      rewrite app_assoc. by rewrite <- IH.
    + exists []. by rewrite app_nil_r.
Qed.

Lemma update_loss_invariant acc gyro mag seq ts now d :
  loss_invariant d -> loss_invariant (fst (IMUData.update acc gyro mag seq ts now d)).
Proof.
  intros [Hall Hsum].
  pose proof (store_sample_frame acc gyro mag d) as (Hseq & Hlost & Hmeta & _).
  unfold IMUData.update. cbv [mbind M_bind].
  destruct (IMUData.store_sample acc gyro mag d) as [d1 [[]|e]]; simpl in *.
  - pose proof (track_packet_spec seq ts now d1) as (_ & Hm & Hl & _).
    pose proof (dropped_count_range (IMUData.seq d1) seq) as Hn.
    destruct (prune_prefix now ((ts, dropped_count (IMUData.seq d1) seq)
                                  :: IMUData._packet_metadata d1)) as (popped & Hp).
    rewrite <- Hm in Hp.
    assert (Hall' : Forall (fun e : Q * Z => 0 <= snd e <= 255)
                      ((ts, dropped_count (IMUData.seq d1) seq)
                         :: IMUData._packet_metadata d1)).
    { constructor; [exact Hn|]. by rewrite Hmeta. }
    rewrite Hp in Hall'. apply Forall_app in Hall' as [Hk Hpop].
    split; [exact Hk|].
    assert (Hs : foldr Z.add 0 (map snd ((ts, dropped_count (IMUData.seq d1) seq)
                                           :: IMUData._packet_metadata d1))
                 = dropped_count (IMUData.seq d1) seq
                   + foldr Z.add 0 (map snd (IMUData._packet_metadata d))).
    { simpl. by rewrite Hmeta. }
    rewrite Hp, sum_dropped_app in Hs.
    pose proof (sum_dropped_nonneg _ Hk). pose proof (sum_dropped_nonneg _ Hpop).
    rewrite Hl, Hlost. lia.
  - split; [by rewrite Hmeta|]. rewrite Hmeta, Hlost. exact Hsum.
Qed.

Lemma load_calibration_loss cd :
  preserves (fun d => (IMUData._packet_metadata d, IMUData._packets_lost d))
            (IMUData.load_calibration cd).
Proof. unfold IMUData.load_calibration. frame. Qed.

(** X2: from its construction or last reset on, whatever packets arrive
    and whatever calibration calls are made, every window entry records a
    count between 0 and 255, and the loss over the window is at least 0 and
    at most the lifetime counter. *)
Theorem X2_recent_loss_within_lifetime_loss t0 d :
  started_at t0 d -> loss_invariant d.
Proof.
  induction 1 as [index cd d Hi|d0 d Hr|d acc gyro mag seq ts now _ IH|d state _ IH
                 |d cd _ IH].
  - unfold IMUData.__init__ in Hi.
    destruct (IMUData.reset t0 _) as [d1 [[]|e]] eqn:Hr; [|discriminate].
    injection Hi as <-.
    destruct (reset_tracking _ _ _ Hr) as (_ & Hl & Hm & _).
    unfold loss_invariant. rewrite Hl, Hm. split; [constructor|simpl; lia].
  - destruct (reset_tracking _ _ _ Hr) as (_ & Hl & Hm & _).
    unfold loss_invariant. rewrite Hl, Hm. split; [constructor|simpl; lia].
  - by apply update_loss_invariant.
  - by destruct d.
  - pose proof (load_calibration_loss cd d) as E. simpl in E.
    injection E as Em El. unfold loss_invariant. by rewrite Em, El.
Qed.

Lemma X2_recent_loss_within_lifetime_loss_witness :
  loss_invariant (feed 9 2 2 (feed 3 1 1 imu0)).
Proof.
  apply (X2_recent_loss_within_lifetime_loss 0).
  apply started_update. apply started_update.
  apply (started_reset 0 (IMUData.blank 0 None)).
  vm_compute. reflexivity.
Defined.

(** X3: an update never lowers the lifetime-lost counter, and raises it by
    at most 255, whether it returns or raises. *)
Theorem X3_lifetime_loss_never_decreases acc gyro mag seq ts now d :
  IMUData.get_total_packets_lost d
  <= IMUData.get_total_packets_lost (fst (IMUData.update acc gyro mag seq ts now d))
  <= IMUData.get_total_packets_lost d + 255.
Proof.
  unfold IMUData.get_total_packets_lost.
  pose proof (store_sample_frame acc gyro mag d) as (_ & Hlost & _).
  unfold IMUData.update. cbv [mbind M_bind].
  destruct (IMUData.store_sample acc gyro mag d) as [d1 [[]|e]]; simpl in *; [|lia].
  pose proof (track_packet_spec seq ts now d1) as (_ & _ & Hl & _).
  pose proof (dropped_count_range (IMUData.seq d1) seq). lia.
Qed.

Lemma is_fresh_true now e : is_fresh now e = true <-> fresh now e.
Proof. unfold is_fresh. rewrite negb_true_iff. apply fresh_dec. Qed.

Lemma filter_fresh_split now (kept popped : list (Q * Z)) :
  Forall (fresh now) kept -> Forall (stale now) popped ->
  List.filter (is_fresh now) (kept ++ popped) = kept.
Proof.
  intros Hk Hp. rewrite List.filter_app.
  replace (List.filter (is_fresh now) popped) with (@nil (Q * Z)).
  - rewrite app_nil_r. induction Hk as [|e l He _ IH]; [reflexivity|].
    simpl. apply is_fresh_true in He. by rewrite He, IH.
  - induction Hp as [|e l He _ IH]; [reflexivity|].
    simpl. rewrite <- IH.
    destruct (is_fresh now e) eqn:E; [|reflexivity].
    apply is_fresh_true in E. destruct (fresh_not_stale _ _ E He).
Qed.

(** X4: when the window is in newest-first order and the new timestamp is
    no older than the period and no earlier than any entry, the window
    after the update is the new entry followed by exactly the old entries
    that are no older than the period, and it is again in newest-first
    order. *)
Theorem X4_window_is_the_fresh_entries d acc gyro mag seq ts now d1 :
  IMUData.store_sample acc gyro mag d = (d1, Ret tt) ->
  (now - ts <= period)%Q ->
  newest_first (IMUData._packet_metadata d) ->
  Forall (fun e => (fst e <= ts)%Q) (IMUData._packet_metadata d) ->
  exists d',
    IMUData.update acc gyro mag seq ts now d = (d', Ret tt) /\
    IMUData._packet_metadata d'
    = (ts, dropped_count (IMUData.seq d) seq)
        :: List.filter (is_fresh now) (IMUData._packet_metadata d) /\
    newest_first (IMUData._packet_metadata d').
Proof.
  intros Hs Hf Hsorted Hle.
  destruct (update_fresh acc gyro mag seq ts now d d1 Hs Hf)
    as (d' & kept & popped & Hu & Hsplit & Hm & Hst & Hl & _).
  exists d'. split; [exact Hu|]. rewrite Hm, Hsplit.
  rewrite Hsplit in Hsorted, Hle.
  pose proof (newest_first_fresh now kept popped Hsorted Hl) as Hk.
  rewrite (filter_fresh_split now kept popped Hk Hst). split; [reflexivity|].
  apply Forall_app in Hle as [Hle _].
  constructor; [by apply StronglySorted_app_1_l in Hsorted|exact Hle].
Qed.

Lemma X4_window_is_the_fresh_entries_witness :
  exists d',
    IMUData.update [] [] [] 4 14 14 (feed 3 12 12 (feed 2 11 11 (feed 1 10 10 imu0)))
    = (d', Ret tt) /\
    IMUData._packet_metadata d'
    = (14%Q, dropped_count
               (IMUData.seq (feed 3 12 12 (feed 2 11 11 (feed 1 10 10 imu0)))) 4)
        :: List.filter (is_fresh 14)
             (IMUData._packet_metadata
                (feed 3 12 12 (feed 2 11 11 (feed 1 10 10 imu0)))) /\
    newest_first (IMUData._packet_metadata d').
Proof.
  assert (E : IMUData._packet_metadata (feed 3 12 12 (feed 2 11 11 (feed 1 10 10 imu0)))
              = [(12%Q, 0); (11%Q, 0); (10%Q, 0)]) by (vm_compute; reflexivity).
  apply (X4_window_is_the_fresh_entries _ [] [] [] 4 14%Q 14%Q
           (fst (IMUData.store_sample [] [] []
                   (feed 3 12 12 (feed 2 11 11 (feed 1 10 10 imu0)))))).
  - vm_compute. reflexivity.
  - vm_compute. discriminate.
  - rewrite E. repeat constructor; vm_compute; discriminate.
  - rewrite E. repeat constructor; vm_compute; discriminate.
Defined.

(** ** More on calibration *)

Lemma read_axes_values cd sensor suffix :
  IMUData.read_axes cd sensor suffix
  = match axes_values cd sensor suffix with
    | Some l => Ret l
    | None => Raise KeyError
    end.
Proof.
  unfold IMUData.read_axes, IMUData.axes, axes_values, IMUData.getitem.
  cbn [for_each]. cbv [mbind outcome_bind option_bind].
  destruct (cd !! (sensor +:+ "x" +:+ suffix)%string); [|reflexivity].
  destruct (cd !! (sensor +:+ "y" +:+ suffix)%string); [|reflexivity].
  by destruct (cd !! (sensor +:+ "z" +:+ suffix)%string).
Qed.

Lemma axes_values_x_offset cd sensor l :
  axes_values cd sensor "_offset" = Some l -> is_Some (cd !! (sensor +:+ "x_offset")%string).
Proof.
  unfold axes_values. cbv [mbind option_bind].
  change (sensor +:+ "x" +:+ "_offset")%string with (sensor +:+ "x_offset")%string.
  destruct (cd !! (sensor +:+ "x_offset")%string); [eauto|discriminate].
Qed.

Ltac load_cases :=
  unfold IMUData.load_calibration;
  cbv [mbind mret M_bind M_ret modify get lift];
  rewrite ?read_axes_values;
  repeat match goal with
         | |- context [decide ?P] => destruct (decide P) as [[? ?]|?]
         | |- context [axes_values ?a ?b ?c] =>
             let E := fresh "E" in destruct (axes_values a b c) eqn:E
         end;
  cbn -[lookup].

(** X5: with calibration off, [update] stores the three raw vectors as they
    come, whatever their lengths, whether it then returns or raises; it
    returns when the timestamp is no older than the period. *)
Theorem X5_uncalibrated_update_stores_raw d acc gyro mag seq ts now :
  IMUData._use_calibration d = false ->
  let r := IMUData.update acc gyro mag seq ts now d in
  IMUData.acc (fst r) = acc /\ IMUData.gyro (fst r) = gyro /\
  IMUData.mag (fst r) = mag /\
  ((now - ts <= period)%Q -> snd r = Ret tt).
Proof.
  intros Hcal.
  assert (Hs : exists d1, IMUData.store_sample acc gyro mag d = (d1, Ret tt) /\
                 IMUData.acc d1 = acc /\ IMUData.gyro d1 = gyro /\ IMUData.mag d1 = mag).
  { destruct d. simpl in Hcal. subst. eexists. split; [reflexivity|]. by repeat split. }
  destruct Hs as (d1 & Hs & Ha & Hg & Hm).
  pose proof (track_packet_sample seq ts now d1) as Ht.
  rewrite <- (update_after_store _ _ _ _ _ _ _ _ Hs) in Ht. cbn zeta in *.
  destruct Ht as (Ea & Eg & Em).
  rewrite Ea, Eg, Em. repeat split; try done.
  intros Hf.
  destruct (update_fresh acc gyro mag seq ts now d d1 Hs Hf) as (d' & _ & _ & Hu & _).
  by rewrite Hu.
Qed.

Lemma X5_uncalibrated_update_stores_raw_witness :
  let r := IMUData.update [I 1; I 2; I 3] [I 4; I 5] [] 1 0 10 imu0 in
  IMUData.acc (fst r) = [I 1; I 2; I 3] /\ IMUData.gyro (fst r) = [I 4; I 5] /\
  IMUData.mag (fst r) = [] /\
  ((10 - 0 <= period)%Q -> snd r = Ret tt).
Proof.
  apply (X5_uncalibrated_update_stores_raw imu0).
  vm_compute. reflexivity.
Defined.

Lemma load_calibration_full cd d0 sc off go ms mo :
  axes_values cd "acc" "_scale" = Some sc ->
  axes_values cd "acc" "_offset" = Some off ->
  axes_values cd "gyro" "_offset" = Some go ->
  axes_values cd "mag" "_scale" = Some ms ->
  axes_values cd "mag" "_offset" = Some mo ->
  exists d,
    IMUData.load_calibration (Some cd) d0 = (d, Ret true) /\
    IMUData._use_calibration d = true /\
    IMUData.acc_scale d = sc /\ IMUData.acc_offsets d = off /\
    IMUData.gyro_offsets d = Some go /\
    IMUData.mag_scale d = Some ms /\ IMUData.mag_offsets d = Some mo.
Proof.
  intros Hsc Hoff Hgo Hms Hmo.
  pose proof (axes_values_x_offset cd "acc" off Hoff) as Xa.
  pose proof (axes_values_x_offset cd "gyro" go Hgo) as Xg.
  pose proof (axes_values_x_offset cd "mag" mo Hmo) as Xm.
  destruct d0. load_cases; try done.
  eexists. split; [reflexivity|]. cbn. repeat split; congruence.
Qed.

(** X6: a section that has the scale and offset options of the three
    sensors is loaded as it is: [load_calibration] returns [True], enables
    calibration, and every coefficient is the float of the option of that
    sensor and axis. *)
Theorem X6_load_calibration_reads_the_section cd d0 sc off go ms mo :
  axes_values cd "acc" "_scale" = Some sc ->
  axes_values cd "acc" "_offset" = Some off ->
  axes_values cd "gyro" "_offset" = Some go ->
  axes_values cd "mag" "_scale" = Some ms ->
  axes_values cd "mag" "_offset" = Some mo ->
  exists d,
    IMUData.load_calibration (Some cd) d0 = (d, Ret true) /\
    IMUData._use_calibration d = true /\
    IMUData.acc_scale d = sc /\ IMUData.acc_offsets d = off /\
    IMUData.gyro_offsets d = Some go /\
    IMUData.mag_scale d = Some ms /\ IMUData.mag_offsets d = Some mo.
Proof. apply load_calibration_full. Qed.

Lemma X6_load_calibration_reads_the_section_witness :
  exists d,
    IMUData.load_calibration (Some cal_full) imu0 = (d, Ret true) /\
    IMUData._use_calibration d = true /\
    IMUData.acc_scale d = [F 2; F 1; F (1 # 2)] /\
    IMUData.acc_offsets d = [F 10; F 0; F (-3)] /\
    IMUData.gyro_offsets d = Some [F (1 # 4); F 0; F 5] /\
    IMUData.mag_scale d = Some [F 1; F 3; F 1] /\
    IMUData.mag_offsets d = Some [F 7; F 8; F 9].
Proof.
  apply (X6_load_calibration_reads_the_section cal_full imu0); vm_compute; reflexivity.
Defined.



(** X8: an [IMUData] constructed with a full calibration section has its
    calibration back after every [reset]: whatever [set_calibration] set
    before, [reset] returns with calibration enabled and with the
    coefficients of the constructor's section. *)
Theorem X8_reset_reloads_constructor_calibration now d0 cd sc off go ms mo :
  IMUData._calibration_data d0 = Some cd ->
  axes_values cd "acc" "_scale" = Some sc ->
  axes_values cd "acc" "_offset" = Some off ->
  axes_values cd "gyro" "_offset" = Some go ->
  axes_values cd "mag" "_scale" = Some ms ->
  axes_values cd "mag" "_offset" = Some mo ->
  exists d,
    IMUData.reset now d0 = (d, Ret tt) /\
    IMUData._use_calibration d = true /\
    IMUData.acc_scale d = sc /\ IMUData.acc_offsets d = off /\
    IMUData.gyro_offsets d = Some go /\
    IMUData.mag_scale d = Some ms /\ IMUData.mag_offsets d = Some mo.
Proof.
  intros Hcd Hsc Hoff Hgo Hms Hmo. destruct d0. simpl in Hcd. subst.
  unfold IMUData.reset. cbv [mbind mret M_bind M_ret modify get].
  cbn -[IMUData.load_calibration].
  match goal with
  | |- context [IMUData.load_calibration (Some cd) ?d1] =>
      destruct (load_calibration_full cd d1 sc off go ms mo Hsc Hoff Hgo Hms Hmo)
        as (d & -> & Hd)
  end.
  destruct d. simpl in *. eexists. split; [reflexivity|]. exact Hd.
Qed.

Lemma X8_reset_reloads_constructor_calibration_witness :
  IMUData._use_calibration imu_full_off = false /\
  exists d,
    IMUData.reset 7 imu_full_off = (d, Ret tt) /\
    IMUData._use_calibration d = true /\
    IMUData.acc_scale d = [F 2; F 1; F (1 # 2)] /\
    IMUData.acc_offsets d = [F 10; F 0; F (-3)] /\
    IMUData.gyro_offsets d = Some [F (1 # 4); F 0; F 5] /\
    IMUData.mag_scale d = Some [F 1; F 3; F 1] /\
    IMUData.mag_offsets d = Some [F 7; F 8; F 9].
Proof.
  split; [vm_compute; reflexivity|].
  apply (X8_reset_reloads_constructor_calibration 7 imu_full_off cal_full);
    vm_compute; reflexivity.
Defined.




(** ** More on the session *)

Lemma set_calibration_twice enabled d :
  fst (IMUData.set_calibration enabled (fst (IMUData.set_calibration enabled d)))
  = fst (IMUData.set_calibration enabled d).
Proof. by destruct d. Qed.

Lemma for_cons {St A} (x : A) (l : list A) (body : A -> M St unit) s :
  SK8.for_ (x :: l) body s
  = match body x s with
    | (s', Ret _) => SK8.for_ l body s'
    | (s', Raise e) => (s', Raise e)
    end.
Proof. reflexivity. Qed.

Lemma set_calibration_loop enabled (l : list Z) s :
  length (SK8._imus s) = Z.to_nat MAX_IMUS ->
  exists s',
    SK8.for_ l (fun i =>
      if (i <? 0) || (i >=? MAX_IMUS) then mret tt
      else SK8.on_imu (Z.to_nat i) (IMUData.set_calibration enabled)) s = (s', Ret tt) /\
    length (SK8._imus s') = Z.to_nat MAX_IMUS /\
    forall i d,
      SK8._imus s !! i = Some d ->
      SK8._imus s' !! i
      = Some (if bool_decide (Z.of_nat i ∈ l)
              then fst (IMUData.set_calibration enabled d) else d).
Proof.
  set (body := fun i : Z => _).
  revert s. induction l as [|x l IH]; intros s Hlen.
  - exists s. split; [reflexivity|]. split; [exact Hlen|].
    intros i d Hd. rewrite bool_decide_eq_false_2; [done|]. apply not_elem_of_nil.
  - rewrite for_cons. unfold body at 1.
    destruct ((x <? 0) || (x >=? MAX_IMUS)) eqn:Hx.
    + cbv [mret M_ret].
      destruct (IH s Hlen) as (s' & -> & Hlen' & Hs').
      exists s'. split; [reflexivity|]. split; [exact Hlen'|].
      intros i d Hd. rewrite (Hs' i d Hd).
      assert (Hi : (i < Z.to_nat MAX_IMUS)%nat)
        by (rewrite <- Hlen; by eapply lookup_lt_Some).
      assert (Z.of_nat i <> x) by (unfold MAX_IMUS in *; lia).
      rewrite (bool_decide_ext (Z.of_nat i ∈ x :: l) (Z.of_nat i ∈ l)); [done|].
      rewrite elem_of_cons. tauto.
    + apply orb_false_iff in Hx as [Hx1 Hx2].
      assert (Hxi : (Z.to_nat x < length (SK8._imus s))%nat)
        by (rewrite Hlen; unfold MAX_IMUS in *; lia).
      destruct (lookup_lt_is_Some_2 _ _ Hxi) as [dx Hdx].
      unfold SK8.on_imu. rewrite Hdx.
      cbn [IMUData.set_calibration modify snd].
      set (s1 := SK8.set__imus _ s).
      assert (E1 : SK8._imus s1
                   = <[Z.to_nat x := fst (IMUData.set_calibration enabled dx)]>
                       (SK8._imus s)) by (by destruct s).
      destruct (IH s1) as (s' & Hrun & Hlen' & Hs').
      { by rewrite E1, length_insert. }
      rewrite Hrun. exists s'. split; [reflexivity|]. split; [exact Hlen'|].
      intros i d Hd. destruct (decide (i = Z.to_nat x)) as [->|Hne].
      * rewrite Hdx in Hd. injection Hd as <-.
        rewrite (Hs' (Z.to_nat x) (fst (IMUData.set_calibration enabled dx))).
        -- rewrite (bool_decide_eq_true_2 (Z.of_nat (Z.to_nat x) ∈ x :: l))
             by (rewrite Z2Nat.id by lia; by left).
           f_equal. destruct (bool_decide _); [apply set_calibration_twice|done].
        -- rewrite E1. by apply list_lookup_insert_eq.
      * rewrite (Hs' i d) by (rewrite E1; by rewrite list_lookup_insert_ne).
        rewrite (bool_decide_ext (Z.of_nat i ∈ x :: l) (Z.of_nat i ∈ l)); [done|].
        rewrite elem_of_cons. assert (Z.of_nat i <> x) by lia. tauto.
Qed.

(** X10: on a session with its five IMUs, [set_calibration(enabled, imus)]
    returns and sets the calibration flag of exactly the addressed IMUs: all
    five when the list is empty, else the listed indices between 0 and 4;
    indices outside that range are ignored and the other IMUs keep their
    state. *)
Theorem X10_set_calibration_sets_addressed_flags enabled imus s :
  length (SK8._imus s) = Z.to_nat MAX_IMUS ->
  exists s',
    SK8.set_calibration enabled imus s = (s', Ret tt) /\
    forall i d,
      SK8._imus s !! i = Some d ->
      SK8._imus s' !! i
      = Some (if addressed imus i then fst (IMUData.set_calibration enabled d) else d).
Proof.
  intros Hlen. unfold SK8.set_calibration.
  destruct (set_calibration_loop enabled
              (if (length imus =? 0)%nat
               then map Z.of_nat (List.seq 0 (Z.to_nat MAX_IMUS)) else imus) s Hlen)
    as (s' & Hrun & _ & Hs').
  exists s'. split; [exact Hrun|].
  intros i d Hd. rewrite (Hs' i d Hd).
  assert (Hi : (i < Z.to_nat MAX_IMUS)%nat)
    by (rewrite <- Hlen; by eapply lookup_lt_Some).
  unfold addressed.
  match goal with
  | |- Some (if bool_decide ?P then _ else _) = Some (if bool_decide ?Q then _ else _) =>
      rewrite (bool_decide_ext P Q); [done|]
  end.
  destruct imus as [|x imus]; simpl.
  - split; [by left|]. intros _.
    change (Z.of_nat i ∈ Z.of_nat <$> List.seq 0 (Z.to_nat MAX_IMUS)).
    apply list_elem_of_fmap_2, elem_of_seq. lia.
  - split; [by right|]. by intros [|].
Qed.

Lemma X10_set_calibration_sets_addressed_flags_witness :
  exists s',
    SK8.set_calibration true [4; 7; -1; 0] sk8_connected = (s', Ret tt) /\
    forall i d,
      SK8._imus sk8_connected !! i = Some d ->
      SK8._imus s' !! i
      = Some (if addressed [4; 7; -1; 0] i
              then fst (IMUData.set_calibration true d) else d).
Proof.
  apply (X10_set_calibration_sets_addressed_flags true [4; 7; -1; 0] sk8_connected).
  vm_compute. reflexivity.
Defined.


Lemma load_sections_skip sections pre rest b s :
  (forall j, j ∈ pre -> sections !! SK8.section_name (SK8._name s) j = None) ->
  SK8.load_sections sections (pre ++ rest) b s = SK8.load_sections sections rest b s.
Proof.
  induction pre as [|i pre IH]; intros Hpre; [reflexivity|].
  cbn [app SK8.load_sections]. cbv [mbind M_bind get].
  rewrite (Hpre i) by (by left).
  apply IH. intros j Hj. apply Hpre. by right.
Qed.




(** X12: a session whose device name has not been read looks for sections
    called None_IMU0 to None_IMU4: when the calibration file has none of
    these, [connect] to a found device returns True with the client
    connected and nothing else changed, so no IMU gets calibration, whatever
    other sections the file has. *)
Theorem X12_connect_loads_nothing_before_the_name_is_known
    name address c sections s :
  (is_Some name \/ is_Some address) ->
  SK8._name s = None ->
  (forall i, (i < Z.to_nat MAX_IMUS)%nat ->
     sections !! SK8.section_name None i = None) ->
  SK8.connect name address (Some c) sections s
  = (SK8.set__client
       (Some (BleakClient.mk true (BleakClient.services c)
                (BleakClient.gatt_writes c) (BleakClient.notifying c))) s,
     Ret true).
Proof.
  intros Hna Hname Hnone.
  assert (Hload : forall s1, SK8._name s1 = None -> SK8._check_connected s1 = true ->
            SK8.load_calibration sections s1 = (s1, Ret false)).
  { intros s1 Hn1 Hc1. unfold SK8.load_calibration. cbv [mbind M_bind get].
    rewrite Hc1. cbn [negb].
    rewrite <- (app_nil_r (List.seq 0 (Z.to_nat MAX_IMUS))).
    rewrite load_sections_skip; [reflexivity|].
    intros j Hj. rewrite Hn1. apply Hnone. apply elem_of_seq in Hj. lia. }
  destruct c as [conn srv w subs]. destruct s. cbn in Hname. subst.
  unfold SK8.connect.
  assert (Hrun : forall (name address : option string), is_Some name \/ is_Some address ->
            match name, address with
            | None, None => False
            | _, _ => True
            end) by (intros [?|] [?|] [[? ?]|[? ?]]; done).
  specialize (Hrun name address Hna).
  destruct name, address; try contradiction;
    cbv [mbind M_bind get modify SK8.set__client];
    cbn [SK8._load_calibration]; destruct _load_calibration;
    cbv [mbind M_bind mret M_ret]; rewrite ?Hload by reflexivity; reflexivity.
Qed.

Lemma X12_connect_loads_nothing_before_the_name_is_known_witness :
  SK8.connect (Some "SK8"%string) None (Some sk8_device) sk8_file sk8_new
  = (sk8_connected, Ret true).
Proof.
  apply (X12_connect_loads_nothing_before_the_name_is_known
           (Some "SK8"%string) None sk8_device sk8_file sk8_new).
  - left. by eexists.
  - vm_compute. reflexivity.
  - intros i Hi.
    assert (Hc : (i = 0 \/ i = 1 \/ i = 2 \/ i = 3 \/ i = 4)%nat)
      by (unfold MAX_IMUS in Hi; lia).
    destruct Hc as [->|[->|[->|[->| ->]]]]; vm_compute; reflexivity.
Defined.

(** ** Connection life cycle and streaming requests *)

Lemma preserves_on_imu {A X} (f : SK8.t -> X) i (m : M IMUData.t A) :
  (forall v s, f (SK8.set__imus v s) = f s) -> preserves f (SK8.on_imu i m).
Proof.
  intros H s. unfold SK8.on_imu.
  destruct (SK8._imus s !! i) as [d|]; [|reflexivity].
  destruct (m d). apply H.
Qed.

Lemma preserves_load_sections {X} (f : SK8.t -> X) sections ixs b :
  (forall v s, f (SK8.set__imus v s) = f s) ->
  preserves f (SK8.load_sections sections ixs b).
Proof.
  intros H. revert b. induction ixs as [|i ixs IH]; intros b; [by intros s|].
  cbn [SK8.load_sections].
  repeat first [ apply IH | apply preserves_on_imu; exact H | frame_step ].
Qed.

Lemma preserves_load_calibration {X} (f : SK8.t -> X) sections :
  (forall v s, f (SK8.set__imus v s) = f s) ->
  preserves f (SK8.load_calibration sections).
Proof.
  intros H. unfold SK8.load_calibration.
  repeat first [ apply preserves_load_sections; exact H | frame_step ].
Qed.

Lemma after_modify {St A X} (f : St -> X) (g : St -> St) (rest : M St A) s :
  preserves f rest -> f (fst ((modify g;; rest) s)) = f (g s).
Proof. intros H. apply (H (g s)). Qed.

Lemma connect_client name address c sections s :
  (is_Some name \/ is_Some address) ->
  SK8._client (fst (SK8.connect name address (Some c) sections s))
  = Some (BleakClient.mk true (BleakClient.services c) (BleakClient.gatt_writes c)
            (BleakClient.notifying c)).
Proof.
  intros Hna. destruct c as [conn srv w subs]. unfold SK8.connect.
  destruct name, address; try (destruct Hna as [[? ?]|[? ?]]; discriminate);
    (rewrite after_modify; [by destruct s|]);
    repeat first [ apply preserves_load_calibration; by intros ? [] | frame_step ].
Qed.

Lemma connect_cache name address found sections :
  preserves SK8._uuid_chars (SK8.connect name address found sections).
Proof.
  unfold SK8.connect. destruct name, address, found as [[]|];
    repeat first [ apply preserves_load_calibration; by intros ? [] | frame_step ].
Qed.

Lemma disconnect_cache answer : preserves SK8._uuid_chars (SK8.disconnect answer).
Proof.
  unfold SK8.disconnect.
  repeat first [ apply preserves_on_client; by intros ? [] | frame_step ].
Qed.

Lemma cache_add_cached u h s :
  SK8._uuid_chars s !! u = Some h ->
  characteristic s u = Some h /\ cache_add u s = s.
Proof.
  intros Hu. unfold cache_add, characteristic. rewrite Hu. split; [reflexivity|].
  rewrite insert_id by exact Hu. by destruct s.
Qed.

(** X13: [disconnect] on a session that has a client returns what the
    client's [disconnect] returned, leaves the session disconnected with the
    packet counter at 0, and keeps the
    enabled IMUs, the sensor mask, the cached handles and the IMU readings;
    until the next [connect], the streaming requests return False and change
    nothing. *)
Theorem X13_disconnect_keeps_streaming_state answer c s :
  SK8._client s = Some c ->
  exists s',
    SK8.disconnect answer s = (s', Ret answer) /\
    SK8._check_connected s' = false /\
    SK8.get_received_packets s' = 0 /\
    SK8.get_enabled_imus s' = SK8.get_enabled_imus s /\
    SK8.get_enabled_sensors s' = SK8.get_enabled_sensors s /\
    SK8._uuid_chars s' = SK8._uuid_chars s /\
    SK8._imus s' = SK8._imus s /\
    (forall imus sensors, SK8.enable_imu_streaming imus sensors s' = (s', Ret false)) /\
    (forall include_imu sensors,
        SK8.enable_extana_streaming include_imu sensors s' = (s', Ret false)) /\
    (forall now, SK8.disable_imu_streaming now s' = (s', Ret false)) /\
    (forall now, SK8.disable_extana_streaming now s' = (s', Ret false)).
Proof.
  intros Hc. destruct s. cbn in Hc. subst. destruct c as [conn srv w subs].
  eexists. split; [reflexivity|]. repeat split.
Qed.

Lemma X13_disconnect_keeps_streaming_state_witness :
  exists s',
    SK8.disconnect None sk8_streaming = (s', Ret None) /\
    SK8._check_connected s' = false /\
    SK8.get_received_packets s' = 0 /\
    SK8.get_enabled_imus s' = SK8.get_enabled_imus sk8_streaming /\
    SK8.get_enabled_sensors s' = SK8.get_enabled_sensors sk8_streaming /\
    SK8._uuid_chars s' = SK8._uuid_chars sk8_streaming /\
    SK8._imus s' = SK8._imus sk8_streaming /\
    (forall imus sensors, SK8.enable_imu_streaming imus sensors s' = (s', Ret false)) /\
    (forall include_imu sensors,
        SK8.enable_extana_streaming include_imu sensors s' = (s', Ret false)) /\
    (forall now, SK8.disable_imu_streaming now s' = (s', Ret false)) /\
    (forall now, SK8.disable_extana_streaming now s' = (s', Ret false)).
Proof.
  apply (X13_disconnect_keeps_streaming_state None
           (default sk8_device (SK8._client sk8_streaming)) sk8_streaming).
  vm_compute. reflexivity.
Defined.

(** X14: the handle cache survives [disconnect] and [connect]: a
    characteristic resolved on one device is answered from the cache, with
    the old handle, after the session has been connected to any other
    device, whether or not that device has the characteristic. *)
Theorem X14_cached_handles_survive_reconnect u h answer name address c2 sections s :
  SK8._uuid_chars s !! u = Some h ->
  (is_Some name \/ is_Some address) ->
  let s2 := fst (SK8.connect name address (Some c2) sections
                   (fst (SK8.disconnect answer s))) in
  SK8._get_characteristic_from_uuid u s2 = (s2, Ret (Some h)).
Proof.
  intros Hu Hna s2.
  assert (Hcache : SK8._uuid_chars s2 !! u = Some h).
  { unfold s2. by rewrite connect_cache, disconnect_cache. }
  assert (Hconn : SK8._check_connected s2 = true).
  { unfold SK8._check_connected, s2. by rewrite connect_client. }
  destruct (cache_add_cached u h s2 Hcache) as [Hch Hadd].
  rewrite run_get_characteristic by exact Hconn.
  by rewrite Hch, Hadd.
Qed.

Lemma X14_cached_handles_survive_reconnect_witness :
  let s2 := fst (SK8.connect (Some "other"%string) None
                   (Some (BleakClient.mk false ∅ [] ∅)) ∅
                   (fst (SK8.disconnect (Some true) sk8_streaming))) in
  SK8._get_characteristic_from_uuid UUID_IMU_SELECTION s2 = (s2, Ret (Some 10)).
Proof.
  apply (X14_cached_handles_survive_reconnect UUID_IMU_SELECTION 10 (Some true)
           (Some "other"%string) None (BleakClient.mk false ∅ [] ∅) ∅ sk8_streaming).
  - vm_compute. reflexivity.
  - left. by eexists.
Defined.

(** X15: for IMU indices that are not negative, the selection mask of
    [enable_imu_streaming] has exactly the bits of the listed indices set:
    order and repetitions in the list make no difference. *)
Theorem X15_selection_mask_has_the_listed_bits imus :
  Forall (fun i => 0 <= i) imus ->
  exists bits,
    SK8.imu_bits imus 0 = Ret bits /\
    forall i, Z.testbit bits i = true <-> i ∈ imus.
Proof.
  intros H. destruct (imu_bits_spec imus 0 ltac:(lia) H) as (bits & Hrun & _ & Hbits).
  exists bits. split; [exact Hrun|]. intros i.
  destruct (Z.ltb_spec i 0) as [Hneg|Hpos].
  - rewrite Z.testbit_neg_r by exact Hneg. split; [done|].
    intros Hi. rewrite Forall_forall in H. specialize (H i Hi). lia.
  - rewrite (Hbits i Hpos), Z.bits_0. cbn [orb]. apply bool_decide_eq_true.
Qed.

Lemma X15_selection_mask_has_the_listed_bits_witness :
  exists bits,
    SK8.imu_bits [3; 1; 3] 0 = Ret bits /\
    forall i, Z.testbit bits i = true <-> i ∈ [3; 1; 3].
Proof.
  apply (X15_selection_mask_has_the_listed_bits [3; 1; 3]).
  repeat constructor; lia.
Defined.







Lemma imus_imu_enabled imus sensors hi hs hc b1 b2 s :
  SK8._imus (imu_enabled imus sensors hi hs hc b1 b2 s) = SK8._imus s.
Proof.
  unfold imu_enabled.
  transitivity (SK8._imus (subscribed hc imu_handler
     (cache_add UUID_IMU_CCC (wrote hs b2 (wrote hi b1
        (cache_add UUID_SENSOR_SELECTION (cache_add UUID_IMU_SELECTION s))))))).
  { by destruct (subscribed _ _ _). }
  rewrite (link_imus _ _ (subscribed_link _ _ _)), (link_imus _ _ (cache_add_link _ _)),
    (link_imus _ _ (wrote_link _ _ _)), (link_imus _ _ (wrote_link _ _ _)),
    (link_imus _ _ (cache_add_link _ _)).
  apply (link_imus _ _ (cache_add_link _ _)).
Qed.




(** X20: [enable_extana_streaming] with an empty sensor mask returns True:
    the IMU registers are not written, only the ExtAna flag is; the session
    then reports no enabled sensor; its enabled IMUs become [[0]] when
    [include_imu] was asked for and stay as they were otherwise. *)
Theorem X20_extana_streaming_with_empty_sensor_mask include_imu hx he s :
  SK8._check_connected s = true ->
  extana_flag_handle s = Some hx ->
  characteristic s UUID_EXTANA_CCC = Some he ->
  exists s',
    SK8.enable_extana_streaming include_imu 0 s = (s', Ret true) /\
    writes s' = writes s ++ [(hx, [flag_byte include_imu])] /\
    SK8.get_enabled_sensors s' = 0 /\
    SK8.get_enabled_imus s' = if include_imu then [0] else SK8.get_enabled_imus s.
Proof.
  intros Hc Hx He.
  unfold SK8.enable_extana_streaming, SK8._get_characteristic_handle_from_uuid.
  cbv [mbind M_bind get mret M_ret lift modify].
  rewrite Hc. cbn [negb].
  assert (Himu : SK8.enable_imu_streaming [0] 0 s = (s, Ret false)).
  { unfold SK8.enable_imu_streaming. cbv [mbind M_bind get mret M_ret lift].
    by rewrite Hc. }
  rewrite Himu.
  rewrite run_get_characteristic by conn.
  rewrite run_get_characteristic by conn. autorewrite with session.
  unfold extana_flag_handle in Hx. rewrite pack_flag.
  unfold SK8.get_enabled_imus, SK8.get_enabled_sensors.
  destruct (characteristic s UUID_EXTANA_IMU_STREAMING);
    destruct (characteristic s UUID_EXTANA_IMU_STREAMING_TMP);
    try discriminate; injection Hx as ->;
    (rewrite run_write_attribute by conn;
     rewrite run_get_characteristic by (session; conn);
     session; rewrite He;
     rewrite run_start_notify by (session; conn);
     destruct include_imu; eexists; (split; [reflexivity|]);
     session; rewrite writes_wrote by conn; session; auto).
Qed.

Lemma X20_extana_streaming_with_empty_sensor_mask_witness :
  exists s',
    SK8.enable_extana_streaming false 0 sk8_streaming = (s', Ret true) /\
    writes s' = writes sk8_streaming ++ [(14, [flag_byte false])] /\
    SK8.get_enabled_sensors s' = 0 /\
    SK8.get_enabled_imus s' = if false then [0] else SK8.get_enabled_imus sk8_streaming.
Proof.
  apply (X20_extana_streaming_with_empty_sensor_mask false 14 13 sk8_streaming).
  - vm_compute. reflexivity.
  - vm_compute. reflexivity.
  - vm_compute. reflexivity.
Defined.

Lemma writes_stop_notify char s :
  writes (fst (SK8.on_client (BleakClient.stop_notify char) s)) = writes s.
Proof.
  destruct s as [? ? ? ? ? ? [[conn srv w subs]|] ? ?]; [|reflexivity].
  by destruct char.
Qed.

Lemma writes_get_characteristic u :
  preserves writes (SK8._get_characteristic_from_uuid u).
Proof. apply preserves_get_characteristic. by intros ? []. Qed.

Lemma writes_reset_imus now : preserves writes (SK8.reset_imus now).
Proof. apply preserves_reset_imus. by intros ? []. Qed.

(** X21: the two disable methods never write to the device, so the selection
    registers keep the values of the last enable; they also leave the sensor
    mask and the ExtAna readings of the session as they were, whether they
    return or raise. *)
Theorem X21_disabling_writes_nothing now s :
  writes (fst (SK8.disable_imu_streaming now s)) = writes s /\
  writes (fst (SK8.disable_extana_streaming now s)) = writes s /\
  SK8.get_enabled_sensors (fst (SK8.disable_imu_streaming now s))
  = SK8.get_enabled_sensors s /\
  SK8.get_enabled_sensors (fst (SK8.disable_extana_streaming now s))
  = SK8.get_enabled_sensors s /\
  SK8.get_extana (fst (SK8.disable_imu_streaming now s)) = SK8.get_extana s /\
  SK8.get_extana (fst (SK8.disable_extana_streaming now s)) = SK8.get_extana s.
Proof.
  assert (Hw : forall char, preserves writes (SK8.on_client (BleakClient.stop_notify char)))
    by (intros char s'; apply writes_stop_notify).
  repeat split;
    match goal with
    | |- ?f (fst (?m s)) = ?f s => generalize s; change (preserves f m)
    end;
    unfold SK8.disable_imu_streaming, SK8.disable_extana_streaming;
    repeat first [ apply Hw
                 | apply preserves_get_characteristic; by intros ? []
                 | apply preserves_on_client; by intros ? []
                 | apply preserves_reset_imus; by intros ? []
                 | frame_step ].
Qed.

(** X22: [enable_imu_streaming] does not compare the indices with
    [MAX_IMUS]: on a session with its five IMUs it succeeds for any indices
    between 0 and 7 and a sensor mask between 1 and 255, and reports them as
    enabled; every packet that then arrives from an IMU numbered 5 or more
    makes the notification callback raise [IndexError] and changes
    nothing. *)
Theorem X22_streaming_accepts_imus_the_session_lacks imus i sensors hi hs hc s :
  SK8._check_connected s = true ->
  length (SK8._imus s) = Z.to_nat MAX_IMUS ->
  Forall (fun i => 0 <= i <= 7) imus ->
  i ∈ imus -> MAX_IMUS <= i ->
  1 <= sensors <= 255 ->
  characteristic s UUID_IMU_SELECTION = Some hi ->
  characteristic s UUID_SENSOR_SELECTION = Some hs ->
  characteristic s UUID_IMU_CCC = Some hc ->
  exists s',
    SK8.enable_imu_streaming imus sensors s = (s', Ret true) /\
    SK8.get_enabled_imus s' = imus /\
    forall acc gyro mag seq timestamp now,
      SK8._imu_callback acc gyro mag i seq timestamp now s' = (s', Raise IndexError).
Proof.
  intros Hc Hlen Hall Hin Hi5 Hs Hi Hss Hcc.
  assert (Hnn : Forall (fun i => 0 <= i) imus)
    by (eapply Forall_impl; [exact Hall|]; intros; simpl in *; lia).
  destruct (imu_bits_spec imus 0 ltac:(lia) Hnn) as (bits & Hbits & Hpos & Hspec).
  assert (Hsmall : bits < 2 ^ 8).
  { apply bits_below; [exact Hpos|lia|]. intros j Hj.
    rewrite Hspec, Z.bits_0 by lia. cbn [orb]. apply bool_decide_eq_false_2.
    intros Hjin. rewrite Forall_forall in Hall. specialize (Hall j Hjin). simpl in Hall. lia. }
  destruct (proj1 (struct_pack_B_range bits)) as [b1 Hb1]; [lia|].
  destruct (proj1 (struct_pack_B_range sensors)) as [b2 Hb2]; [lia|].
  rewrite (enable_imu_streaming_ok imus sensors bits hi hs hc [b1] [b2] s)
    by (done || lia).
  eexists. split; [reflexivity|]. split.
  - unfold SK8.get_enabled_imus. by autorewrite with session.
  - intros acc gyro mag seq timestamp now.
    unfold SK8._imu_callback, SK8.on_imu. rewrite imus_imu_enabled.
    rewrite lookup_ge_None_2; [reflexivity|].
    rewrite Hlen. unfold MAX_IMUS in *. lia.
Qed.

Lemma X22_streaming_accepts_imus_the_session_lacks_witness :
  exists s',
    SK8.enable_imu_streaming [6; 1] SENSOR_ALL sk8_connected = (s', Ret true) /\
    SK8.get_enabled_imus s' = [6; 1] /\
    forall acc gyro mag seq timestamp now,
      SK8._imu_callback acc gyro mag 6 seq timestamp now s' = (s', Raise IndexError).
Proof.
  apply (X22_streaming_accepts_imus_the_session_lacks [6; 1] 6 SENSOR_ALL 10 11 12
           sk8_connected).
  - vm_compute. reflexivity.
  - vm_compute. reflexivity.
  - repeat constructor; lia.
  - left.
  - vm_compute. discriminate.
  - vm_compute. split; discriminate.
  - vm_compute. reflexivity.
  - vm_compute. reflexivity.
  - vm_compute. reflexivity.
Defined.

(** ** Invariants of a session *)

Lemma keeps_ret {St A} (P : St -> Prop) (a : A) : keeps P (mret a).
Proof. by intros s. Qed.

Lemma keeps_raise {St A} (P : St -> Prop) e : keeps P (@raise St A e).
Proof. by intros s. Qed.

Lemma keeps_lift {St A} (P : St -> Prop) (o : outcome A) : keeps P (lift o).
Proof. by intros s. Qed.

Lemma keeps_get {St} (P : St -> Prop) : keeps P get.
Proof. by intros s. Qed.

Lemma keeps_modify {St} (P : St -> Prop) (g : St -> St) :
  (forall s, P s -> P (g s)) -> keeps P (modify g).
Proof. intros H s. apply H. Qed.

Lemma keeps_bind {St A B} (P : St -> Prop) (m : M St A) (k : A -> M St B) :
  keeps P m -> (forall a, keeps P (k a)) -> keeps P (m ≫= k).
Proof.
  intros Hm Hk s Hs. unfold mbind, M_bind. specialize (Hm s Hs).
  destruct (m s) as [s' [a|e]]; simpl in *; [|done].
  by apply Hk.
Qed.

Lemma keeps_for_ {St A} (P : St -> Prop) (l : list A) (body : A -> M St unit) :
  (forall x, keeps P (body x)) -> keeps P (SK8.for_ l body).
Proof.
  intros H. induction l as [|x l IH]; [apply keeps_ret|].
  cbn [SK8.for_]. apply keeps_bind; [apply H|]. intros _. exact IH.
Qed.

Lemma reset_from_length now i imus :
  length (fst (SK8.reset_from now i imus)) = length imus.
Proof.
  revert i. induction imus as [|d imus IH]; intros i; [reflexivity|].
  cbn [SK8.reset_from]. destruct (IMUData.reset (now i) d) as [d' [[]|e]]; [|reflexivity].
  specialize (IH (S i)). destruct (SK8.reset_from now (S i) imus). simpl in *. by rewrite IH.
Qed.

Lemma for_each_length {A B} (f : A -> outcome B) l ys :
  for_each f l = Ret ys -> length ys = length l.
Proof.
  revert ys. induction l as [|x l IH]; intros ys; simpl.
  - by intros [= <-].
  - destruct (f x) as [y|e]; [|discriminate]. simpl.
    destruct (for_each f l) as [ys'|e]; [|discriminate]. simpl.
    intros [= <-]. simpl. by rewrite (IH ys').
Qed.

Section invariant.

Variable P : SK8.t -> Prop.
Hypothesis P_imus :
  forall v s, length v = length (SK8._imus s) -> P s -> P (SK8.set__imus v s).
Hypothesis P_extana : forall v s, P s -> P (SK8.set__extana_data v s).
Hypothesis P_enabled_imus : forall v s, P s -> P (SK8.set__enabled_imus v s).
Hypothesis P_enabled_sensors : forall v s, P s -> P (SK8.set__enabled_sensors v s).
Hypothesis P_packets : forall s, P s -> P (SK8.set__packets 0 s).
Hypothesis P_uuid_chars : forall v s, P s -> P (SK8.set__uuid_chars v s).
Hypothesis P_client : forall v s, P s -> P (SK8.set__client v s).
Hypothesis P_name : forall v s, P s -> P (SK8.set__name v s).

Lemma keeps_on_imu {A} i (m : M IMUData.t A) : keeps P (SK8.on_imu i m).
Proof.
  intros s Hs. unfold SK8.on_imu. destruct (SK8._imus s !! i) as [d|]; [|exact Hs].
  destruct (m d). apply P_imus; [apply length_insert|exact Hs].
Qed.

Lemma keeps_on_client {A} (m : M BleakClient.t A) : keeps P (SK8.on_client m).
Proof.
  intros s Hs. unfold SK8.on_client. destruct (SK8._client s) as [c|]; [|exact Hs].
  destruct (m c). by apply P_client.
Qed.

Lemma keeps_on_extana {A} (m : M ExtAnaData.t A) : keeps P (SK8.on_extana m).
Proof.
  intros s Hs. unfold SK8.on_extana. destruct (m _). by apply P_extana.
Qed.

Lemma keeps_reset_imus now : keeps P (SK8.reset_imus now).
Proof.
  intros s Hs. unfold SK8.reset_imus.
  pose proof (reset_from_length now 0 (SK8._imus s)) as Hlen.
  destruct (SK8.reset_from now 0 (SK8._imus s)). by apply P_imus.
Qed.

Ltac keep_step :=
  match goal with
  | |- keeps _ (SK8.on_imu _ _) => apply keeps_on_imu
  | |- keeps _ (SK8.on_client _) => apply keeps_on_client
  | |- keeps _ (SK8.on_extana _) => apply keeps_on_extana
  | |- keeps _ (SK8.reset_imus _) => apply keeps_reset_imus
  | |- keeps _ (mbind _ _) => apply keeps_bind; [|intros ?]
  | |- keeps _ (mret _) => apply keeps_ret
  | |- keeps _ (raise _) => apply keeps_raise
  | |- keeps _ (lift _) => apply keeps_lift
  | |- keeps _ get => apply keeps_get
  | |- keeps _ (modify _) => apply keeps_modify; intros ? ?; auto
  | |- keeps _ (if ?c then _ else _) => destruct c
  | |- keeps _ (match ?c with _ => _ end) => destruct c
  end.

Lemma keeps_get_characteristic u : keeps P (SK8._get_characteristic_from_uuid u).
Proof. unfold SK8._get_characteristic_from_uuid. repeat keep_step. Qed.

Lemma keeps_write_attribute h data : keeps P (SK8._write_attribute h data).
Proof. unfold SK8._write_attribute. repeat keep_step. Qed.

Lemma keeps_load_sections sections ixs b : keeps P (SK8.load_sections sections ixs b).
Proof.
  revert b. induction ixs as [|i ixs IH]; intros b; [apply keeps_ret|].
  cbn [SK8.load_sections]. repeat first [ apply IH | keep_step ].
Qed.

Lemma keeps_load_calibration sections : keeps P (SK8.load_calibration sections).
Proof.
  unfold SK8.load_calibration. repeat first [ apply keeps_load_sections | keep_step ].
Qed.

Lemma keeps_enable_imu_streaming imus sensors :
  keeps P (SK8.enable_imu_streaming imus sensors).
Proof.
  unfold SK8.enable_imu_streaming, SK8._get_characteristic_handle_from_uuid.
  repeat first [ apply keeps_get_characteristic | apply keeps_write_attribute | keep_step ].
Qed.

Lemma keeps_run_call c : forall s, P s -> P (run_call c s).
Proof.
  destruct c; cbn [run_call];
    match goal with |- forall s, P s -> P (fst (?m s)) => change (keeps P m) end.
  - unfold SK8.connect. destruct name, address, found as [[]|];
      repeat first [ apply keeps_load_calibration | keep_step ].
  - unfold SK8.disconnect. repeat keep_step.
  - apply keeps_load_calibration.
  - unfold SK8.set_calibration. apply keeps_for_. intros x. repeat keep_step.
  - apply keeps_enable_imu_streaming.
  - unfold SK8.enable_extana_streaming, SK8._get_characteristic_handle_from_uuid.
    repeat first [ apply keeps_enable_imu_streaming | apply keeps_get_characteristic
                 | apply keeps_write_attribute | keep_step ].
  - unfold SK8.disable_imu_streaming.
    repeat first [ apply keeps_get_characteristic | keep_step ].
  - unfold SK8.disable_extana_streaming.
    repeat first [ apply keeps_get_characteristic | keep_step ].
  - unfold SK8._imu_callback. keep_step.
  - unfold SK8._extana_callback. keep_step.
  - unfold SK8.get_device_name, SK8._read_attribute,
      SK8._get_characteristic_handle_from_uuid.
    repeat first [ apply keeps_get_characteristic | keep_step ].
  - unfold SK8.set_device_name, SK8._get_characteristic_handle_from_uuid.
    repeat first [ apply keeps_get_characteristic | apply keeps_write_attribute
                 | keep_step ].
  - unfold SK8.set_polling_override, SK8._get_characteristic_handle_from_uuid.
    repeat first [ apply keeps_get_characteristic | apply keeps_write_attribute
                 | keep_step ].
  - unfold SK8.reset_received_packets. keep_step.
  - unfold SK8.get_imu. repeat keep_step.
Qed.

Lemma keeps_run_calls cs : forall s, P s -> P (run_calls cs s).
Proof.
  unfold run_calls. induction cs as [|c cs IH]; intros s Hs; [exact Hs|].
  cbn [foldl]. apply IH. by apply keeps_run_call.
Qed.

End invariant.

Lemma constructed lc now s0 :
  SK8.__init__ lc now = Ret s0 ->
  SK8._packets s0 = 0 /\ length (SK8._imus s0) = Z.to_nat MAX_IMUS.
Proof.
  unfold SK8.__init__.
  destruct (for_each _ _) as [imus|e] eqn:Himus; [|discriminate].
  intros [= <-]. split; [reflexivity|].
  cbn [SK8._imus]. rewrite (for_each_length _ _ _ Himus). apply length_seq.
Qed.

(** X23: nothing counts received packets: on a session made by the
    constructor, [get_received_packets] is 0 after any sequence of calls and
    incoming IMU and ExtAna packets, whether the calls return or raise. *)
Theorem X23_received_packets_are_never_counted lc now s0 cs :
  SK8.__init__ lc now = Ret s0 ->
  SK8.get_received_packets (run_calls cs s0) = 0.
Proof.
  intros Hinit. destruct (constructed lc now s0 Hinit) as [H0 _].
  apply (keeps_run_calls (fun s => SK8._packets s = 0)); try (by intros ? []); try done.
  by intros [].
Qed.

Lemma X23_received_packets_are_never_counted_witness :
  SK8.get_received_packets
    (run_calls [Connect (Some "SK8"%string) None (Some sk8_device) ∅;
                EnableImuStreaming [1; 2] SENSOR_ALL;
                ImuPacket [I 1; I 2; I 3] [I 0; I 0; I 0] [I 0; I 0; I 0] 1 0 1 1;
                ImuPacket [I 1; I 2; I 3] [I 0; I 0; I 0] [I 0; I 0; I 0] 2 0 1 1]
       sk8_new) = 0.
Proof.
  apply (X23_received_packets_are_never_counted true (fun _ => 0%Q) sk8_new).
  vm_compute. reflexivity.
Defined.

(** X24: a session made by the constructor has its five IMUs after any
    sequence of calls and packets: [get_imu] returns an IMU for every index
    from 0 to 4 and None for any other index; it never raises. *)
Theorem X24_get_imu_answers_on_every_session lc now s0 cs n :
  SK8.__init__ lc now = Ret s0 ->
  exists r,
    SK8.get_imu n (run_calls cs s0) = (run_calls cs s0, Ret r) /\
    (is_Some r <-> 0 <= n < MAX_IMUS).
Proof.
  intros Hinit. destruct (constructed lc now s0 Hinit) as [_ H5].
  assert (Hlen : length (SK8._imus (run_calls cs s0)) = Z.to_nat MAX_IMUS).
  { apply (keeps_run_calls (fun s => length (SK8._imus s) = Z.to_nat MAX_IMUS));
      try (by intros ? []); try done.
    - intros v [] Hv Hs. cbn in *. congruence.
    - by intros []. }
  set (s := run_calls cs s0) in *. clearbody s.
  unfold SK8.get_imu, MAX_IMUS in *.
  destruct (Z.ltb_spec n 0) as [Hneg|Hpos]; cbn [orb].
  { exists None. split; [reflexivity|]. split; [by intros [? ?]|lia]. }
  destruct (Z.geb_spec n 5) as [Hbig|Hsmall].
  { exists None. split; [reflexivity|]. split; [by intros [? ?]|lia]. }
  destruct (lookup_lt_is_Some_2 (SK8._imus s) (Z.to_nat n)) as [d Hd]; [lia|].
  exists (Some d). cbv [mbind M_bind get lift mret M_ret]. unfold item. rewrite Hd.
  split; [reflexivity|]. split; [lia|by eexists].
Qed.

Lemma X24_get_imu_answers_on_every_session_witness :
  exists r,
    SK8.get_imu 4
      (run_calls [Connect (Some "SK8"%string) None (Some sk8_device) ∅;
                  DisableImuStreaming (fun _ => 2%Q)] sk8_new)
    = (run_calls [Connect (Some "SK8"%string) None (Some sk8_device) ∅;
                  DisableImuStreaming (fun _ => 2%Q)] sk8_new, Ret r) /\
    (is_Some r <-> 0 <= 4 < MAX_IMUS).
Proof.
  apply (X24_get_imu_answers_on_every_session true (fun _ => 0%Q) sk8_new).
  vm_compute. reflexivity.
Defined.

(** ** Device name and polling override *)

Lemma set_device_name_state new_name s :
  SK8._check_connected s = true ->
  SK8._check_connected (fst (SK8.set_device_name new_name s)) = true /\
  SK8._name (fst (SK8.set_device_name new_name s)) = SK8._name s.
Proof.
  intros Hc.
  assert (Hn : forall u s, SK8._name (cache_add u s) = SK8._name s)
    by (intros u s'; unfold cache_add; destruct (characteristic s' u); by destruct s').
  assert (Hw : forall h d s, SK8._name (wrote h d s) = SK8._name s)
    by (intros h d [? ? ? ? ? ? [c|] ? ?]; reflexivity).
  unfold SK8.set_device_name, SK8._get_characteristic_handle_from_uuid.
  cbv [mbind M_bind get mret M_ret lift modify bool_of_None].
  rewrite Hc. cbn [negb].
  destruct (_ <? _); [done|]. destruct (_ =? _)%nat; [done|].
  rewrite run_get_characteristic by conn.
  destruct (characteristic s UUID_DEVICE_NAME) as [h|]; cbn [fst].
  - destruct (encode_ascii new_name) as [data|e]; cbn [fst].
    + rewrite run_write_attribute by conn. cbn [fst].
      rewrite Hw, Hn. split; [conn|done].
    + rewrite Hn. split; [conn|done].
  - rewrite Hn. split; [conn|done].
Qed.

Lemma set_device_name_never_true new_name s :
  snd (SK8.set_device_name new_name s) <> Ret true.
Proof.
  unfold SK8.set_device_name, SK8._get_characteristic_handle_from_uuid.
  cbv [mbind M_bind get mret M_ret lift modify bool_of_None].
  destruct (negb _); [done|]. destruct (_ <? _); [done|]. destruct (_ =? _)%nat; [done|].
  destruct (SK8._get_characteristic_from_uuid _ _) as [s1 [[h|]|e]]; try done.
  destruct (encode_ascii new_name) as [data|e]; [|done].
  by destruct (SK8._write_attribute _ _ _) as [s2 [[]|e]].
Qed.

(** X25: [set_device_name] never returns True and never changes the name the
    session has cached; for a connected device with the name characteristic
    and an ASCII name of 1 to 20 characters it does send the new name to the
    device, and still returns False. *)
Theorem X25_set_device_name_writes_but_reports_failure new_name data h s :
  SK8._check_connected s = true ->
  (0 < String.length new_name)%nat ->
  Z.of_nat (String.length new_name) <= MAX_DEVICE_NAME_LEN ->
  encode_ascii new_name = Ret data ->
  characteristic s UUID_DEVICE_NAME = Some h ->
  (exists s',
      SK8.set_device_name new_name s = (s', Ret false) /\
      writes s' = writes s ++ [(h, data)] /\
      SK8._name s' = SK8._name s) /\
  (forall name s0, snd (SK8.set_device_name name s0) <> Ret true).
Proof.
  intros Hc Hlen Hmax Hdata Hh. split; [|apply set_device_name_never_true].
  pose proof (set_device_name_state new_name s Hc) as [_ Hname].
  revert Hname.
  unfold SK8.set_device_name, SK8._get_characteristic_handle_from_uuid.
  cbv [mbind M_bind get mret M_ret lift modify bool_of_None].
  rewrite Hc. cbn [negb].
  destruct (Z.ltb_spec MAX_DEVICE_NAME_LEN (Z.of_nat (String.length new_name)));
    [lia|].
  destruct (Nat.eqb_spec (String.length new_name) 0); [lia|].
  rewrite run_get_characteristic, Hh, Hdata by conn.
  rewrite run_write_attribute by conn. cbn [fst]. intros Hname.
  eexists. split; [reflexivity|]. split; [|exact Hname].
  rewrite writes_wrote by conn. by autorewrite with session.
Qed.

Lemma X25_set_device_name_writes_but_reports_failure_witness :
  (exists s',
      SK8.set_device_name "SK9" sk8_full = (s', Ret false) /\
      writes s' = writes sk8_full ++ [(20, [x53; x4b; x39])] /\
      SK8._name s' = SK8._name sk8_full) /\
  (forall name s0, snd (SK8.set_device_name name s0) <> Ret true).
Proof.
  apply (X25_set_device_name_writes_but_reports_failure "SK9" [x53; x4b; x39] 20
           sk8_full).
  - vm_compute. reflexivity.
  - vm_compute. lia.
  - vm_compute. discriminate.
  - vm_compute. reflexivity.
  - vm_compute. reflexivity.
Defined.

(** X26: [set_polling_override] never returns True; on a connected device
    with the polling characteristic and a value from 0 to 255 it writes that
    value as one byte and returns False. *)
Theorem X26_set_polling_override_writes_but_reports_failure override h s :
  SK8._check_connected s = true ->
  0 <= override <= 255 ->
  characteristic s UUID_POLLING_OVERRIDE = Some h ->
  (exists s' b,
      SK8.set_polling_override override s = (s', Ret false) /\
      writes s' = writes s ++ [(h, [b])] /\
      Z_of_byte b = override) /\
  (forall v s0, snd (SK8.set_polling_override v s0) <> Ret true).
Proof.
  intros Hc Hv Hh. split.
  - destruct (proj1 (struct_pack_B_range override) Hv) as [b Hb].
    unfold SK8.set_polling_override, SK8._get_characteristic_handle_from_uuid.
    cbv [mbind M_bind get mret M_ret lift modify bool_of_None].
    rewrite run_get_characteristic, Hh, Hb by conn.
    rewrite run_write_attribute by conn.
    exists (wrote h [b] (cache_add UUID_POLLING_OVERRIDE s)), b.
    split; [reflexivity|]. split; [|by apply struct_pack_B_value].
    rewrite writes_wrote by conn. by autorewrite with session.
  - intros v s0.
    unfold SK8.set_polling_override, SK8._get_characteristic_handle_from_uuid.
    cbv [mbind M_bind get mret M_ret lift modify bool_of_None].
    destruct (SK8._get_characteristic_from_uuid _ _) as [s1 [[h'|]|e]]; try done.
    destruct (struct_pack_B v) as [data|e]; [|done].
    by destruct (SK8._write_attribute _ _ _) as [s2 [[]|e]].
Qed.

Lemma X26_set_polling_override_writes_but_reports_failure_witness :
  (exists s' b,
      SK8.set_polling_override 50 sk8_full = (s', Ret false) /\
      writes s' = writes sk8_full ++ [(21, [b])] /\
      Z_of_byte b = 50) /\
  (forall v s0, snd (SK8.set_polling_override v s0) <> Ret true).
Proof.
  apply (X26_set_polling_override_writes_but_reports_failure 50 21 sk8_full).
  - vm_compute. reflexivity.
  - lia.
  - vm_compute. reflexivity.
Defined.

Lemma get_device_name_cached name read s :
  SK8._check_connected s = true ->
  SK8._name s = Some name ->
  SK8.get_device_name true read s = (s, Ret (Some name)).
Proof.
  intros Hc Hn. unfold SK8.get_device_name. cbv [mbind M_bind get].
  by rewrite Hc, Hn.
Qed.

(** X27: [get_device_name(cached=False)] on a connected device that answers
    with ASCII bytes returns the decoded name and caches it; from then on
    [get_device_name()] returns that name without reading the device, also
    after [set_device_name] has sent a new name. *)
Theorem X27_device_name_is_cached_until_read_again h data name read s :
  SK8._check_connected s = true ->
  characteristic s UUID_DEVICE_NAME = Some h ->
  read h = Ret data ->
  decode_ascii data = Ret name ->
  exists s1,
    SK8.get_device_name false read s = (s1, Ret (Some name)) /\
    (forall read', SK8.get_device_name true read' s1 = (s1, Ret (Some name))) /\
    (forall new_name read',
        let s2 := fst (SK8.set_device_name new_name s1) in
        SK8.get_device_name true read' s2 = (s2, Ret (Some name))).
Proof.
  intros Hc Hh Hread Hdec.
  set (s1 := SK8.set__name (Some name) (cache_add UUID_DEVICE_NAME s)).
  assert (Hc1 : SK8._check_connected s1 = true).
  { transitivity (SK8._check_connected (cache_add UUID_DEVICE_NAME s)); [|conn].
    unfold s1. by destruct (cache_add _ _). }
  assert (Hn1 : SK8._name s1 = Some name) by (unfold s1; by destruct (cache_add _ _)).
  exists s1. split; [|split].
  - unfold SK8.get_device_name, SK8._get_characteristic_handle_from_uuid,
      SK8._read_attribute.
    cbv [mbind M_bind get mret M_ret lift modify].
    rewrite Hc. cbn [negb].
    rewrite run_get_characteristic, Hh by conn.
    replace (SK8._check_connected (cache_add UUID_DEVICE_NAME s)) with true
      by (symmetry; conn).
    cbn [negb]. by rewrite Hread, Hdec.
  - intros read'. by apply get_device_name_cached.
  - intros new_name read' s2.
    destruct (set_device_name_state new_name s1 Hc1) as [Hc2 Hn2].
    apply get_device_name_cached; [exact Hc2|]. unfold s2. by rewrite Hn2.
Qed.

Lemma X27_device_name_is_cached_until_read_again_witness :
  exists s1,
    SK8.get_device_name false sk8_reads sk8_full = (s1, Ret (Some "SK8"%string)) /\
    (forall read', SK8.get_device_name true read' s1 = (s1, Ret (Some "SK8"%string))) /\
    (forall new_name read',
        let s2 := fst (SK8.set_device_name new_name s1) in
        SK8.get_device_name true read' s2 = (s2, Ret (Some "SK8"%string))).
Proof.
  apply (X27_device_name_is_cached_until_read_again 20 [x53; x4b; x38] "SK8" sk8_reads
           sk8_full).
  - vm_compute. reflexivity.
  - vm_compute. reflexivity.
  - vm_compute. reflexivity.
  - vm_compute. reflexivity.
Defined.

(** ** Hardware state and LED *)

Lemma get_characteristic_none u c :
  SK8._check_connected c = false \/ characteristic c u = None ->
  SK8._get_characteristic_from_uuid u c = (c, Ret None).
Proof.
  intros H. destruct (SK8._check_connected c) eqn:Hc.
  - destruct H as [|Hu]; [done|].
    rewrite run_get_characteristic by exact Hc. unfold cache_add. by rewrite Hu.
  - unfold SK8._get_characteristic_from_uuid. cbv [mbind M_bind get]. by rewrite Hc.
Qed.

Lemma run_on_core {A} (m : M SK8.t A) s c o :
  m (SK8_more.core s) = (c, o) -> SK8_more.on_core m s = (SK8_more.set_core c s, o).
Proof. intros H. unfold SK8_more.on_core. by rewrite H. Qed.

Lemma set_core_same s : SK8_more.set_core (SK8_more.core s) s = s.
Proof. by destruct s. Qed.

Lemma check_hardware_unreadable read s :
  SK8._check_connected (SK8_more.core s) = false \/
  (characteristic (SK8_more.core s) UUID_HARDWARE_STATE = None /\
   characteristic (SK8_more.core s) UUID_HARDWARE_STATE_TMP = None) ->
  SK8_more._check_hardware read s = (s, Ret (-1)).
Proof.
  intros H. unfold SK8_more._check_hardware, SK8._get_characteristic_handle_from_uuid.
  cbv [mbind M_bind].
  rewrite (run_on_core _ s (SK8_more.core s) (Ret None)), set_core_same
    by (apply get_characteristic_none; tauto).
  rewrite (run_on_core _ s (SK8_more.core s) (Ret None)), set_core_same
    by (apply get_characteristic_none; tauto).
  reflexivity.
Qed.

(** X28: when the hardware state cannot be read, because the session is not
    connected or the device has neither hardware state characteristic,
    [has_extana(cached=False)] and [has_imus(cached=False)] return True, for
    any masks that are not zero, and leave the session as it was. *)
Theorem X28_unreadable_hardware_state_reads_as_present
    EXT_HW_IMUS EXT_HW_EXTANA read s :
  SK8._check_connected (SK8_more.core s) = false \/
  (characteristic (SK8_more.core s) UUID_HARDWARE_STATE = None /\
   characteristic (SK8_more.core s) UUID_HARDWARE_STATE_TMP = None) ->
  EXT_HW_IMUS <> 0 -> EXT_HW_EXTANA <> 0 ->
  SK8_more.has_extana EXT_HW_EXTANA false read s = (s, Ret true) /\
  SK8_more.has_imus EXT_HW_IMUS false read s = (s, Ret true).
Proof.
  intros H Hi He.
  unfold SK8_more.has_extana, SK8_more.has_imus, SK8_more.has_hardware.
  cbv [mbind M_bind get mret M_ret].
  rewrite (check_hardware_unreadable read s H), !Z.land_m1_l.
  split; f_equal; f_equal; apply negb_true_iff, Z.eqb_neq; done.
Qed.

Lemma X28_unreadable_hardware_state_reads_as_present_witness :
  SK8_more.has_extana 2 false sk8_reads (SK8_more.mk sk8_new None None (-1) None)
  = (SK8_more.mk sk8_new None None (-1) None, Ret true) /\
  SK8_more.has_imus 1 false sk8_reads (SK8_more.mk sk8_new None None (-1) None)
  = (SK8_more.mk sk8_new None None (-1) None, Ret true).
Proof.
  apply (X28_unreadable_hardware_state_reads_as_present 1 2 sk8_reads
           (SK8_more.mk sk8_new None None (-1) None)).
  - left. vm_compute. reflexivity.
  - lia.
  - lia.
Defined.

(** X29: the constructor creates neither [hardware] nor [led_state]: until
    a hardware query has read the device, [has_extana()] and [has_imus()]
    with their default [cached=True] raise [AttributeError]; until
    [set_extana_led] has succeeded, so do [get_extana_led()] and
    [set_extana_led(r, g, b)] with channels in range and the default
    [check_state=True]; the session is left as it was. *)
Theorem X29_caches_missing_until_first_success s :
  SK8_more.hardware s = None ->
  SK8_more.led_state s = None ->
  (forall mask read, SK8_more.has_extana mask true read s = (s, Raise AttributeError)) /\
  (forall mask read, SK8_more.has_imus mask true read s = (s, Raise AttributeError)) /\
  (forall read, SK8_more.get_extana_led true read s = (s, Raise AttributeError)) /\
  (forall r g b,
      LED_MIN <= r <= LED_MAX -> LED_MIN <= g <= LED_MAX -> LED_MIN <= b <= LED_MAX ->
      SK8_more.set_extana_led r g b true s = (s, Raise AttributeError)).
Proof.
  intros Hh Hl. repeat split.
  - intros mask read. unfold SK8_more.has_extana, SK8_more.has_hardware.
    cbv [mbind M_bind get lift]. by rewrite Hh.
  - intros mask read. unfold SK8_more.has_imus, SK8_more.has_hardware.
    cbv [mbind M_bind get lift]. by rewrite Hh.
  - intros read. unfold SK8_more.get_extana_led. cbv [mbind M_bind get lift].
    by rewrite Hl.
  - intros r g b Hr Hg Hb. unfold SK8_more.set_extana_led, LED_MIN, LED_MAX in *.
    destruct (Z.ltb_spec (Z.min r (Z.min g b)) 0) as [|_]; [lia|].
    destruct (Z.ltb_spec 255 (Z.max r (Z.max g b))) as [|_]; [lia|].
    cbn [orb]. cbv [mbind M_bind get lift]. by rewrite Hl.
Qed.

Lemma X29_caches_missing_until_first_success_witness :
  (forall mask read,
      SK8_more.has_extana mask true read sk8_more_full
      = (sk8_more_full, Raise AttributeError)) /\
  (forall mask read,
      SK8_more.has_imus mask true read sk8_more_full
      = (sk8_more_full, Raise AttributeError)) /\
  (forall read,
      SK8_more.get_extana_led true read sk8_more_full
      = (sk8_more_full, Raise AttributeError)) /\
  (forall r g b,
      LED_MIN <= r <= LED_MAX -> LED_MIN <= g <= LED_MAX -> LED_MIN <= b <= LED_MAX ->
      SK8_more.set_extana_led r g b true sk8_more_full
      = (sk8_more_full, Raise AttributeError)).
Proof.
  apply (X29_caches_missing_until_first_success sk8_more_full).
  - reflexivity.
  - reflexivity.
Defined.

Lemma scale_channel_range x :
  LED_MIN <= x <= LED_MAX -> 0 <= SK8_more.scale_channel INT_LED_MAX LED_MAX x <= 3000.
Proof.
  unfold LED_MIN, LED_MAX, INT_LED_MAX, SK8_more.scale_channel. intros Hx.
  set (q := (inject_Z x * (inject_Z 3000 / inject_Z 255))%Q).
  assert (Hq : (0 <= q <= inject_Z 3000)%Q).
  { assert (H0 : (inject_Z 0 <= inject_Z x)%Q) by (rewrite <- Zle_Qle; lia).
    assert (H1 : (inject_Z x <= inject_Z 255)%Q) by (rewrite <- Zle_Qle; lia).
    unfold q. change (inject_Z 0) with 0%Q in H0.
    change (inject_Z 3000 / inject_Z 255)%Q with (3000 # 255)%Q.
    change (inject_Z 3000) with (3000 # 1)%Q. change (inject_Z 255) with (255 # 1)%Q in H1.
    split; lra. }
  rewrite Qtrunc_nonneg by apply Hq. split.
  - change 0 with (Qfloor 0). apply Qfloor_resp_le, Hq.
  - rewrite <- (Qfloor_Z 3000). apply Qfloor_resp_le, Hq.
Qed.

Lemma struct_pack_H_ok v : 0 <= v <= 65535 -> exists bs, struct_pack_H v = Ret bs.
Proof.
  intros Hv. unfold struct_pack_H.
  destruct (Z.ltb_spec v 0) as [|_]; [lia|].
  destruct (Z.ltb_spec 65535 v) as [|_]; [lia|]. cbn [orb].
  destruct (Byte.of_N (Z.to_N (v `mod` 256))) as [lo|] eqn:Hlo.
  - destruct (Byte.of_N (Z.to_N (v / 256))) as [hi|] eqn:Hhi; [by eexists|].
    apply Byte.of_N_None_iff in Hhi.
    assert (v / 256 < 256) by (apply Z.div_lt_upper_bound; lia). lia.
  - apply Byte.of_N_None_iff in Hlo.
    pose proof (Z.mod_pos_bound v 256 ltac:(lia)). lia.
Qed.

Lemma set_extana_led_writes r g b check_state :
  preserves (fun s => writes (SK8_more.core s)) (SK8_more.set_extana_led r g b check_state).
Proof.
  assert (Hcore : forall u,
            preserves (fun s => writes (SK8_more.core s))
              (SK8_more.on_core (SK8._get_characteristic_handle_from_uuid u))).
  { intros u s. unfold SK8_more.on_core.
    pose proof (writes_get_characteristic u (SK8_more.core s)) as Hw.
    unfold SK8._get_characteristic_handle_from_uuid.
    destruct (SK8._get_characteristic_from_uuid u (SK8_more.core s)) as [c o].
    cbn [fst] in *. by destruct s. }
  unfold SK8_more.set_extana_led, bool_of_coroutine. cbn [negb].
  repeat first [ apply Hcore | frame_step ].
Qed.

(** X30: [set_extana_led] never writes to the device.  Called with
    [check_state=False] and channels in range on a connected device that has
    the LED characteristic, it returns True and records the colour, which
    [get_extana_led()] then reports, although nothing was sent. *)
Theorem X30_set_extana_led_never_writes r g b h s :
  SK8._check_connected (SK8_more.core s) = true ->
  characteristic (SK8_more.core s) UUID_EXTANA_LED = Some h ->
  LED_MIN <= r <= LED_MAX -> LED_MIN <= g <= LED_MAX -> LED_MIN <= b <= LED_MAX ->
  (exists s',
      SK8_more.set_extana_led r g b false s = (s', Ret true) /\
      writes (SK8_more.core s') = writes (SK8_more.core s) /\
      forall read, SK8_more.get_extana_led true read s' = (s', Ret (r, g, b))) /\
  (forall r0 g0 b0 check_state s0,
      writes (SK8_more.core (fst (SK8_more.set_extana_led r0 g0 b0 check_state s0)))
      = writes (SK8_more.core s0)).
Proof.
  intros Hc Hh Hr Hg Hb. split; [|intros; apply set_extana_led_writes].
  pose proof (set_extana_led_writes r g b false s) as Hw. cbn beta in Hw. revert Hw.
  destruct (struct_pack_H_ok (SK8_more.scale_channel INT_LED_MAX LED_MAX r))
    as [br Hbr]; [pose proof (scale_channel_range r Hr); lia|].
  destruct (struct_pack_H_ok (SK8_more.scale_channel INT_LED_MAX LED_MAX g))
    as [bg Hbg]; [pose proof (scale_channel_range g Hg); lia|].
  destruct (struct_pack_H_ok (SK8_more.scale_channel INT_LED_MAX LED_MAX b))
    as [bb Hbb]; [pose proof (scale_channel_range b Hb); lia|].
  unfold SK8_more.set_extana_led, struct_pack_HHH, bool_of_coroutine,
    SK8._get_characteristic_handle_from_uuid.
  unfold LED_MIN, LED_MAX in Hr, Hg, Hb.
  destruct (Z.ltb_spec (Z.min r (Z.min g b)) LED_MIN) as [Hlo|_];
    [unfold LED_MIN in Hlo; lia|].
  destruct (Z.ltb_spec LED_MAX (Z.max r (Z.max g b))) as [Hhi|_];
    [unfold LED_MAX in Hhi; lia|].
  cbn [orb negb]. cbv [mbind M_bind get mret M_ret lift modify outcome_bind].
  rewrite Hbr, Hbg, Hbb.
  rewrite (run_on_core _ s _ _ (run_get_characteristic UUID_EXTANA_LED _ Hc)), Hh.
  cbn [fst]. intros Hw.
  eexists. split; [reflexivity|]. split; [exact Hw|].
  intros read. unfold SK8_more.get_extana_led. cbv [mbind M_bind get lift].
  by destruct s.
Qed.

Lemma X30_set_extana_led_never_writes_witness :
  (exists s',
      SK8_more.set_extana_led 255 0 128 false sk8_more_full = (s', Ret true) /\
      writes (SK8_more.core s') = writes (SK8_more.core sk8_more_full) /\
      forall read, SK8_more.get_extana_led true read s' = (s', Ret (255, 0, 128))) /\
  (forall r0 g0 b0 check_state s0,
      writes (SK8_more.core (fst (SK8_more.set_extana_led r0 g0 b0 check_state s0)))
      = writes (SK8_more.core s0)).
Proof.
  apply (X30_set_extana_led_never_writes 255 0 128 22 sk8_more_full).
  - vm_compute. reflexivity.
  - vm_compute. reflexivity.
  - vm_compute. split; discriminate.
  - vm_compute. split; discriminate.
  - vm_compute. split; discriminate.
Defined.
